(** * A variational autoencoder on MNIST: the script [vae_mnist_wandb.py]

    The script is embedded over the real numbers: a value of a tensor is a
    real, and rounding is not part of the picture.  A tensor is a contiguous
    block of values together with its list of sizes, as the numeric library
    stores it; the library calls the script makes ([nn.Linear], [relu],
    [sigmoid], [binary_cross_entropy], [view], ...) are given by their
    documented meaning on such blocks.  Calls that raise in Python return
    [None] here. *)

From Stdlib Require Import String Reals Lra Lia List Arith Bool Permutation.
Import ListNotations.

Local Open Scope R_scope.

(** ** Tensors *)

Record Tensor : Type := mkTensor { shape : list nat; data : list R }.

Definition numel (s : list nat) : nat := fold_right Nat.mul 1%nat s.

(** The storage holds exactly as many values as the sizes announce. *)
Definition wf (t : Tensor) : Prop := length (data t) = numel (shape t).

Definition shape_eqb (s t : list nat) : bool :=
  if list_eq_dec Nat.eq_dec s t then true else false.

Fixpoint map2 {A B C : Type} (f : A -> B -> C) (u : list A) (v : list B) : list C :=
  match u, v with
  | a :: u', b :: v' => f a b :: map2 f u' v'
  | _, _ => []
  end.

Definition Rsum (l : list R) : R := fold_right Rplus 0 l.

(** [chunk k i d]: the [i]-th run of [k] consecutive values of [d]. *)
Definition chunk {A : Type} (k i : nat) (d : list A) : list A :=
  firstn k (skipn (i * k) d).

(** A Python scalar and a 0-d tensor. *)
Definition scalar (v : R) : Tensor := mkTensor [] [v].

(** [t.item()]: the single value of a one-element tensor. *)
Definition item (t : Tensor) : option R :=
  match data t with
  | [v] => Some v
  | _ => None
  end.

(** Elementwise unary operations and operations with a Python scalar. *)
Definition tmap (f : R -> R) (t : Tensor) : Tensor := mkTensor (shape t) (map f (data t)).

Definition texp : Tensor -> Tensor := tmap exp.
Definition tpow (t : Tensor) (n : nat) : Tensor := tmap (fun v => v ^ n) t.
Definition relu : Tensor -> Tensor := tmap (Rmax 0).
Definition sigmoid : Tensor -> Tensor := tmap (fun v => 1 / (1 + exp (- v))).
Definition scalar_add (c : R) : Tensor -> Tensor := tmap (fun v => c + v).
Definition scalar_mul (c : R) : Tensor -> Tensor := tmap (fun v => c * v).

(** Broadcasting of two lists of sizes, aligned at the last dimension: two
    sizes go together when they are equal or one of them is 1. *)
Fixpoint broadcast_rev (a b : list nat) : option (list nat) :=
  match a, b with
  | [], _ => Some b
  | _, [] => Some a
  | n :: a', m :: b' =>
      match broadcast_rev a' b' with
      | None => None
      | Some r =>
          if (n =? m)%nat then Some (n :: r)
          else if (n =? 1)%nat then Some (m :: r)
          else if (m =? 1)%nat then Some (n :: r)
          else None
      end
  end.

Definition broadcast_shapes (a b : list nat) : option (list nat) :=
  option_map (@rev nat) (broadcast_rev (rev a) (rev b)).

(** Missing leading dimensions count as 1. *)
Definition pad (s t : list nat) : list nat := repeat 1%nat (length t - length s) ++ s.

(** [expand s t d]: the values [d] of sizes [s] repeated to sizes [t]. *)
Fixpoint expand (s t : list nat) (d : list R) : list R :=
  match s, t with
  | n :: s', m :: t' =>
      if (n =? m)%nat
      then flat_map (fun i => expand s' t' (chunk (numel s') i d)) (seq 0 n)
      else concat (repeat (expand s' t' d) m)
  | _, _ => d
  end.

(** Elementwise binary operation on two tensors; [None] when the sizes do
    not broadcast (the library raises). *)
Definition tzip (f : R -> R -> R) (a b : Tensor) : option Tensor :=
  match broadcast_shapes (shape a) (shape b) with
  | None => None
  | Some s =>
      Some (mkTensor s (map2 f (expand (pad (shape a) s) s (data a))
                               (expand (pad (shape b) s) s (data b))))
  end.

Definition tadd : Tensor -> Tensor -> option Tensor := tzip Rplus.
Definition tsub : Tensor -> Tensor -> option Tensor := tzip Rminus.
Definition tmul : Tensor -> Tensor -> option Tensor := tzip Rmult.

(** [torch.sum(t)]: a 0-d tensor. *)
Definition tsum (t : Tensor) : Tensor := scalar (Rsum (data t)).

(** [t.view(s)]: same storage, new sizes; raises when the counts differ. *)
Definition view (s : list nat) (t : Tensor) : option Tensor :=
  if (numel (shape t) =? numel s)%nat then Some (mkTensor s (data t)) else None.


(** ** Failure and the random generator

    The library's global generator is an explicit state.  What it yields is
    left open: an instance fixes the draws, which is how a run with the
    noise pinned to a known value is written. *)

Class RandomSource : Type := {
  Generator : Type;
  (** [n] draws of the standard normal distribution *)
  randn : nat -> Generator -> list R * Generator;
  (** [n] uniform draws between two bounds *)
  uniform : R -> R -> nat -> Generator -> list R * Generator;
  (** a random order of the indices [0 .. n-1] *)
  randperm : nat -> Generator -> list nat * Generator;
  randn_length : forall n g, length (fst (randn n g)) = n;
  uniform_length : forall lo hi n g, length (fst (uniform lo hi n g)) = n;
  randperm_perm : forall n g, Permutation (fst (randperm n g)) (seq 0 n)
}.

Definition obind {A B : Type} (c : option A) (k : A -> option B) : option B :=
  match c with
  | Some a => k a
  | None => None
  end.

Notation "'let?' x := c 'in' k" := (obind c (fun x => k))
  (at level 10, x name, c at level 100, k at level 200).

(** Code that may raise and may draw from the generator. *)
Definition Torch {RS : RandomSource} (A : Type) : Type :=
  Generator -> option (A * Generator).

Definition ret {RS : RandomSource} {A : Type} (a : A) : Torch A :=
  fun g => Some (a, g).

Definition bind {RS : RandomSource} {A B : Type} (c : Torch A) (k : A -> Torch B) : Torch B :=
  fun g => match c g with
           | Some (a, g') => k a g'
           | None => None
           end.

Definition lift {RS : RandomSource} {A : Type} (c : option A) : Torch A :=
  fun g => match c with
           | Some a => Some (a, g)
           | None => None
           end.

Notation "x <- c ;; k" := (bind c (fun x => k))
  (at level 200, c at level 100, k at level 200, right associativity).
Notation "' pat <- c ;; k" := (bind c (fun v => match v with pat => k end))
  (at level 10, pat pattern, c at level 100, k at level 200).

(** [torch.randn] of given sizes and [torch.randn_like(t)] *)
Definition torch_randn {RS : RandomSource} (s : list nat) : Torch Tensor :=
  fun g => let (d, g') := randn (numel s) g in Some (mkTensor s d, g').

Definition randn_like {RS : RandomSource} (t : Tensor) : Torch Tensor :=
  torch_randn (shape t).

Definition torch_uniform {RS : RandomSource} (lo hi : R) (s : list nat) : Torch Tensor :=
  fun g => let (d, g') := uniform lo hi (numel s) g in Some (mkTensor s d, g').

(** ** [nn.Linear] *)

Module Linear.

Record t : Type := mk {
  in_features : nat;
  out_features : nat;
  weight : Tensor;   (* sizes [out_features; in_features] *)
  bias : Tensor      (* sizes [out_features] *)
}.

(** [nn.Linear(in_features, out_features)]: both parameters start uniform
    between [-1/sqrt(in_features)] and [1/sqrt(in_features)]. *)
Definition init {RS : RandomSource} (in_f out_f : nat) : Torch t :=
  let bound := 1 / sqrt (INR in_f) in
  w <- torch_uniform (- bound) bound [out_f; in_f] ;;
  b <- torch_uniform (- bound) bound [out_f] ;;
  ret (mk in_f out_f w b).

Definition dot (u v : list R) : R := Rsum (map2 Rmult u v).

(** One output row: [row . W^T + b]. *)
Definition apply_row (self : t) (row : list R) : list R :=
  map2 Rplus
    (map (fun j => dot row (chunk (in_features self) j (data (weight self))))
         (seq 0 (out_features self)))
    (data (bias self)).

(** [self(x)]: applied to the last dimension of [x], which has to be
    [in_features]; the leading dimensions are kept. *)
Definition forward (self : t) (x : Tensor) : option Tensor :=
  match rev (shape x) with
  | k :: lead =>
      if (k =? in_features self)%nat
      then Some (mkTensor (rev (out_features self :: lead))
                   (flat_map (fun i => apply_row self (chunk k i (data x)))
                             (seq 0 (numel (rev lead)))))
      else None
  | [] => None
  end.

Definition parameters (self : t) : list Tensor := [weight self; bias self].

Definition well_formed (self : t) : Prop :=
  shape (weight self) = [out_features self; in_features self] /\ wf (weight self) /\
  shape (bias self) = [out_features self] /\ wf (bias self).

End Linear.

(** ** The encoder *)

Module Encoder.

Record t : Type := mk {
  FC_input : Linear.t;
  FC_mean : Linear.t;
  FC_var : Linear.t;
  training : bool
}.

Definition init {RS : RandomSource} (input_dim hidden_dim latent_dim : nat) : Torch t :=
  fc_input <- Linear.init input_dim hidden_dim ;;
  fc_mean <- Linear.init hidden_dim latent_dim ;;
  fc_var <- Linear.init hidden_dim latent_dim ;;
  ret (mk fc_input fc_mean fc_var true).

(** Reparameterization trick. *)
Definition reparameterization {RS : RandomSource} (mean std : Tensor) : Torch Tensor :=
  epsilon <- randn_like std ;;
  scaled <- lift (tmul std epsilon) ;;
  z <- lift (tadd mean scaled) ;;
  ret z.

Definition forward {RS : RandomSource} (self : t) (x : Tensor)
  : Torch (Tensor * Tensor * Tensor) :=
  pre <- lift (Linear.forward (FC_input self) x) ;;
  let h_ := relu pre in
  mean <- lift (Linear.forward (FC_mean self) h_) ;;
  log_var <- lift (Linear.forward (FC_var self) h_) ;;
  let std := texp (scalar_mul 0.5 log_var) in
  z <- reparameterization mean std ;;
  ret (z, mean, log_var).

Definition parameters (self : t) : list Tensor :=
  Linear.parameters (FC_input self) ++ Linear.parameters (FC_mean self)
    ++ Linear.parameters (FC_var self).

(** What the constructor establishes: layers that fit each other. *)
Definition well_formed (input_dim hidden_dim latent_dim : nat) (self : t) : Prop :=
  Linear.well_formed (FC_input self) /\
  Linear.well_formed (FC_mean self) /\
  Linear.well_formed (FC_var self) /\
  Linear.in_features (FC_input self) = input_dim /\
  Linear.out_features (FC_input self) = hidden_dim /\
  Linear.in_features (FC_mean self) = hidden_dim /\
  Linear.out_features (FC_mean self) = latent_dim /\
  Linear.in_features (FC_var self) = hidden_dim /\
  Linear.out_features (FC_var self) = latent_dim.

End Encoder.

(** ** The decoder *)

Module Decoder.

Record t : Type := mk {
  FC_hidden : Linear.t;
  FC_output : Linear.t;
  training : bool
}.

Definition init {RS : RandomSource} (latent_dim hidden_dim output_dim : nat) : Torch t :=
  fc_hidden <- Linear.init latent_dim hidden_dim ;;
  fc_output <- Linear.init hidden_dim output_dim ;;
  ret (mk fc_hidden fc_output true).

Definition forward {RS : RandomSource} (self : t) (x : Tensor) : Torch Tensor :=
  pre <- lift (Linear.forward (FC_hidden self) x) ;;
  let h := relu pre in
  out <- lift (Linear.forward (FC_output self) h) ;;
  let x_hat := sigmoid out in
  ret x_hat.

Definition parameters (self : t) : list Tensor :=
  Linear.parameters (FC_hidden self) ++ Linear.parameters (FC_output self).

Definition well_formed (latent_dim hidden_dim output_dim : nat) (self : t) : Prop :=
  Linear.well_formed (FC_hidden self) /\
  Linear.well_formed (FC_output self) /\
  Linear.in_features (FC_hidden self) = latent_dim /\
  Linear.out_features (FC_hidden self) = hidden_dim /\
  Linear.in_features (FC_output self) = hidden_dim /\
  Linear.out_features (FC_output self) = output_dim.

End Decoder.

(** ** The composite model *)

Module Model.

Record t : Type := mk {
  encoder : Encoder.t;
  decoder : Decoder.t;
  training : bool
}.

Definition init (encoder : Encoder.t) (decoder : Decoder.t) : t :=
  mk encoder decoder true.

Definition forward {RS : RandomSource} (self : t) (x : Tensor)
  : Torch (Tensor * Tensor * Tensor) :=
  '(z, mean, log_var) <- Encoder.forward (encoder self) x ;;
  x_hat <- Decoder.forward (decoder self) z ;;
  ret (x_hat, mean, log_var).

Definition parameters (self : t) : list Tensor :=
  Encoder.parameters (encoder self) ++ Decoder.parameters (decoder self).

(** [self.train()] and [self.eval()] set the mode flag of the module and
    of its children; they touch no parameter. *)
Definition set_mode (mode : bool) (self : t) : t :=
  let e := encoder self in
  let d := decoder self in
  mk (Encoder.mk (Encoder.FC_input e) (Encoder.FC_mean e) (Encoder.FC_var e) mode)
     (Decoder.mk (Decoder.FC_hidden d) (Decoder.FC_output d) mode)
     mode.

Definition train : t -> t := set_mode true.
Definition eval : t -> t := set_mode false.

Definition well_formed (x_dim hidden_dim latent_dim : nat) (self : t) : Prop :=
  Encoder.well_formed x_dim hidden_dim latent_dim (encoder self) /\
  Decoder.well_formed latent_dim hidden_dim x_dim (decoder self).

End Model.

(** ** The loss *)

Inductive Reduction : Type := ReduceNone | ReduceMean | ReduceSum.

Definition in_unit (p : R) : bool :=
  if Rle_dec 0 p then (if Rle_dec p 1 then true else false) else false.

(** The library keeps each logarithm of the cross-entropy at or above
    [-100]; the logarithm of 0 counts as minus infinity. *)
Definition clamped_log (p : R) : R :=
  if Rlt_dec 0 p then Rmax (ln p) (-100) else -100.

(** Cross-entropy of one predicted value [p] against one target [y]. *)
Definition bce_term (p y : R) : R :=
  - (y * clamped_log p + (1 - y) * clamped_log (1 - p)).

(** [nn.functional.binary_cross_entropy(input, target, reduction=...)]:
    raises when the sizes differ or when a predicted value leaves [0,1]. *)
Definition binary_cross_entropy (input target : Tensor) (reduction : Reduction)
  : option Tensor :=
  if shape_eqb (shape target) (shape input) then
    if forallb in_unit (data input) then
      let terms := map2 bce_term (data input) (data target) in
      Some (match reduction with
            | ReduceNone => mkTensor (shape input) terms
            | ReduceMean => scalar (Rsum terms / INR (length terms))
            | ReduceSum => scalar (Rsum terms)
            end)
    else None
  else None.

(** The second line of [loss_function]:
    [-0.5 * torch.sum(1 + log_var - mean.pow(2) - log_var.exp())]. *)
Definition kld (mean log_var : Tensor) : option Tensor :=
  let? d1 := tsub (scalar_add 1 log_var) (tpow mean 2) in
  let? d2 := tsub d1 (texp log_var) in
  Some (scalar_mul (-0.5) (tsum d2)).

(** Reconstruction + KL divergence losses summed over all elements and batch. *)
Definition loss_function (x x_hat mean log_var : Tensor) : option Tensor :=
  let? reproduction_loss := binary_cross_entropy x_hat x ReduceSum in
  let? kl := kld mean log_var in
  tadd reproduction_loss kl.

(** *** The loss as the specification words it

    A sum over all positions of the per-element cross-entropy, plus
    [KL = -0.5 * sum (1 + log_var - mean^2 - exp log_var)]. *)

Definition sum_over (n : nat) (f : nat -> R) : R := Rsum (map f (seq 0 n)).

Definition spec_reconstruction (x x_hat : list R) : R :=
  sum_over (length x_hat) (fun i => bce_term (nth i x_hat 0) (nth i x 0)).

Definition spec_KL (mean log_var : list R) : R :=
  -0.5 * sum_over (length log_var)
           (fun i => 1 + nth i log_var 0 - nth i mean 0 * nth i mean 0 - exp (nth i log_var 0)).

Definition spec_loss (x x_hat mean log_var : list R) : R :=
  spec_reconstruction x x_hat + spec_KL mean log_var.

(** ** More tensor operations of the script *)

(** [t.permute(0, 2, 1, 3)] of a 4-d tensor: the two middle dimensions
    change places. *)
Definition permute_0213 (t : Tensor) : option Tensor :=
  match shape t with
  | [a; b; c; d] =>
      Some (mkTensor [a; c; b; d]
              (flat_map (fun i =>
                 flat_map (fun k =>
                   flat_map (fun j => chunk d ((i * b + j) * c + k) (data t)) (seq 0 b))
                   (seq 0 c))
                 (seq 0 a)))
  | _ => None
  end.

(** [torch.flatten(t, end_dim=1)] and [torch.flatten(t, start_dim=1)] *)
Definition flatten_end_1 (t : Tensor) : option Tensor :=
  match shape t with
  | a :: b :: rest => Some (mkTensor ((a * b)%nat :: rest) (data t))
  | _ => None
  end.

Definition flatten_start_1 (t : Tensor) : option Tensor :=
  match shape t with
  | a :: b :: rest => Some (mkTensor [a; numel (b :: rest)] (data t))
  | _ => None
  end.

(** [torch.stack]: tensors of one shape put along a new first dimension. *)
Definition stack (ts : list Tensor) : option Tensor :=
  match ts with
  | [] => None
  | t0 :: rest =>
      if forallb (fun t => shape_eqb (shape t) (shape t0)) rest
      then Some (mkTensor (length ts :: shape t0) (concat (map data ts)))
      else None
  end.

(** ** Data loading *)

Module DataLoader.

(** The labels of the data set are never read by the script and are left
    out. *)
Record t : Type := mk {
  dataset : list Tensor;
  batch_size : nat;
  shuffle : bool
}.

Definition init (dataset : list Tensor) (batch_size : nat) (shuffle : bool) : option t :=
  if (batch_size =? 0)%nat then None else Some (mk dataset batch_size shuffle).

(** The order in which one pass visits the data set. *)
Definition sampler {RS : RandomSource} (self : t) (g : Generator) : list nat * Generator :=
  if shuffle self then randperm (length (dataset self)) g
  else (seq 0 (length (dataset self)), g).

Definition div_up (n k : nat) : nat := ((n + k - 1) / k)%nat.

(** The batches of indices of one pass; the last one may be short. *)
Definition index_batches (self : t) (order : list nat) : list (list nat) :=
  map (fun i => chunk (batch_size self) i order)
      (seq 0 (div_up (length order) (batch_size self))).

Fixpoint all_some {A : Type} (l : list (option A)) : option (list A) :=
  match l with
  | [] => Some []
  | None :: _ => None
  | Some a :: rest =>
      match all_some rest with
      | Some r => Some (a :: r)
      | None => None
      end
  end.

(** One batch: the images at the given indices, stacked. *)
Definition fetch (self : t) (indices : list nat) : option Tensor :=
  let? images := all_some (map (nth_error (dataset self)) indices) in
  stack images.

End DataLoader.

(** ** Gradients and the optimizer

    Backpropagation and Adam are the library's.  They enter as an
    interface: a gradient of the loss of one forward pass with respect to the
    parameters, and an update that writes new values into the parameters it
    was given and changes nothing else of the model. *)

Class Autograd {RS : RandomSource} : Type := {
  Grad : Type;
  grad_add : Grad -> Grad -> Grad;
  OptState : Type;
  (** [Adam(model.parameters(), lr=lr)] *)
  Adam : R -> OptState;
  (** gradient of [loss_function] after [model(x)] run from generator state [g] *)
  loss_gradient : Model.t -> Tensor -> Generator -> Grad;
  Adam_step : OptState -> Grad -> Model.t -> OptState * Model.t;
  Adam_step_well_formed :
    forall o gr m i h l,
      Model.well_formed i h l m -> Model.well_formed i h l (snd (Adam_step o gr m))
}.

(** ** The script *)

Record Hyper : Type := mkHyper {
  batch_size : nat;
  x_dim : nat;
  hidden_dim : nat;
  latent_dim : nat;
  lr : R;
  epochs : nat;
  log_interval : nat
}.

(** The values the script sets at its top. *)
Definition script_hyper : Hyper :=
  mkHyper 100 784 400 20 1e-3 5 10.

Inductive Line : Type :=
| Text (s : string)
| Index (batch_idx : nat)
| EpochReport (epoch : nat) (average_loss : R).

Inductive Entry : Type :=
| LogScalar (key : string) (v : R)
| LogImage (key : string) (image : Tensor).

Inductive Flow : Type := Continue | Break.

(** [n % k] of Python integers: raises when [k] is 0. *)
Definition pymod (n k : nat) : option nat :=
  if (k =? 0)%nat then None else Some (n mod k)%nat.

(** [a / k] of a float by a Python integer: raises when [k] is 0. *)
Definition pydiv (a : R) (k : nat) : option R :=
  if (k =? 0)%nat then None else Some (a / INR k).

(** *** What the script takes for granted about its inputs *)

(** An image of the data set: of the expected sizes, with pixel values in
    [0,1] as [ToTensor] leaves them. *)
Definition image_ok (s : list nat) (im : Tensor) : Prop :=
  shape im = s /\ wf im /\ Forall (fun v => 0 <= v <= 1) (data im).

(** The montage of the training loop is laid out for 100 images of 28x28. *)
Definition hyper_ok (hp : Hyper) : Prop :=
  numel [batch_size hp; x_dim hp] = numel [10; 10; 28; 28]%nat /\
  log_interval hp <> 0%nat.

Definition loader_ok (hp : Hyper) (s : list nat) (loader : DataLoader.t) : Prop :=
  DataLoader.batch_size loader = batch_size hp /\
  Forall (image_ok s) (DataLoader.dataset loader) /\
  numel s = x_dim hp.

Definition batch_ok (hp : Hyper) (loader : DataLoader.t) (indices : list nat) : Prop :=
  length indices = batch_size hp /\
  Forall (fun i => (i < length (DataLoader.dataset loader))%nat) indices.

Section Script.
Context {RS : RandomSource} {AG : Autograd}.

(** Everything the script can change: the model (one object, which the
    names [model], [encoder], [decoder] and the optimizer all reach), the
    optimizer, the gradient buffers, the generator, what has been printed,
    logged and written, and the module-level variables the loops assign
    ([None]: not yet bound). *)
Record State : Type := mkState {
  model : Model.t;
  optimizer : OptState;
  grads : option Grad;
  gen : Generator;
  console : list Line;        (* latest first *)
  wandb_log : list Entry;     (* latest first *)
  files : list (string * Tensor);  (* latest first *)
  overall_loss : R;
  v_batch_idx : option nat;
  v_x : option Tensor;
  v_x_hat : option Tensor
}.

Definition set_model (m : Model.t) (st : State) : State :=
  mkState m (optimizer st) (grads st) (gen st) (console st) (wandb_log st) (files st)
          (overall_loss st) (v_batch_idx st) (v_x st) (v_x_hat st).
Definition set_optimizer (o : OptState) (st : State) : State :=
  mkState (model st) o (grads st) (gen st) (console st) (wandb_log st) (files st)
          (overall_loss st) (v_batch_idx st) (v_x st) (v_x_hat st).
Definition set_grads (gr : option Grad) (st : State) : State :=
  mkState (model st) (optimizer st) gr (gen st) (console st) (wandb_log st) (files st)
          (overall_loss st) (v_batch_idx st) (v_x st) (v_x_hat st).
Definition set_gen (g : Generator) (st : State) : State :=
  mkState (model st) (optimizer st) (grads st) g (console st) (wandb_log st) (files st)
          (overall_loss st) (v_batch_idx st) (v_x st) (v_x_hat st).
Definition print (l : Line) (st : State) : State :=
  mkState (model st) (optimizer st) (grads st) (gen st) (l :: console st) (wandb_log st)
          (files st) (overall_loss st) (v_batch_idx st) (v_x st) (v_x_hat st).
Definition wandb_log_entry (e : Entry) (st : State) : State :=
  mkState (model st) (optimizer st) (grads st) (gen st) (console st) (e :: wandb_log st)
          (files st) (overall_loss st) (v_batch_idx st) (v_x st) (v_x_hat st).
Definition save_image (t : Tensor) (name : string) (st : State) : State :=
  mkState (model st) (optimizer st) (grads st) (gen st) (console st) (wandb_log st)
          ((name, t) :: files st) (overall_loss st) (v_batch_idx st) (v_x st) (v_x_hat st).
Definition set_overall_loss (v : R) (st : State) : State :=
  mkState (model st) (optimizer st) (grads st) (gen st) (console st) (wandb_log st)
          (files st) v (v_batch_idx st) (v_x st) (v_x_hat st).
Definition set_batch_idx (i : nat) (st : State) : State :=
  mkState (model st) (optimizer st) (grads st) (gen st) (console st) (wandb_log st)
          (files st) (overall_loss st) (Some i) (v_x st) (v_x_hat st).
Definition set_x (x : Tensor) (st : State) : State :=
  mkState (model st) (optimizer st) (grads st) (gen st) (console st) (wandb_log st)
          (files st) (overall_loss st) (v_batch_idx st) (Some x) (v_x_hat st).
Definition set_x_hat (x_hat : Tensor) (st : State) : State :=
  mkState (model st) (optimizer st) (grads st) (gen st) (console st) (wandb_log st)
          (files st) (overall_loss st) (v_batch_idx st) (v_x st) (Some x_hat).

(** [for batch_idx, item in enumerate(items): body], with [break]. *)
Fixpoint for_enumerate {A : Type} (body : nat -> A -> State -> option (State * Flow))
    (batch_idx : nat) (items : list A) (st : State) : option State :=
  match items with
  | [] => Some st
  | a :: rest =>
      match body batch_idx a st with
      | None => None
      | Some (st', Break) => Some st'
      | Some (st', Continue) => for_enumerate body (S batch_idx) rest st'
      end
  end.

(** [if batch_idx % 100 == 0: print(batch_idx)] *)
Definition print_every_100 (batch_idx : nat) (st : State) : State :=
  if (batch_idx mod 100 =? 0)%nat then print (Index batch_idx) st else st.

(** [optimizer.zero_grad()], [loss.backward()], [optimizer.step()] *)
Definition zero_grad (st : State) : State := set_grads None st.

Definition backward (x : Tensor) (g : Generator) (st : State) : State :=
  let new := loss_gradient (model st) x g in
  set_grads (Some (match grads st with
                   | None => new
                   | Some old => grad_add old new
                   end)) st.

Definition optimizer_step (st : State) : State :=
  match grads st with
  | None => st
  | Some gr =>
      let (o, m) := Adam_step (optimizer st) gr (model st) in
      set_model m (set_optimizer o st)
  end.

(** The montage of a batch: 100 images laid out 10 by 10. *)
Definition composed (t : Tensor) : option Tensor :=
  let? c := view [10; 10; 28; 28]%nat t in
  let? c := permute_0213 c in
  let? c := flatten_end_1 c in
  flatten_start_1 c.

(** The body of the inner training loop. *)
Definition train_body (hp : Hyper) (train_loader : DataLoader.t)
    (batch_idx : nat) (indices : list nat) (st : State) : option (State * Flow) :=
  let? batch := DataLoader.fetch train_loader indices in
  let st := set_batch_idx batch_idx st in
  let st := print_every_100 batch_idx st in
  let? x := view [batch_size hp; x_dim hp] batch in
  let st := set_x x st in
  let st := zero_grad st in
  let g := gen st in
  let? out := Model.forward (model st) x g in
  let '(x_hat, mean, log_var, g') := out in
  let st := set_x_hat x_hat (set_gen g' st) in
  let? loss := loss_function x x_hat mean log_var in
  let? loss_item := item loss in
  let st := set_overall_loss (overall_loss st + loss_item) st in
  let st := backward x g st in
  let st := optimizer_step st in
  let? r := pymod batch_idx (log_interval hp) in
  if (r =? 0)%nat then
    let? composed_input := composed x in
    let? composed_predictions := composed x_hat in
    let st := wandb_log_entry (LogScalar "loss" loss_item) st in
    let st := wandb_log_entry (LogImage "composed_input" composed_input) st in
    let st := wandb_log_entry (LogImage "composed_predictions" composed_predictions) st in
    Some (st, Continue)
  else Some (st, Continue).

(** The body of the outer training loop: one epoch and its report. *)
Definition train_epoch (hp : Hyper) (train_loader : DataLoader.t)
    (epoch : nat) (st : State) : option State :=
  let st := set_overall_loss 0 st in
  let (order, g) := DataLoader.sampler train_loader (gen st) in
  let st := set_gen g st in
  let? st := for_enumerate (train_body hp train_loader) 0
               (DataLoader.index_batches train_loader order) st in
  let? batch_idx := v_batch_idx st in
  let? average := pydiv (overall_loss st) (batch_idx * batch_size hp) in
  Some (print (EpochReport (epoch + 1) average) st).

Fixpoint for_range (body : nat -> State -> option State) (range : list nat) (st : State)
  : option State :=
  match range with
  | [] => Some st
  | i :: rest =>
      match body i st with
      | None => None
      | Some st' => for_range body rest st'
      end
  end.

Definition training (hp : Hyper) (train_loader : DataLoader.t) (st : State) : option State :=
  let st := print (Text "Start training VAE...") st in
  let st := set_model (Model.train (model st)) st in
  let? st := for_range (train_epoch hp train_loader) (seq 0 (epochs hp)) st in
  Some (print (Text "Finish!!") st).

(** The body of the loop that generates reconstructions; it runs under
    [torch.no_grad()] and ends in [break]. *)
Definition eval_body (hp : Hyper) (test_loader : DataLoader.t)
    (batch_idx : nat) (indices : list nat) (st : State) : option (State * Flow) :=
  let? batch := DataLoader.fetch test_loader indices in
  let st := set_batch_idx batch_idx st in
  let st := print_every_100 batch_idx st in
  let? x := view [batch_size hp; x_dim hp] batch in
  let st := set_x x st in
  let? out := Model.forward (model st) x (gen st) in
  let '(x_hat, _, _, g') := out in
  let st := set_x_hat x_hat (set_gen g' st) in
  Some (st, Break).

Definition evaluation (hp : Hyper) (test_loader : DataLoader.t) (st : State) : option State :=
  let st := set_model (Model.eval (model st)) st in
  let (order, g) := DataLoader.sampler test_loader (gen st) in
  let st := set_gen g st in
  for_enumerate (eval_body hp test_loader) 0
    (DataLoader.index_batches test_loader order) st.

(** The three [save_image] calls and the generated samples between them.
    The global [decoder] is the decoder the model holds. *)
Definition write_images (hp : Hyper) (st : State) : option State :=
  let? x := v_x st in
  let? orig := view [batch_size hp; 1; 28; 28]%nat x in
  let st := save_image orig "orig_data.png" st in
  let? x_hat := v_x_hat st in
  let? reconstructions := view [batch_size hp; 1; 28; 28]%nat x_hat in
  let st := save_image reconstructions "reconstructions.png" st in
  let? drawn := torch_randn [batch_size hp; latent_dim hp] (gen st) in
  let '(noise, g) := drawn in
  let? decoded := Decoder.forward (Model.decoder (model st)) noise g in
  let '(generated_images, g') := decoded in
  let st := set_gen g' st in
  let? generated := view [batch_size hp; 1; 28; 28]%nat generated_images in
  Some (save_image generated "generated_sample.png" st).

(** The state at the line where training starts: data loaders, model and
    optimizer built.  [wandb.init] and [wandb.watch] only open the tracker
    and register its own hooks; what the script itself sends is the
    [wandb_log] of the state.  The data sets are arguments. *)
Definition setup (hp : Hyper) (train_dataset test_dataset : list Tensor) (g : Generator)
  : option (DataLoader.t * DataLoader.t * State) :=
  let? train_loader := DataLoader.init train_dataset (batch_size hp) true in
  let? test_loader := DataLoader.init test_dataset (batch_size hp) false in
  let? built := Encoder.init (x_dim hp) (hidden_dim hp) (latent_dim hp) g in
  let '(encoder, g) := built in
  let? built := Decoder.init (latent_dim hp) (hidden_dim hp) (x_dim hp) g in
  let '(decoder, g) := built in
  let model := Model.init encoder decoder in
  let optimizer := Adam (lr hp) in
  Some (train_loader, test_loader,
        mkState model optimizer None g [] [] [] 0 None None None).

Definition main (hp : Hyper) (train_dataset test_dataset : list Tensor) (g : Generator)
  : option State :=
  let? ready := setup hp train_dataset test_dataset g in
  let '(train_loader, test_loader, st) := ready in
  let? st := training hp train_loader st in
  let? st := evaluation hp test_loader st in
  write_images hp st.

End Script.

(** *** The evaluation phase as the specification words it

    "A single pass over test batches": when the loop is left, the loop
    variable stands at the last batch of the test loader. *)
Definition visits_every_batch {RS : RandomSource} {AG : Autograd}
    (test_loader : DataLoader.t) (st' : State) : Prop :=
  v_batch_idx st'
  = Some (length (DataLoader.index_batches test_loader
                    (seq 0 (length (DataLoader.dataset test_loader)))) - 1)%nat.



(** ** Sample inputs

    Concrete inputs on which the statements below are exercised: a generator
    whose every draw is fixed, an optimizer that leaves the parameters where
    they are, constant tensors, layers and data sets. *)

Definition still_source : RandomSource :=
  {| Generator := unit;
     randn := fun n g => (repeat 0 n, g);
     uniform := fun lo _ n g => (repeat lo n, g);
     randperm := fun n g => (seq 0 n, g);
     randn_length := fun n _ => repeat_length 0 n;
     uniform_length := fun lo _ n _ => repeat_length lo n;
     randperm_perm := fun n _ => Permutation_refl (seq 0 n) |}.

Definition frozen_autograd : @Autograd still_source :=
  {| Grad := unit;
     grad_add := fun _ _ => tt;
     OptState := R;
     Adam := fun lr => lr;
     loss_gradient := fun _ _ _ => tt;
     Adam_step := fun o _ m => (o, m);
     Adam_step_well_formed := fun _ _ _ _ _ _ W => W |}.

Definition full (c : R) (s : list nat) : Tensor := mkTensor s (repeat c (numel s)).

Definition sample_linear (c : R) (in_f out_f : nat) : Linear.t :=
  Linear.mk in_f out_f (full c [out_f; in_f]) (full c [out_f]).

Definition sample_model (c : R) (x_dim hidden_dim latent_dim : nat) : Model.t :=
  Model.init
    (Encoder.mk (sample_linear c x_dim hidden_dim) (sample_linear c hidden_dim latent_dim)
                (sample_linear c hidden_dim latent_dim) true)
    (Decoder.mk (sample_linear c latent_dim hidden_dim) (sample_linear c hidden_dim x_dim)
                true).

(** [n] grey images of 28x28. *)
Definition sample_images (n : nat) : list Tensor := repeat (full 0.5 [1; 28; 28]%nat) n.

(** The script's values with the number of epochs set to 0. *)
Definition zero_epochs_hyper : Hyper :=
  mkHyper 100 784 400 20 1e-3 0 10.

(** The script's state as training starts, on the sample model. *)
Definition sample_state (hp : Hyper) : @State still_source frozen_autograd :=
  mkState (sample_model 0.1 (x_dim hp) (hidden_dim hp) (latent_dim hp))
          (@Adam still_source frozen_autograd (lr hp)) None tt [] [] [] 0 None None None.

(** Variations of the script's values: batches of 50, and a logging
    interval of 0. *)
Definition half_batch_hyper : Hyper :=
  mkHyper 50 784 400 20 1e-3 5 10.

Definition no_interval_hyper : Hyper :=
  mkHyper 100 784 400 20 1e-3 5 0.

(** A batch size of 0, and images of 20 by 20. *)
Definition zero_batch_hyper : Hyper :=
  mkHyper 0 784 400 20 1e-3 5 10.

Definition small_image_hyper : Hyper :=
  mkHyper 100 400 400 20 1e-3 0 10.

Definition small_images (n : nat) : list Tensor := repeat (full 0.5 [1; 20; 20]%nat) n.

(** *** Reading the console

    The epoch numbers of the reports on the console, latest first. *)
Definition report_epochs (console : list Line) : list nat :=
  flat_map (fun l => match l with
                     | EpochReport epoch _ => [epoch]
                     | _ => []
                     end) console.

(** The batch indices below [n] that are multiples of [k]. *)
Definition multiples_below (k n : nat) : list nat :=
  filter (fun j => (j mod k =? 0)%nat) (seq 0 n).

(** The loop variables [x] and [x_hat] stand at a full batch of the given
    loader: [x] is that batch in rows of [x_dim] values. *)
Definition holds_batch_of {RS : RandomSource} {AG : Autograd}
    (hp : Hyper) (s : list nat) (loader : DataLoader.t) (st : State) : Prop :=
  exists x x_hat indices,
    batch_ok hp loader indices /\
    DataLoader.fetch loader indices = Some (mkTensor (batch_size hp :: s) (data x)) /\
    v_x st = Some x /\ shape x = [batch_size hp; x_dim hp] /\ wf x /\
    v_x_hat st = Some x_hat /\ shape x_hat = [batch_size hp; x_dim hp] /\ wf x_hat.
(** ** Lemmas on lists and tensors *)

Lemma map2_length {A B C} (f : A -> B -> C) u v :
  length u = length v -> length (map2 f u v) = length u.
Proof.
  revert v; induction u as [|a u IH]; intros [|b v]; simpl; intros E; try congruence.
  f_equal. apply IH. congruence.
Qed.

Lemma map2_nth {A B C} (f : A -> B -> C) u v i da db dc :
  (i < length u)%nat -> (i < length v)%nat ->
  nth i (map2 f u v) dc = f (nth i u da) (nth i v db).
Proof.
  revert v i; induction u as [|a u IH]; intros [|b v] [|i]; simpl; intros Hu Hv;
    try lia; auto.
  apply IH; lia.
Qed.

Lemma Rsum_app u v : Rsum (u ++ v) = Rsum u + Rsum v.
Proof. induction u as [|a u IH]; simpl; [|rewrite IH]; lra. Qed.

Lemma Rsum_nonneg l : Forall (fun v => 0 <= v) l -> 0 <= Rsum l.
Proof. induction 1; simpl; lra. Qed.

Lemma chunk_0 {A} k (d : list A) : chunk k 0 d = firstn k d.
Proof. reflexivity. Qed.

Lemma chunk_S {A} k i (d : list A) : chunk k (S i) d = chunk k i (skipn k d).
Proof. unfold chunk. simpl. rewrite Nat.add_comm, skipn_skipn. reflexivity. Qed.

Lemma chunk_length {A} k i (d : list A) n :
  length d = (n * k)%nat -> (i < n)%nat -> length (chunk k i d) = k.
Proof.
  intros Hd Hi. unfold chunk. rewrite length_firstn, length_skipn. nia.
Qed.

Lemma flat_map_chunks {A B} (g : list A -> list B) k n d :
  flat_map (fun i => g (chunk k (S i) d)) (seq 0 n)
  = flat_map (fun i => g (chunk k i (skipn k d))) (seq 0 n).
Proof.
  apply flat_map_ext. intros i. rewrite chunk_S. reflexivity.
Qed.

Lemma concat_chunks {A} k n (d : list A) :
  length d = (n * k)%nat -> flat_map (fun i => chunk k i d) (seq 0 n) = d.
Proof.
  revert d; induction n as [|n IH]; intros d Hd.
  - destruct d; [reflexivity | discriminate].
  - simpl seq. rewrite <- seq_shift, flat_map_concat_map, map_cons, map_map.
    simpl concat. rewrite <- flat_map_concat_map.
    rewrite (flat_map_chunks (fun c => c)), IH.
    + rewrite chunk_0. apply firstn_skipn.
    + rewrite length_skipn. simpl in Hd. lia.
Qed.

Lemma broadcast_rev_same s : broadcast_rev s s = Some s.
Proof.
  induction s as [|n s IH]; simpl; [reflexivity|].
  rewrite IH, Nat.eqb_refl. reflexivity.
Qed.

Lemma broadcast_shapes_same s : broadcast_shapes s s = Some s.
Proof.
  unfold broadcast_shapes. rewrite broadcast_rev_same. simpl. now rewrite rev_involutive.
Qed.

Lemma pad_same s : pad s s = s.
Proof. unfold pad. now rewrite Nat.sub_diag. Qed.

Lemma expand_same s : forall d, length d = numel s -> expand s s d = d.
Proof.
  induction s as [|n s IH]; intros d Hd; simpl; [reflexivity|].
  rewrite Nat.eqb_refl. simpl in Hd.
  etransitivity; [| apply (concat_chunks (numel s) n d Hd)].
  rewrite !flat_map_concat_map. f_equal. apply map_ext_in.
  intros i Hi. apply in_seq in Hi. apply IH.
  apply (chunk_length _ _ _ n); [assumption | lia].
Qed.

(** On operands of one and the same shape an elementwise operation pairs
    the values position by position. *)
Lemma tzip_same f a b :
  shape a = shape b -> wf a -> wf b ->
  tzip f a b = Some (mkTensor (shape a) (map2 f (data a) (data b))).
Proof.
  intros E Wa Wb. unfold tzip. rewrite <- E, broadcast_shapes_same, pad_same.
  rewrite !expand_same; auto. now rewrite E.
Qed.

(** ** Facts on the sample inputs *)

Lemma full_wf c s : wf (full c s).
Proof. unfold wf, full. cbn [data shape]. apply repeat_length. Qed.

Lemma sample_linear_ok c i o :
  Linear.well_formed (sample_linear c i o) /\
  Linear.in_features (sample_linear c i o) = i /\
  Linear.out_features (sample_linear c i o) = o.
Proof. repeat split; apply full_wf. Qed.

Lemma sample_model_ok c i h l : Model.well_formed i h l (sample_model c i h l).
Proof.
  unfold Model.well_formed, Encoder.well_formed, Decoder.well_formed, sample_model.
  cbn [Model.init Model.encoder Model.decoder Encoder.FC_input Encoder.FC_mean
       Encoder.FC_var Decoder.FC_hidden Decoder.FC_output].
  repeat split; apply full_wf.
Qed.

Lemma sample_images_ok n : Forall (image_ok [1; 28; 28]%nat) (sample_images n).
Proof.
  apply Forall_forall. intros im Him. apply repeat_spec in Him. subst im.
  split; [reflexivity|]. split; [apply full_wf|].
  apply Forall_forall. intros v Hv. apply repeat_spec in Hv. subst v. lra.
Qed.

Lemma script_hyper_ok : hyper_ok script_hyper.
Proof. split; [reflexivity | discriminate]. Qed.

Lemma sample_loader_ok n shuffle :
  loader_ok script_hyper [1; 28; 28]%nat (DataLoader.mk (sample_images n) 100 shuffle).
Proof. split; [reflexivity|]. split; [apply sample_images_ok | reflexivity]. Qed.

Lemma sample_images_length n : length (sample_images n) = n.
Proof. apply repeat_length. Qed.

Lemma flat_map_length_from {A} (f : nat -> list A) c n : forall s,
  (forall i, (s <= i < s + n)%nat -> length (f i) = c) ->
  length (flat_map f (seq s n)) = (n * c)%nat.
Proof.
  induction n as [|n IH]; intros s H; simpl; [reflexivity|].
  rewrite length_app, IH, H; [reflexivity | lia |].
  intros i Hi. apply H. lia.
Qed.

Lemma flat_map_length_const {A} (f : nat -> list A) c n :
  (forall i, (i < n)%nat -> length (f i) = c) ->
  length (flat_map f (seq 0 n)) = (n * c)%nat.
Proof. intros H. apply flat_map_length_from. intros i Hi. apply H. lia. Qed.

Lemma tmap_shape f t : shape (tmap f t) = shape t.
Proof. reflexivity. Qed.

Lemma tmap_wf f t : wf t -> wf (tmap f t).
Proof. unfold wf, tmap. simpl. now rewrite length_map. Qed.

Lemma numel_2 n k : numel [n; k] = (n * k)%nat.
Proof. unfold numel. simpl fold_right. now rewrite Nat.mul_1_r. Qed.

Lemma numel_1 n : numel [n] = n.
Proof. unfold numel. simpl fold_right. now rewrite Nat.mul_1_r. Qed.

(** *** Linear layers *)

Lemma apply_row_length l row :
  Linear.well_formed l -> length (Linear.apply_row l row) = Linear.out_features l.
Proof.
  intros (_ & _ & Sb & Wb). unfold Linear.apply_row.
  rewrite map2_length; rewrite length_map, length_seq; [reflexivity|].
  unfold wf in Wb. now rewrite Wb, Sb, numel_1.
Qed.

Lemma Linear_forward_2d l x n :
  Linear.well_formed l -> shape x = [n; Linear.in_features l] ->
  exists y, Linear.forward l x = Some y /\ shape y = [n; Linear.out_features l] /\ wf y.
Proof.
  intros W Sx. unfold Linear.forward. rewrite Sx. cbn [rev app].
  rewrite Nat.eqb_refl.
  eexists. split; [reflexivity|]. split; [reflexivity|].
  unfold wf. cbn [shape data rev app]. rewrite numel_2, numel_1.
  apply flat_map_length_const. intros i _. now apply apply_row_length.
Qed.

(** *** Drawing noise *)

Section Noise.
Context {RS : RandomSource}.

Lemma torch_randn_eq s g :
  torch_randn s g = Some (mkTensor s (fst (randn (numel s) g)), snd (randn (numel s) g)).
Proof. unfold torch_randn. now destruct (randn (numel s) g). Qed.

Lemma reparameterization_eq mean std g :
  shape mean = shape std -> wf mean -> wf std ->
  Encoder.reparameterization mean std g
  = Some (mkTensor (shape mean)
            (map2 Rplus (data mean) (map2 Rmult (data std) (fst (randn (numel (shape std)) g)))),
          snd (randn (numel (shape std)) g)).
Proof.
  intros E Wm Ws. unfold Encoder.reparameterization, randn_like, bind, lift, ret.
  rewrite torch_randn_eq.
  rewrite (tzip_same Rmult std); [| reflexivity | assumption | apply randn_length ].
  rewrite (tzip_same Rplus mean); [ reflexivity | assumption | assumption |].
  unfold wf. simpl. rewrite map2_length; [assumption|].
  rewrite randn_length. exact Ws.
Qed.

(** With the noise at 0 the sample is the mean. *)
Lemma map2_zero_noise (m s : list R) :
  length m = length s ->
  map2 Rplus m (map2 Rmult s (repeat 0 (length s))) = m.
Proof.
  revert s; induction m as [|a m IH]; intros [|b s] E; simpl in *; try congruence.
  f_equal; [lra | apply IH; congruence].
Qed.

End Noise.

(** *** The three modules *)

Section Forward.
Context {RS : RandomSource}.

(** The encoder: [mean] and [log_var] do not depend on the generator, the
    sample is [mean + exp (0.5 * log_var) * epsilon] position by position,
    and the generator moves on past the draw. *)
Lemma Encoder_forward_eq enc x n i h l :
  Encoder.well_formed i h l enc -> shape x = [n; i] ->
  exists mean log_var,
    shape mean = [n; l] /\ wf mean /\ shape log_var = [n; l] /\ wf log_var /\
    forall g,
      Encoder.forward enc x g
      = Some (mkTensor [n; l]
                (map2 Rplus (data mean)
                   (map2 Rmult (map exp (map (fun v => 0.5 * v) (data log_var)))
                      (fst (randn (numel [n; l]) g)))),
              mean, log_var, snd (randn (numel [n; l]) g)).
Proof.
  intros (W1 & W2 & W3 & I1 & O1 & I2 & O2 & I3 & O3) Sx.
  rewrite <- I1 in Sx.
  destruct (Linear_forward_2d _ _ _ W1 Sx) as (pre & E1 & S1 & Wp).
  assert (Sh : shape (relu pre) = [n; Linear.in_features (Encoder.FC_mean enc)])
    by (unfold relu; rewrite tmap_shape, S1; congruence).
  destruct (Linear_forward_2d _ _ _ W2 Sh) as (mean & E2 & S2 & Wm).
  rewrite I2, <- I3 in Sh.
  destruct (Linear_forward_2d _ _ _ W3 Sh) as (log_var & E3 & S3 & Wl).
  rewrite O2 in S2. rewrite O3 in S3.
  exists mean, log_var. repeat split; try assumption.
  intros g. unfold Encoder.forward, bind, lift, ret. rewrite E1, E2, E3.
  rewrite reparameterization_eq.
  - unfold texp, scalar_mul. cbn [tmap shape data]. rewrite S2, S3. reflexivity.
  - unfold texp, scalar_mul. cbn [tmap shape]. congruence.
  - assumption.
  - unfold texp, scalar_mul. now apply tmap_wf, tmap_wf.
Qed.

(** The decoder neither reads nor moves the generator. *)
Lemma Decoder_forward_eq dec z n l h o :
  Decoder.well_formed l h o dec -> shape z = [n; l] ->
  exists out,
    shape out = [n; o] /\ wf out /\
    forall g, Decoder.forward dec z g = Some (sigmoid out, g).
Proof.
  intros (W1 & W2 & I1 & O1 & I2 & O2) Sz. rewrite <- I1 in Sz.
  destruct (Linear_forward_2d _ _ _ W1 Sz) as (pre & E1 & S1 & Wp).
  assert (Sh : shape (relu pre) = [n; Linear.in_features (Decoder.FC_output dec)])
    by (unfold relu; rewrite tmap_shape, S1; congruence).
  destruct (Linear_forward_2d _ _ _ W2 Sh) as (out & E2 & S2 & Wo).
  exists out. rewrite O2 in S2. repeat split; try assumption.
  intros g. unfold Decoder.forward, bind, lift, ret. now rewrite E1, E2.
Qed.

Lemma Model_forward_eq m x n i h l :
  Model.well_formed i h l m -> shape x = [n; i] ->
  exists mean log_var,
    shape mean = [n; l] /\ wf mean /\ shape log_var = [n; l] /\ wf log_var /\
    forall g, exists out,
      shape out = [n; i] /\ wf out /\
      Model.forward m x g
      = Some (sigmoid out, mean, log_var, snd (randn (numel [n; l]) g)).
Proof.
  intros (We & Wd) Sx.
  destruct (Encoder_forward_eq _ _ _ _ _ _ We Sx)
    as (mean & log_var & S2 & Wm & S3 & Wl & E).
  exists mean, log_var. repeat split; try assumption.
  intros g.
  destruct (Decoder_forward_eq (Model.decoder m)
              (mkTensor [n; l]
                 (map2 Rplus (data mean)
                    (map2 Rmult (map exp (map (fun v => 0.5 * v) (data log_var)))
                       (fst (randn (numel [n; l]) g))))) n l h i Wd eq_refl)
    as (out & So & Wo & Ed).
  exists out. repeat split; try assumption.
  unfold Model.forward, bind, ret. rewrite E, Ed. reflexivity.
Qed.

End Forward.

(** *** The sigmoid and the cross-entropy *)

Lemma sigmoid_range v : 0 < 1 / (1 + exp (- v)) < 1.
Proof.
  pose proof (exp_pos (- v)) as P.
  assert (Q : 0 < / (1 + exp (- v))) by (apply Rinv_0_lt_compat; lra).
  assert (L : / (1 + exp (- v)) < / 1) by (apply Rinv_lt_contravar; lra).
  rewrite Rinv_1 in L. unfold Rdiv. lra.
Qed.

Lemma sigmoid_data_range t : Forall (fun p => 0 < p < 1) (data (sigmoid t)).
Proof.
  unfold sigmoid, tmap. cbn [data]. apply Forall_forall. intros p Hp.
  apply in_map_iff in Hp as (v & <- & _). apply sigmoid_range.
Qed.

Lemma in_unit_true p : in_unit p = true <-> 0 <= p <= 1.
Proof.
  unfold in_unit. destruct (Rle_dec 0 p), (Rle_dec p 1); split; intros; try lra;
    try discriminate; reflexivity.
Qed.

Lemma forallb_in_unit l : Forall (fun p => 0 <= p <= 1) l -> forallb in_unit l = true.
Proof.
  intros H. apply forallb_forall. intros p Hp. apply in_unit_true.
  revert p Hp. now apply Forall_forall.
Qed.

Lemma shape_eqb_refl s : shape_eqb s s = true.
Proof. unfold shape_eqb. destruct (list_eq_dec Nat.eq_dec s s); congruence. Qed.

Lemma ln_nonpos p : 0 < p -> p <= 1 -> ln p <= 0.
Proof.
  intros P [L | ->]; [| rewrite ln_1; lra].
  rewrite <- ln_1. left. now apply ln_increasing.
Qed.

Lemma clamped_log_nonpos p : p <= 1 -> clamped_log p <= 0.
Proof.
  intros H. unfold clamped_log. destruct (Rlt_dec 0 p); [| lra].
  apply Rmax_lub; [now apply ln_nonpos | lra].
Qed.

Lemma bce_term_nonneg p y : 0 <= p <= 1 -> 0 <= y <= 1 -> 0 <= bce_term p y.
Proof.
  intros Hp Hy. unfold bce_term.
  pose proof (clamped_log_nonpos p) as A.
  pose proof (clamped_log_nonpos (1 - p)) as B.
  assert (A' : clamped_log p <= 0) by (apply A; lra).
  assert (B' : clamped_log (1 - p) <= 0) by (apply B; lra).
  nra.
Qed.

(** Where no clamping happens the per-element term is the textbook one. *)
Lemma bce_term_textbook p y :
  exp (-100) <= p -> p <= 1 - exp (-100) ->
  bce_term p y = - (y * ln p + (1 - y) * ln (1 - p)).
Proof.
  intros L U. pose proof (exp_pos (-100)) as E.
  assert (K : forall q, exp (-100) <= q -> clamped_log q = ln q).
  { intros q Hq. unfold clamped_log. destruct (Rlt_dec 0 q); [| lra].
    apply Rmax_left. rewrite <- (ln_exp (-100)).
    destruct Hq as [Hq | <-]; [left; now apply ln_increasing | lra]. }
  unfold bce_term. rewrite !K; [reflexivity | lra | lra].
Qed.

Lemma sum_over_S n f : sum_over (S n) f = f 0%nat + sum_over n (fun i => f (S i)).
Proof.
  unfold sum_over. simpl seq. rewrite <- seq_shift, map_cons, map_map. reflexivity.
Qed.

Lemma sum_over_ext n f g :
  (forall i, (i < n)%nat -> f i = g i) -> sum_over n f = sum_over n g.
Proof.
  intros H. unfold sum_over. f_equal. apply map_ext_in. intros i Hi.
  apply in_seq in Hi. apply H. lia.
Qed.

Lemma Rsum_map2 (f : R -> R -> R) u v :
  length u = length v ->
  Rsum (map2 f u v) = sum_over (length u) (fun i => f (nth i u 0) (nth i v 0)).
Proof.
  revert v; induction u as [|a u IH]; intros [|b v] E; simpl in E; try discriminate.
  - reflexivity.
  - cbn [map2 length]. rewrite sum_over_S. cbn [Rsum fold_right nth].
    f_equal. apply IH. congruence.
Qed.

Lemma binary_cross_entropy_sum x x_hat :
  shape x = shape x_hat -> wf x -> wf x_hat ->
  Forall (fun p => 0 <= p <= 1) (data x_hat) ->
  binary_cross_entropy x_hat x ReduceSum
  = Some (scalar (spec_reconstruction (data x) (data x_hat))).
Proof.
  intros S Wx Wh R. unfold binary_cross_entropy.
  rewrite S, shape_eqb_refl, forallb_in_unit by assumption.
  unfold spec_reconstruction. rewrite Rsum_map2; [reflexivity|].
  unfold wf in *. congruence.
Qed.

Lemma kl_terms m lv :
  length m = length lv ->
  Rsum (map2 Rminus (map2 Rminus (map (fun v => 1 + v) lv) (map (fun v => v ^ 2) m))
          (map exp lv))
  = sum_over (length lv)
      (fun i => 1 + nth i lv 0 - nth i m 0 * nth i m 0 - exp (nth i lv 0)).
Proof.
  revert m; induction lv as [|b lv IH]; intros [|a m] E; simpl in E; try discriminate.
  - reflexivity.
  - cbn [map map2 length Rsum fold_right]. rewrite sum_over_S. cbn [nth].
    fold (Rsum (map2 Rminus (map2 Rminus (map (fun v => 1 + v) lv) (map (fun v => v ^ 2) m))
          (map exp lv))).
    rewrite IH by congruence. simpl pow. ring.
Qed.

Lemma kld_eq mean log_var :
  shape mean = shape log_var -> wf mean -> wf log_var ->
  kld mean log_var = Some (scalar (spec_KL (data mean) (data log_var))).
Proof.
  intros S Wm Wl. unfold kld, obind, tsub.
  assert (L : length (data mean) = length (data log_var))
    by (unfold wf in *; congruence).
  rewrite (tzip_same Rminus (scalar_add 1 log_var) (tpow mean 2));
    [| unfold scalar_add, tpow; now rewrite !tmap_shape
     | now apply tmap_wf | now apply tmap_wf ].
  rewrite tzip_same;
    [| unfold scalar_add, texp; now rewrite !tmap_shape
     | unfold wf; cbn [data shape scalar_add tpow tmap];
       rewrite map2_length; rewrite !length_map; auto
     | now apply tmap_wf ].
  unfold scalar_mul, tsum, scalar_add, tpow, texp, tmap, scalar, spec_KL.
  cbn [data shape map]. now rewrite kl_terms.
Qed.

Lemma scalar_wf v : wf (scalar v).
Proof. reflexivity. Qed.

Lemma tadd_scalars a b : tadd (scalar a) (scalar b) = Some (scalar (a + b)).
Proof. unfold tadd. rewrite tzip_same; auto using scalar_wf. Qed.

Lemma loss_function_eq x x_hat mean log_var :
  shape x = shape x_hat -> wf x -> wf x_hat ->
  shape mean = shape log_var -> wf mean -> wf log_var ->
  Forall (fun p => 0 <= p <= 1) (data x_hat) ->
  loss_function x x_hat mean log_var
  = Some (scalar (spec_loss (data x) (data x_hat) (data mean) (data log_var))).
Proof.
  intros Sx Wx Wh Sm Wm Wl R. unfold loss_function, obind.
  rewrite binary_cross_entropy_sum, kld_eq by assumption.
  apply tadd_scalars.
Qed.

Lemma sum_over_nonneg n f : (forall i, (i < n)%nat -> 0 <= f i) -> 0 <= sum_over n f.
Proof.
  intros H. apply Rsum_nonneg, Forall_forall. intros v Hv.
  apply in_map_iff in Hv as (i & <- & Hi). apply in_seq in Hi. apply H. lia.
Qed.

Lemma sum_over_zero n f : (forall i, (i < n)%nat -> f i = 0) -> sum_over n f = 0.
Proof.
  intros H. rewrite (sum_over_ext n f (fun _ => 0) H). unfold sum_over.
  induction (seq 0 n) as [|i s IH]; simpl; [reflexivity | rewrite IH; lra].
Qed.

Lemma sum_over_opp n f : sum_over n (fun i => - f i) = - sum_over n f.
Proof.
  unfold sum_over. induction (seq 0 n) as [|i s IH]; simpl; [lra | rewrite IH; lra].
Qed.

Lemma Forall_nth_R (P : R -> Prop) l i : Forall P l -> (i < length l)%nat -> P (nth i l 0).
Proof. intros H Hi. eapply Forall_forall; [exact H | now apply nth_In]. Qed.

Lemma spec_reconstruction_nonneg x x_hat :
  length x = length x_hat ->
  Forall (fun v => 0 <= v <= 1) x -> Forall (fun p => 0 <= p <= 1) x_hat ->
  0 <= spec_reconstruction x x_hat.
Proof.
  intros L Hx Hp. apply sum_over_nonneg. intros i Hi.
  apply bce_term_nonneg.
  - now apply (Forall_nth_R (fun p => 0 <= p <= 1)).
  - apply (Forall_nth_R (fun p => 0 <= p <= 1)); [assumption | lia].
Qed.

Lemma spec_KL_nonneg mean log_var : 0 <= spec_KL mean log_var.
Proof.
  unfold spec_KL.
  assert (0 <= sum_over (length log_var)
            (fun i => - (1 + nth i log_var 0 - nth i mean 0 * nth i mean 0
                         - exp (nth i log_var 0)))) as H.
  { apply sum_over_nonneg. intros i _.
    pose proof (exp_ineq1_le (nth i log_var 0)). nra. }
  rewrite sum_over_opp in H. lra.
Qed.

Lemma Forall_weaken_unit l : Forall (fun p => 0 < p < 1) l -> Forall (fun p => 0 <= p <= 1) l.
Proof. apply Forall_impl. intros; lra. Qed.

(** ** The loss function *)

Lemma bce_term_inside p y :
  0 < p < 1 ->
  bce_term p y = - (y * Rmax (ln p) (-100) + (1 - y) * Rmax (ln (1 - p)) (-100)).
Proof.
  intros P. unfold bce_term, clamped_log.
  destruct (Rlt_dec 0 p); [| lra]. destruct (Rlt_dec 0 (1 - p)); [| lra]. reflexivity.
Qed.

(** C1: applied to an original batch [x], a reconstruction [x_hat] with
    values inside (0,1), a mean and a log-variance, [loss_function] returns
    the binary cross-entropy between [x_hat] and [x],
    [- (x * ln x_hat + (1 - x) * ln (1 - x_hat))], summed (not averaged)
    over all positions, plus
    [-0.5 * sum (1 + log_var - mean^2 - exp log_var)] over all positions.
    The library keeps each logarithm at or above [-100]; where no value of
    [x_hat] is within [exp (-100)] of 0 or 1 that floor plays no part. *)
Theorem loss_function_sum_bce_plus_kl x x_hat mean log_var :
  shape x = shape x_hat -> wf x -> wf x_hat ->
  shape mean = shape log_var -> wf mean -> wf log_var ->
  Forall (fun p => 0 < p < 1) (data x_hat) ->
  loss_function x x_hat mean log_var
  = Some (scalar
            (sum_over (length (data x_hat))
               (fun i => - (nth i (data x) 0 * Rmax (ln (nth i (data x_hat) 0)) (-100)
                            + (1 - nth i (data x) 0)
                              * Rmax (ln (1 - nth i (data x_hat) 0)) (-100)))
             + -0.5 * sum_over (length (data log_var))
                        (fun i => 1 + nth i (data log_var) 0
                                  - nth i (data mean) 0 * nth i (data mean) 0
                                  - exp (nth i (data log_var) 0)))) /\
  (Forall (fun p => exp (-100) <= p <= 1 - exp (-100)) (data x_hat) ->
   loss_function x x_hat mean log_var
   = Some (scalar
             (sum_over (length (data x_hat))
                (fun i => - (nth i (data x) 0 * ln (nth i (data x_hat) 0)
                             + (1 - nth i (data x) 0) * ln (1 - nth i (data x_hat) 0)))
              + -0.5 * sum_over (length (data log_var))
                         (fun i => 1 + nth i (data log_var) 0
                                   - nth i (data mean) 0 * nth i (data mean) 0
                                   - exp (nth i (data log_var) 0))))).
Proof.
  intros Sx Wx Wh Sm Wm Wl R.
  assert (E : loss_function x x_hat mean log_var
              = Some (scalar (spec_reconstruction (data x) (data x_hat)
                              + spec_KL (data mean) (data log_var)))).
  { unfold loss_function.
    rewrite binary_cross_entropy_sum by (try assumption; now apply Forall_weaken_unit).
    cbn [obind]. rewrite kld_eq by assumption. cbn [obind].
    now rewrite tadd_scalars. }
  split.
  - rewrite E. do 3 f_equal. apply sum_over_ext. intros i Hi.
    apply bce_term_inside. now apply (Forall_nth_R (fun p => 0 < p < 1)).
  - intros T. rewrite E. do 3 f_equal. apply sum_over_ext. intros i Hi.
    pose proof (Forall_nth_R _ _ i T Hi) as (L & U). now apply bce_term_textbook.
Qed.

Lemma sample_range c n : 0 <= c <= 1 -> Forall (fun v => 0 <= v <= 1) (repeat c n).
Proof. intros H. apply Forall_forall. intros v Hv. apply repeat_spec in Hv. now subst. Qed.

Lemma sample_range_strict c n : 0 < c < 1 -> Forall (fun v => 0 < v < 1) (repeat c n).
Proof. intros H. apply Forall_forall. intros v Hv. apply repeat_spec in Hv. now subst. Qed.

Lemma sample_zero n : Forall (fun v => v = 0) (repeat 0 n).
Proof. apply Forall_forall. intros v Hv. now apply repeat_spec in Hv. Qed.

Lemma half_in_unit : 0 <= 0.5 <= 1.
Proof. lra. Qed.

Lemma half_inside_unit : 0 < 0.5 < 1.
Proof. lra. Qed.

Lemma exp_minus_100_small : exp (-100) <= 0.5.
Proof.
  pose proof (exp_ineq1_le 100) as L. pose proof (exp_pos 100) as P.
  assert (E : exp (-100) = / exp 100) by (rewrite <- exp_Ropp; f_equal; lra).
  assert (/ exp 100 <= / 2) by (apply Rinv_le_contravar; lra).
  lra.
Qed.

Lemma loss_function_sum_bce_plus_kl_witness :
  loss_function (full 0.5 [100; 784]%nat) (full 0.5 [100; 784]%nat)
                (full 0 [100; 20]%nat) (full 0 [100; 20]%nat)
  = Some (scalar
            (sum_over (length (data (full 0.5 [100; 784]%nat)))
               (fun i => - (nth i (data (full 0.5 [100; 784]%nat)) 0
                            * ln (nth i (data (full 0.5 [100; 784]%nat)) 0)
                            + (1 - nth i (data (full 0.5 [100; 784]%nat)) 0)
                              * ln (1 - nth i (data (full 0.5 [100; 784]%nat)) 0)))
             + -0.5 * sum_over (length (data (full 0 [100; 20]%nat)))
                        (fun i => 1 + nth i (data (full 0 [100; 20]%nat)) 0
                                  - nth i (data (full 0 [100; 20]%nat)) 0
                                    * nth i (data (full 0 [100; 20]%nat)) 0
                                  - exp (nth i (data (full 0 [100; 20]%nat)) 0)))).
Proof.
  destruct (loss_function_sum_bce_plus_kl
              (full 0.5 [100; 784]%nat) (full 0.5 [100; 784]%nat)
              (full 0 [100; 20]%nat) (full 0 [100; 20]%nat)) as (_ & Textbook).
  - reflexivity.
  - apply full_wf.
  - apply full_wf.
  - reflexivity.
  - apply full_wf.
  - apply full_wf.
  - apply sample_range_strict, half_inside_unit.
  - apply Textbook. apply Forall_forall. intros p Hp. apply repeat_spec in Hp. subst p.
    pose proof exp_minus_100_small. lra.
Defined.

(** C5: for an original batch with values in [0,1], a reconstruction with
    values strictly inside (0,1), and any mean and log-variance, the loss is
    returned and is not negative. *)
Theorem loss_function_nonneg x x_hat mean log_var :
  shape x = shape x_hat -> wf x -> wf x_hat ->
  shape mean = shape log_var -> wf mean -> wf log_var ->
  Forall (fun v => 0 <= v <= 1) (data x) ->
  Forall (fun p => 0 < p < 1) (data x_hat) ->
  exists loss v,
    loss_function x x_hat mean log_var = Some loss /\ item loss = Some v /\ 0 <= v.
Proof.
  intros Sx Wx Wh Sm Wm Wl Rx Rh. apply Forall_weaken_unit in Rh as Rh'.
  eexists; eexists. split; [now apply loss_function_eq |]. split; [reflexivity |].
  unfold spec_loss.
  pose proof (spec_KL_nonneg (data mean) (data log_var)).
  assert (0 <= spec_reconstruction (data x) (data x_hat)).
  { apply spec_reconstruction_nonneg; auto. unfold wf in *. congruence. }
  lra.
Qed.

Lemma loss_function_nonneg_witness :
  exists loss v,
    loss_function (full 0.5 [100; 784]%nat) (full 0.5 [100; 784]%nat)
                  (full 0 [100; 20]%nat) (full 0 [100; 20]%nat)
    = Some loss /\ item loss = Some v /\ 0 <= v.
Proof.
  apply (loss_function_nonneg
           (full 0.5 [100; 784]%nat) (full 0.5 [100; 784]%nat)
           (full 0 [100; 20]%nat) (full 0 [100; 20]%nat)).
  - reflexivity.
  - apply full_wf.
  - apply full_wf.
  - reflexivity.
  - apply full_wf.
  - apply full_wf.
  - apply sample_range, half_in_unit.
  - apply sample_range_strict, half_inside_unit.
Defined.

(** C6: the KL term is exactly 0 when the mean and the log-variance are 0 at
    every position. *)
Theorem kld_zero_at_prior mean log_var :
  shape mean = shape log_var -> wf mean -> wf log_var ->
  Forall (fun v => v = 0) (data mean) -> Forall (fun v => v = 0) (data log_var) ->
  kld mean log_var = Some (scalar 0).
Proof.
  intros S Wm Wl Zm Zl. rewrite kld_eq by assumption. do 2 f_equal.
  unfold spec_KL. rewrite sum_over_zero; [lra|].
  intros i Hi.
  rewrite (Forall_nth_R (fun v => v = 0) _ i Zl Hi).
  rewrite (Forall_nth_R (fun v => v = 0) (data mean) i Zm)
    by (unfold wf in *; congruence).
  rewrite exp_0. lra.
Qed.

Lemma kld_zero_at_prior_witness :
  kld (full 0 [100; 20]%nat) (full 0 [100; 20]%nat) = Some (scalar 0).
Proof.
  apply (kld_zero_at_prior (full 0 [100; 20]%nat) (full 0 [100; 20]%nat)).
  - reflexivity.
  - apply full_wf.
  - apply full_wf.
  - apply sample_zero.
  - apply sample_zero.
Defined.

(** ** Encoder, decoder and model *)

Section ForwardProperties.
Context {RS : RandomSource}.

Lemma sample_wf n l (mean std : list R) g :
  length mean = numel [n; l] -> length std = numel [n; l] ->
  wf (mkTensor [n; l] (map2 Rplus mean (map2 Rmult std (fst (randn (numel [n; l]) g))))).
Proof.
  intros Lm Ls. unfold wf. cbn [data shape].
  rewrite map2_length; [assumption|].
  rewrite map2_length; rewrite ?randn_length; congruence.
Qed.

(** C2: on a batch of shape (batch_size, input_dim) the encoder's mean,
    log-variance and sampled latent each have shape (batch_size,
    latent_dim), and one forward pass of the composite model gives a
    reconstruction of shape (batch_size, input_dim) with mean and
    log-variance of shape (batch_size, latent_dim); at batch size 100,
    input dimension 784 and latent dimension 20 these are (100, 784) and
    (100, 20). *)
Theorem forward_shapes (m : Model.t) (x : Tensor) (n i h l : nat) (g : Generator) :
  Model.well_formed i h l m -> shape x = [n; i] ->
  (exists z mean log_var g',
      Encoder.forward (Model.encoder m) x g = Some (z, mean, log_var, g') /\
      shape z = [n; l] /\ shape mean = [n; l] /\ shape log_var = [n; l] /\
      wf z /\ wf mean /\ wf log_var) /\
  (exists x_hat mean log_var g',
      Model.forward m x g = Some (x_hat, mean, log_var, g') /\
      shape x_hat = [n; i] /\ shape mean = [n; l] /\ shape log_var = [n; l] /\
      wf x_hat /\ wf mean /\ wf log_var).
Proof.
  intros W Sx. split.
  - destruct W as (We & _).
    destruct (Encoder_forward_eq _ _ _ _ _ _ We Sx)
      as (mean & log_var & S2 & Wm & S3 & Wl & E).
    eexists; exists mean, log_var; eexists. split; [apply E|].
    repeat split; try assumption.
    apply sample_wf.
    + unfold wf in Wm. congruence.
    + rewrite !length_map. unfold wf in Wl. congruence.
  - destruct (Model_forward_eq _ _ _ _ _ _ W Sx)
      as (mean & log_var & S2 & Wm & S3 & Wl & E).
    destruct (E g) as (out & So & Wo & Eg).
    exists (sigmoid out), mean, log_var; eexists. split; [exact Eg|].
    repeat split; try assumption. now apply tmap_wf.
Qed.

(** C3: the sampled latent is [mean + exp (0.5 * log_var) * epsilon]
    position by position, with [epsilon] the draw this call takes from the
    generator, which it leaves advanced past the draw; so with the noise
    at 0 the sampled latent is the mean itself. *)
Theorem reparameterization_formula (enc : Encoder.t) (x : Tensor) (n i h l : nat)
    (g : Generator) :
  Encoder.well_formed i h l enc -> shape x = [n; i] ->
  exists z mean log_var,
    let epsilon := fst (randn (numel [n; l]) g) in
    let g' := snd (randn (numel [n; l]) g) in
    Encoder.forward enc x g = Some (z, mean, log_var, g') /\
    Encoder.reparameterization mean (texp (scalar_mul 0.5 log_var)) g = Some (z, g') /\
    shape z = [n; l] /\
    (forall j, (j < n * l)%nat ->
       nth j (data z) 0
       = nth j (data mean) 0 + exp (0.5 * nth j (data log_var) 0) * nth j epsilon 0) /\
    (epsilon = repeat 0 (numel [n; l]) -> z = mean).
Proof.
  intros We Sx.
  destruct (Encoder_forward_eq _ _ _ _ _ _ We Sx)
    as (mean & log_var & S2 & Wm & S3 & Wl & E).
  assert (Lm : length (data mean) = (n * l)%nat)
    by (unfold wf in Wm; now rewrite Wm, S2, numel_2).
  assert (Ll : length (data log_var) = (n * l)%nat)
    by (unfold wf in Wl; now rewrite Wl, S3, numel_2).
  eexists; exists mean, log_var. cbv zeta.
  split; [apply E|]. split; [| split; [reflexivity | split]].
  - rewrite reparameterization_eq.
    + unfold texp, scalar_mul. cbn [tmap shape data]. rewrite S2, S3. reflexivity.
    + unfold texp, scalar_mul. cbn [tmap shape]. congruence.
    + assumption.
    + unfold texp, scalar_mul. now apply tmap_wf, tmap_wf.
  - intros j Hj. cbn [data].
    assert (Le : length (fst (randn (numel [n; l]) g)) = (n * l)%nat)
      by now rewrite randn_length, numel_2.
    rewrite (map2_nth Rplus _ _ j 0 0 0);
      [| lia | rewrite map2_length; rewrite !length_map; lia ].
    rewrite (map2_nth Rmult _ _ j 0 0 0); [| rewrite !length_map; lia | lia ].
    rewrite map_map.
    rewrite (nth_indep (map (fun v => exp (0.5 * v)) (data log_var)) 0 (exp (0.5 * 0)))
      by (rewrite length_map; lia).
    rewrite (map_nth (fun v => exp (0.5 * v))). reflexivity.
  - intros Z. rewrite Z. destruct mean as [sm dm]. cbn [data shape] in *.
    subst sm. f_equal.
    replace (numel [n; l]) with (length (map exp (map (fun v => 0.5 * v) (data log_var))))
      by (rewrite !length_map, numel_2; assumption).
    apply map2_zero_noise. rewrite !length_map. congruence.
Qed.

(** C4: the decoder returns, for every latent batch, values within [0,1];
    it returns the same batch whatever the state of the generator and
    leaves that state as it found it. *)
Theorem decoder_range_deterministic (dec : Decoder.t) (z : Tensor) (n l h o : nat) :
  Decoder.well_formed l h o dec -> shape z = [n; l] ->
  exists x_hat,
    (forall g : Generator, Decoder.forward dec z g = Some (x_hat, g)) /\
    shape x_hat = [n; o] /\ wf x_hat /\
    Forall (fun p => 0 <= p <= 1) (data x_hat).
Proof.
  intros W Sz. destruct (Decoder_forward_eq _ _ _ _ _ _ W Sz) as (out & So & Wo & E).
  exists (sigmoid out). repeat split; try assumption.
  - now apply tmap_wf.
  - apply Forall_weaken_unit, sigmoid_data_range.
Qed.

(** C10: over the reals every value the decoder returns is strictly
    between 0 and 1, so both logarithms of the cross-entropy have a
    positive argument and the cross-entropy of the loss is returned for
    any original batch of the same shape. *)
Theorem decoder_output_logs_defined (dec : Decoder.t) (z x : Tensor) (n l h o : nat)
    (g : Generator) :
  Decoder.well_formed l h o dec -> shape z = [n; l] ->
  shape x = [n; o] -> wf x ->
  exists x_hat,
    Decoder.forward dec z g = Some (x_hat, g) /\
    Forall (fun p => 0 < p < 1) (data x_hat) /\
    Forall (fun p => 0 < p /\ 0 < 1 - p) (data x_hat) /\
    binary_cross_entropy x_hat x ReduceSum
    = Some (scalar (sum_over (length (data x_hat))
                      (fun i => - (nth i (data x) 0 * Rmax (ln (nth i (data x_hat) 0)) (-100)
                                   + (1 - nth i (data x) 0)
                                     * Rmax (ln (1 - nth i (data x_hat) 0)) (-100))))).
Proof.
  intros W Sz Sx Wx. destruct (Decoder_forward_eq _ _ _ _ _ _ W Sz) as (out & So & Wo & E).
  exists (sigmoid out). split; [apply E|].
  pose proof (sigmoid_data_range out) as R. split; [exact R|]. split.
  - revert R. apply Forall_impl. intros; lra.
  - rewrite binary_cross_entropy_sum;
      [| unfold sigmoid; rewrite tmap_shape; congruence | assumption
       | unfold sigmoid; now apply tmap_wf | now apply Forall_weaken_unit ].
    do 2 f_equal. apply sum_over_ext. intros i Hi.
    pose proof (Forall_nth_R _ _ i R Hi) as P. cbv beta in P.
    unfold bce_term, clamped_log.
    destruct (Rlt_dec 0 (nth i (data (sigmoid out)) 0)); [| lra].
    destruct (Rlt_dec 0 (1 - nth i (data (sigmoid out)) 0)); [| lra].
    reflexivity.
Qed.

End ForwardProperties.

Lemma sample_encoder_ok c i h l :
  Encoder.well_formed i h l (Model.encoder (sample_model c i h l)).
Proof. apply sample_model_ok. Qed.

Lemma sample_decoder_ok c i h l :
  Decoder.well_formed l h i (Model.decoder (sample_model c i h l)).
Proof. apply sample_model_ok. Qed.

Lemma forward_shapes_witness :
  (exists z mean log_var g',
      @Encoder.forward still_source (Model.encoder (sample_model 0.1 784 400 20))
        (full 0.5 [100; 784]%nat) tt = Some (z, mean, log_var, g') /\
      shape z = [100; 20]%nat /\ shape mean = [100; 20]%nat /\
      shape log_var = [100; 20]%nat /\ wf z /\ wf mean /\ wf log_var) /\
  (exists x_hat mean log_var g',
      @Model.forward still_source (sample_model 0.1 784 400 20)
        (full 0.5 [100; 784]%nat) tt = Some (x_hat, mean, log_var, g') /\
      shape x_hat = [100; 784]%nat /\ shape mean = [100; 20]%nat /\
      shape log_var = [100; 20]%nat /\ wf x_hat /\ wf mean /\ wf log_var).
Proof.
  apply (@forward_shapes still_source (sample_model 0.1 784 400 20)
           (full 0.5 [100; 784]%nat) 100 784 400 20 tt).
  - apply sample_model_ok.
  - reflexivity.
Defined.

Lemma reparameterization_formula_witness :
  exists z mean log_var,
    @Encoder.forward still_source (Model.encoder (sample_model 0.1 784 400 20))
      (full 0.5 [100; 784]%nat) tt = Some (z, mean, log_var, tt) /\
    shape z = [100; 20]%nat /\
    z = mean.
Proof.
  destruct (@reparameterization_formula still_source
              (Model.encoder (sample_model 0.1 784 400 20))
              (full 0.5 [100; 784]%nat) 100 784 400 20 tt)
    as (z & mean & log_var & E & _ & S & _ & Z).
  - apply sample_encoder_ok.
  - reflexivity.
  - exists z, mean, log_var. split; [exact E|]. split; [exact S|].
    apply Z. reflexivity.
Defined.

Lemma decoder_range_deterministic_witness :
  exists x_hat,
    (forall g, @Decoder.forward still_source (Model.decoder (sample_model 0.1 784 400 20))
                 (full 0 [100; 20]%nat) g = Some (x_hat, g)) /\
    shape x_hat = [100; 784]%nat /\ wf x_hat /\
    Forall (fun p => 0 <= p <= 1) (data x_hat).
Proof.
  apply (@decoder_range_deterministic still_source
           (Model.decoder (sample_model 0.1 784 400 20)) (full 0 [100; 20]%nat)
           100 20 400 784).
  - apply sample_decoder_ok.
  - reflexivity.
Defined.

Lemma decoder_output_logs_defined_witness :
  exists x_hat v,
    @Decoder.forward still_source (Model.decoder (sample_model 0.1 784 400 20))
      (full 0 [100; 20]%nat) tt = Some (x_hat, tt) /\
    Forall (fun p => 0 < p < 1) (data x_hat) /\
    binary_cross_entropy x_hat (full 0.5 [100; 784]%nat) ReduceSum = Some (scalar v).
Proof.
  destruct (@decoder_output_logs_defined still_source
              (Model.decoder (sample_model 0.1 784 400 20)) (full 0 [100; 20]%nat)
              (full 0.5 [100; 784]%nat) 100 20 400 784 tt)
    as (x_hat & E & R & _ & B).
  - apply sample_decoder_ok.
  - reflexivity.
  - reflexivity.
  - apply full_wf.
  - exists x_hat. eexists. split; [exact E|]. split; [exact R | exact B].
Defined.

(** ** Data loading *)

Lemma all_some_map {A B} (f : A -> option B) (g : A -> B) l :
  Forall (fun a => f a = Some (g a)) l ->
  DataLoader.all_some (map f l) = Some (map g l).
Proof.
  induction 1 as [|a l Ha _ IH]; simpl; [reflexivity|]. now rewrite Ha, IH.
Qed.

Lemma length_concat_const {A} (ls : list (list A)) c :
  Forall (fun l => length l = c) ls -> length (concat ls) = (length ls * c)%nat.
Proof.
  induction 1 as [|l ls Hl _ IH]; simpl; [reflexivity|].
  rewrite length_app, IH, Hl. reflexivity.
Qed.

Lemma Forall_concat {A} (P : A -> Prop) (ls : list (list A)) :
  Forall (Forall P) ls -> Forall P (concat ls).
Proof.
  induction 1 as [|l ls Hl _ IH]; simpl; [constructor | now apply Forall_app].
Qed.

Lemma stack_ok s (ts : list Tensor) :
  ts <> [] -> Forall (image_ok s) ts ->
  exists t, stack ts = Some t /\ shape t = length ts :: s /\ wf t /\
            data t = concat (map data ts) /\
            Forall (fun v => 0 <= v <= 1) (data t).
Proof.
  intros NE H. destruct ts as [|t0 rest]; [congruence|].
  pose proof H as H0. inversion H0 as [|? ? (S0 & W0 & R0) Hrest]; subst.
  unfold stack.
  replace (forallb (fun t => shape_eqb (shape t) (shape t0)) rest) with true.
  - eexists. split; [reflexivity|]. cbn [shape data]. repeat split.
    + unfold wf. cbn [shape data]. change (numel (length (t0 :: rest) :: shape t0))
        with (length (t0 :: rest) * numel (shape t0))%nat.
      rewrite <- (length_map data (t0 :: rest)). apply length_concat_const.
      apply Forall_map. revert H. apply Forall_impl. intros t (St & Wt & _).
      unfold wf in Wt. congruence.
    + apply Forall_concat, Forall_map. revert H. apply Forall_impl.
      now intros t (_ & _ & Rt).
  - symmetry. apply forallb_forall. intros t Ht.
    assert (image_ok (shape t0) t) as (St & _) by (eapply Forall_forall; eauto).
    rewrite St. apply shape_eqb_refl.
Qed.

Lemma fetch_ok s (loader : DataLoader.t) (indices : list nat) :
  Forall (image_ok s) (DataLoader.dataset loader) ->
  indices <> [] ->
  Forall (fun i => (i < length (DataLoader.dataset loader))%nat) indices ->
  exists t, DataLoader.fetch loader indices = Some t /\
            shape t = length indices :: s /\ wf t /\
            data t = concat (map (fun i => data (nth i (DataLoader.dataset loader) (scalar 0)))
                                 indices) /\
            Forall (fun v => 0 <= v <= 1) (data t).
Proof.
  intros Hds NE Hi. unfold DataLoader.fetch.
  rewrite (all_some_map _ (fun i => nth i (DataLoader.dataset loader) (scalar 0))).
  - cbn [obind].
    destruct (stack_ok s (map (fun i => nth i (DataLoader.dataset loader) (scalar 0)) indices))
      as (t & E & St & Wt & Dt & Rt).
    + destruct indices; [congruence | discriminate].
    + apply Forall_map. revert Hi. apply Forall_impl. intros i Hi.
      eapply Forall_forall; [exact Hds | now apply nth_In].
    + exists t. rewrite length_map in St. rewrite map_map in Dt. now repeat split.
  - revert Hi. apply Forall_impl. intros i Hi. now apply nth_error_nth'.
Qed.

Lemma view_ok s t : numel (shape t) = numel s -> view s t = Some (mkTensor s (data t)).
Proof. intros E. unfold view. now rewrite E, Nat.eqb_refl. Qed.

Lemma div_up_exact n k : (0 < k)%nat -> DataLoader.div_up (n * k) k = n.
Proof.
  intros K. unfold DataLoader.div_up.
  replace (n * k + k - 1)%nat with (k - 1 + n * k)%nat by lia.
  rewrite Nat.div_add by lia. rewrite Nat.div_small by lia. reflexivity.
Qed.

Lemma div_up_pos n k : (0 < k)%nat -> (0 < n)%nat -> (0 < DataLoader.div_up n k)%nat.
Proof.
  intros K N. unfold DataLoader.div_up. apply Nat.div_str_pos. lia.
Qed.

Lemma chunk_incl {A} k i (d : list A) a : In a (chunk k i d) -> In a d.
Proof.
  unfold chunk. intros H.
  rewrite <- (firstn_skipn (i * k) d). apply in_or_app. right.
  rewrite <- (firstn_skipn k (skipn (i * k) d)). apply in_or_app. now left.
Qed.

(** ** Positive losses *)

Lemma clamped_log_neg p : 0 < p < 1 -> clamped_log p < 0.
Proof.
  intros [P Q]. unfold clamped_log. destruct (Rlt_dec 0 p); [| lra].
  apply Rmax_lub_lt; [| lra]. rewrite <- ln_1. now apply ln_increasing.
Qed.

Lemma bce_term_pos p y : 0 < p < 1 -> 0 <= y <= 1 -> 0 < bce_term p y.
Proof.
  intros Hp Hy. unfold bce_term.
  assert (A : clamped_log p < 0) by now apply clamped_log_neg.
  assert (B : clamped_log (1 - p) < 0) by (apply clamped_log_neg; lra).
  destruct (Rle_dec y (1/2)); nra.
Qed.

Lemma sum_over_pos n f :
  (0 < n)%nat -> (forall i, (i < n)%nat -> 0 < f i) -> 0 < sum_over n f.
Proof.
  intros N H. destruct n as [|n]; [lia|]. rewrite sum_over_S.
  assert (0 < f 0%nat) by (apply H; lia).
  assert (0 <= sum_over n (fun i => f (S i)))
    by (apply sum_over_nonneg; intros i Hi; left; apply H; lia).
  lra.
Qed.

Lemma spec_loss_pos x x_hat mean log_var :
  length x = length x_hat -> (0 < length x_hat)%nat ->
  Forall (fun v => 0 <= v <= 1) x -> Forall (fun p => 0 < p < 1) x_hat ->
  0 < spec_loss x x_hat mean log_var.
Proof.
  intros L N Hx Hp. unfold spec_loss.
  pose proof (spec_KL_nonneg mean log_var).
  assert (0 < spec_reconstruction x x_hat).
  { apply sum_over_pos; [assumption|]. intros i Hi. apply bce_term_pos.
    - now apply (Forall_nth_R (fun p => 0 < p < 1)).
    - apply (Forall_nth_R (fun p => 0 <= p <= 1)); [assumption | lia]. }
  lra.
Qed.

Lemma montage_numel_pos : (0 < numel [10; 10; 28; 28])%nat.
Proof. cbn [numel fold_right]. lia. Qed.

(** ** The script *)

Ltac st_simpl :=
  cbn [model optimizer grads gen console wandb_log files overall_loss
       v_batch_idx v_x v_x_hat set_model set_optimizer set_grads set_gen print
       wandb_log_entry save_image set_overall_loss set_batch_idx set_x set_x_hat
       zero_grad backward obind].

Section ScriptFacts.
Context {RS : RandomSource} {AG : Autograd}.

Lemma hyper_ok_pos hp : hyper_ok hp -> (0 < batch_size hp)%nat /\ (0 < x_dim hp)%nat.
Proof.
  intros (E & _). pose proof montage_numel_pos as P. rewrite <- E, numel_2 in P. nia.
Qed.

Lemma composed_ok t :
  numel (shape t) = numel [10; 10; 28; 28]%nat -> exists c, composed t = Some c.
Proof.
  intros E. unfold composed. rewrite (view_ok _ _ E). cbn [obind].
  unfold permute_0213. cbn [shape obind].
  unfold flatten_end_1. cbn [shape obind].
  unfold flatten_start_1. cbn [shape obind]. eexists. reflexivity.
Qed.

Lemma print_every_100_eq i st :
  print_every_100 i st
  = mkState (model st) (optimizer st) (grads st) (gen st)
      ((if (i mod 100 =? 0)%nat then [Index i] else []) ++ console st)
      (wandb_log st) (files st) (overall_loss st) (v_batch_idx st) (v_x st) (v_x_hat st).
Proof.
  unfold print_every_100. destruct (i mod 100 =? 0)%nat; [reflexivity|].
  now destruct st.
Qed.

(** A batch as the loops see it after [x.view(batch_size, x_dim)]. *)
Lemma batch_view_ok hp s loader indices :
  loader_ok hp s loader -> batch_ok hp loader indices -> (0 < batch_size hp)%nat ->
  exists batch,
    DataLoader.fetch loader indices = Some batch /\
    view [batch_size hp; x_dim hp] batch
    = Some (mkTensor [batch_size hp; x_dim hp] (data batch)) /\
    length (data batch) = numel [batch_size hp; x_dim hp] /\
    data batch = concat (map (fun i => data (nth i (DataLoader.dataset loader) (scalar 0)))
                             indices) /\
    Forall (fun v => 0 <= v <= 1) (data batch).
Proof.
  intros (_ & Hds & Hs) (Li & Hi) B.
  destruct (fetch_ok s loader indices Hds) as (batch & E & Sb & Wb & Db & Rb);
    [destruct indices; [simpl in Li; lia | discriminate] | assumption |].
  assert (N : numel (shape batch) = numel [batch_size hp; x_dim hp]).
  { rewrite Sb, numel_2, Li, <- Hs. reflexivity. }
  exists batch. repeat split; try assumption.
  - now apply view_ok.
  - unfold wf in Wb. congruence.
Qed.

Lemma optimizer_step_eq st gr :
  grads st = Some gr ->
  optimizer_step st
  = set_model (snd (Adam_step (optimizer st) gr (model st)))
      (set_optimizer (fst (Adam_step (optimizer st) gr (model st))) st).
Proof.
  intros E. unfold optimizer_step. rewrite E.
  now destruct (Adam_step (optimizer st) gr (model st)).
Qed.

(** One pass of the inner training loop on a full batch. *)
Lemma train_body_ok hp s loader i indices st :
  hyper_ok hp -> loader_ok hp s loader -> batch_ok hp loader indices ->
  Model.well_formed (x_dim hp) (hidden_dim hp) (latent_dim hp) (model st) ->
  exists st',
    train_body hp loader i indices st = Some (st', Continue) /\
    Model.well_formed (x_dim hp) (hidden_dim hp) (latent_dim hp) (model st') /\
    v_batch_idx st' = Some i /\
    overall_loss st < overall_loss st'.
Proof.
  intros Hh Hl Hb Wm. destruct (hyper_ok_pos hp Hh) as (Bp & Xp).
  destruct (batch_view_ok hp s loader indices Hl Hb Bp)
    as (batch & Ef & Ev & Lb & _ & Rb).
  unfold train_body. rewrite Ef. cbn [obind]. rewrite Ev. cbn [obind].
  set (x := mkTensor [batch_size hp; x_dim hp] (data batch)).
  destruct (Model_forward_eq (model st) x (batch_size hp) (x_dim hp) (hidden_dim hp)
              (latent_dim hp) Wm eq_refl)
    as (mean & log_var & Sm & Wmean & Sl & Wlv & Fw).
  rewrite print_every_100_eq. st_simpl.
  destruct (Fw (gen st)) as (out & So & Wo & Eo). rewrite Eo. cbn [obind].
  assert (Wx : wf x) by exact Lb.
  assert (Rh : Forall (fun p => 0 < p < 1) (data (sigmoid out)))
    by apply sigmoid_data_range.
  rewrite loss_function_eq;
    [| exact (eq_sym So) | exact Wx | now apply tmap_wf | congruence
     | assumption | assumption | now apply Forall_weaken_unit ].
  cbn [obind item scalar data].
  assert (Pos : 0 < spec_loss (data x) (data (sigmoid out)) (data mean) (data log_var)).
  { assert (Lo : length (data (sigmoid out)) = numel [batch_size hp; x_dim hp]).
    { unfold sigmoid, tmap. cbn [data]. rewrite length_map.
      unfold wf in Wo. now rewrite Wo, So. }
    apply spec_loss_pos; try assumption.
    - cbn [x data]. congruence.
    - rewrite Lo. destruct Hh as (E & _). rewrite E. apply montage_numel_pos. }
  rewrite optimizer_step_eq with (gr := loss_gradient (model st) x (gen st))
    by reflexivity.
  st_simpl.
  destruct Hh as (E78 & Hlog). unfold pymod.
  destruct (log_interval hp =? 0)%nat eqn:El; [apply Nat.eqb_eq in El; contradiction|].
  cbn [obind].
  destruct (i mod log_interval hp =? 0)%nat.
  - destruct (composed_ok x E78) as (cx & Ecx).
    destruct (composed_ok (sigmoid out)) as (ch & Ech).
    { unfold sigmoid. rewrite tmap_shape, So. exact E78. }
    rewrite Ecx, Ech. cbn [obind]. eexists. split; [reflexivity|]. st_simpl.
    split; [apply Adam_step_well_formed; exact Wm | split; [reflexivity | lra]].
  - eexists. split; [reflexivity|]. st_simpl.
    split; [apply Adam_step_well_formed; exact Wm | split; [reflexivity | lra]].
Qed.

Lemma train_loop_ok hp s loader items : forall i st,
  hyper_ok hp -> loader_ok hp s loader -> Forall (batch_ok hp loader) items ->
  Model.well_formed (x_dim hp) (hidden_dim hp) (latent_dim hp) (model st) ->
  exists st',
    for_enumerate (train_body hp loader) i items st = Some st' /\
    Model.well_formed (x_dim hp) (hidden_dim hp) (latent_dim hp) (model st') /\
    (items <> [] ->
     v_batch_idx st' = Some (i + length items - 1)%nat /\
     overall_loss st < overall_loss st').
Proof.
  induction items as [|b items IH]; intros i st Hh Hl Hi Wm.
  - exists st. split; [reflexivity|]. split; [assumption|].
    intros NE. now contradiction NE.
  - inversion Hi as [|? ? Hb Hrest]; subst.
    destruct (train_body_ok hp s loader i b st Hh Hl Hb Wm) as (st1 & E1 & W1 & B1 & L1).
    destruct (IH (S i) st1 Hh Hl Hrest W1) as (st' & E' & W' & Last).
    exists st'. cbn [for_enumerate]. rewrite E1. split; [exact E'|]. split; [exact W'|].
    intros _. destruct items as [|b' items'].
    + cbn [for_enumerate] in E'. injection E' as <-. cbn [length].
      split; [rewrite B1; f_equal; lia | exact L1].
    + destruct Last as (B' & L'); [discriminate|]. cbn [length] in *.
      split; [rewrite B'; f_equal; lia | lra].
Qed.

Lemma sampler_ok (loader : DataLoader.t) g :
  let order := fst (DataLoader.sampler loader g) in
  length order = length (DataLoader.dataset loader) /\
  Forall (fun i => (i < length (DataLoader.dataset loader))%nat) order.
Proof.
  unfold DataLoader.sampler. destruct (DataLoader.shuffle loader); cbn [fst].
  - pose proof (randperm_perm (length (DataLoader.dataset loader)) g) as P. split.
    + rewrite (Permutation_length P). apply length_seq.
    + apply Forall_forall. intros i Hi.
      apply (Permutation_in _ P), in_seq in Hi. lia.
  - split; [apply length_seq|]. apply Forall_forall. intros i Hi.
    apply in_seq in Hi. lia.
Qed.

Lemma index_batches_full hp (loader : DataLoader.t) order n :
  DataLoader.batch_size loader = batch_size hp -> (0 < batch_size hp)%nat ->
  length order = (n * batch_size hp)%nat ->
  Forall (fun i => (i < length (DataLoader.dataset loader))%nat) order ->
  length (DataLoader.index_batches loader order) = n /\
  Forall (batch_ok hp loader) (DataLoader.index_batches loader order).
Proof.
  intros Eb Bp Lo Ho. unfold DataLoader.index_batches.
  rewrite Eb, Lo, div_up_exact by assumption. split.
  - now rewrite length_map, length_seq.
  - apply Forall_map, Forall_forall. intros i Hi. apply in_seq in Hi. split.
    + apply (chunk_length _ _ _ n); [assumption | lia].
    + apply Forall_forall. intros j Hj. apply chunk_incl in Hj.
      revert j Hj. now apply Forall_forall.
Qed.

Lemma Rdiv_neq_of_lt L a b : 0 < L -> 0 < a -> a < b -> L / a <> L / b.
Proof.
  intros HL Ha Hab. assert (/ b < / a) by (apply Rinv_lt_contravar; nra).
  unfold Rdiv. nra.
Qed.

(** One epoch over [n] full batches, [n >= 2]: what is printed. *)
Lemma train_epoch_report hp s loader n epoch st :
  hyper_ok hp -> loader_ok hp s loader ->
  length (DataLoader.dataset loader) = (n * batch_size hp)%nat -> (2 <= n)%nat ->
  Model.well_formed (x_dim hp) (hidden_dim hp) (latent_dim hp) (model st) ->
  exists st',
    train_epoch hp loader epoch st = Some st' /\
    Model.well_formed (x_dim hp) (hidden_dim hp) (latent_dim hp) (model st') /\
    v_batch_idx st' = Some (n - 1)%nat /\
    0 < overall_loss st' /\
    hd (Text "") (console st')
    = EpochReport (epoch + 1) (overall_loss st' / INR ((n - 1) * batch_size hp)).
Proof.
  intros Hh Hl Ln N Wm. destruct (hyper_ok_pos hp Hh) as (Bp & _).
  unfold train_epoch.
  pose proof (sampler_ok loader (gen (set_overall_loss 0 st))) as (Lo & Ho).
  destruct (DataLoader.sampler loader (gen (set_overall_loss 0 st))) as (order, g).
  cbn [fst] in Lo, Ho. rewrite Ln in Lo.
  destruct Hl as (Eb & Hl').
  destruct (index_batches_full hp loader order n Eb Bp Lo Ho) as (Lb & Hb).
  destruct (train_loop_ok hp s loader (DataLoader.index_batches loader order) 0
              (set_gen g (set_overall_loss 0 st)) Hh (conj Eb Hl') Hb Wm)
    as (st1 & E1 & W1 & Last).
  destruct Last as (B1 & L1).
  { intros Z. rewrite Z in Lb. simpl in Lb. lia. }
  rewrite Lb in B1. replace (0 + n - 1)%nat with (n - 1)%nat in B1 by lia.
  cbn in L1.
  rewrite E1. cbn [obind]. rewrite B1. cbn [obind]. unfold pydiv.
  destruct ((n - 1) * batch_size hp =? 0)%nat eqn:Z; [apply Nat.eqb_eq in Z; nia|].
  eexists. split; [reflexivity|]. st_simpl. cbn [hd].
  split; [exact W1|]. split; [exact B1|]. split; [exact L1 | reflexivity].
Qed.

Lemma set_mode_well_formed b m i h l :
  Model.well_formed i h l m -> Model.well_formed i h l (Model.set_mode b m).
Proof.
  unfold Model.well_formed, Encoder.well_formed, Decoder.well_formed, Model.set_mode.
  cbn [Model.encoder Model.decoder Encoder.FC_input Encoder.FC_mean Encoder.FC_var
       Decoder.FC_hidden Decoder.FC_output]. tauto.
Qed.

Lemma set_mode_parameters b m : Model.parameters (Model.set_mode b m) = Model.parameters m.
Proof. reflexivity. Qed.

Lemma map_nth_seq_firstn {A} (l : list A) d : forall k,
  (k <= length l)%nat -> map (fun j => nth j l d) (seq 0 k) = firstn k l.
Proof.
  induction l as [|a l IH]; intros [|k] Hk; simpl in Hk; try lia; try reflexivity.
  cbn [seq firstn map nth]. f_equal.
  rewrite <- seq_shift, map_map. cbn [nth]. apply IH. lia.
Qed.

Lemma firstn_seq_le k : forall s n, (k <= n)%nat -> firstn k (seq s n) = seq s k.
Proof.
  induction k as [|k IH]; intros s [|n] Hk; try lia; try reflexivity.
  cbn [seq firstn]. f_equal. apply IH. lia.
Qed.

Lemma index_batches_first hp (loader : DataLoader.t) order :
  DataLoader.batch_size loader = batch_size hp -> (0 < batch_size hp)%nat ->
  (batch_size hp <= length order)%nat ->
  exists rest,
    DataLoader.index_batches loader order = firstn (batch_size hp) order :: rest /\
    length (firstn (batch_size hp) order) = batch_size hp.
Proof.
  intros Eb Bp Lo. unfold DataLoader.index_batches. rewrite Eb.
  pose proof (div_up_pos (length order) (batch_size hp) Bp) as P.
  destruct (DataLoader.div_up (length order) (batch_size hp)) as [|m]; [lia|].
  cbn [seq map]. rewrite chunk_0. eexists. split; [reflexivity|].
  rewrite length_firstn. lia.
Qed.

(** One pass of the loop that generates reconstructions: it reads the
    batch, runs the model and leaves the loop. *)
Lemma eval_body_ok hp s loader i indices st :
  (0 < batch_size hp)%nat -> loader_ok hp s loader -> batch_ok hp loader indices ->
  Model.well_formed (x_dim hp) (hidden_dim hp) (latent_dim hp) (model st) ->
  exists x x_hat,
    eval_body hp loader i indices st
    = Some (set_x_hat x_hat
              (set_gen (snd (randn (numel [batch_size hp; latent_dim hp]) (gen st)))
                 (set_x x (print_every_100 i (set_batch_idx i st)))), Break) /\
    shape x = [batch_size hp; x_dim hp] /\ wf x /\
    data x = concat (map (fun j => data (nth j (DataLoader.dataset loader) (scalar 0)))
                         indices) /\
    shape x_hat = [batch_size hp; x_dim hp] /\ wf x_hat.
Proof.
  intros Bp Hl Hb Wm.
  destruct (batch_view_ok hp s loader indices Hl Hb Bp)
    as (batch & Ef & Ev & Lb & Db & Rb).
  unfold eval_body. rewrite Ef. cbn [obind]. rewrite Ev. cbn [obind].
  set (x := mkTensor [batch_size hp; x_dim hp] (data batch)).
  destruct (Model_forward_eq (model st) x (batch_size hp) (x_dim hp) (hidden_dim hp)
              (latent_dim hp) Wm eq_refl)
    as (mean & log_var & Sm & Wmean & Sl & Wlv & Fw).
  rewrite print_every_100_eq. st_simpl.
  destruct (Fw (gen st)) as (out & So & Wo & Eo). rewrite Eo. cbn [obind].
  exists x, (sigmoid out).
  split; [reflexivity|]. split; [reflexivity|]. split; [exact Lb|].
  split; [exact Db|]. split; [exact So | now apply tmap_wf].
Qed.

Lemma evaluation_ok hp s loader st :
  (0 < batch_size hp)%nat -> loader_ok hp s loader ->
  DataLoader.shuffle loader = false ->
  (batch_size hp <= length (DataLoader.dataset loader))%nat ->
  Model.well_formed (x_dim hp) (hidden_dim hp) (latent_dim hp) (model st) ->
  exists x x_hat,
    evaluation hp loader st
    = Some (set_x_hat x_hat
              (set_gen (snd (randn (numel [batch_size hp; latent_dim hp]) (gen st)))
                 (set_x x (print (Index 0)
                    (set_batch_idx 0 (set_model (Model.eval (model st)) st)))))) /\
    shape x = [batch_size hp; x_dim hp] /\ wf x /\
    data x = concat (map data (firstn (batch_size hp) (DataLoader.dataset loader))) /\
    shape x_hat = [batch_size hp; x_dim hp] /\ wf x_hat.
Proof.
  intros Bp Hl Sh Le Wm. unfold evaluation, DataLoader.sampler. rewrite Sh.
  st_simpl.
  destruct (index_batches_first hp loader (seq 0 (length (DataLoader.dataset loader))))
    as (rest & Ei & Lf); [apply Hl | assumption | now rewrite length_seq |].
  rewrite Ei. cbn [for_enumerate].
  destruct (eval_body_ok hp s loader 0
              (firstn (batch_size hp) (seq 0 (length (DataLoader.dataset loader))))
              (set_gen (gen st) (set_model (Model.eval (model st)) st)) Bp Hl)
    as (x & x_hat & E & Sx & Wx & Dx & Sh' & Wh).
  - split; [exact Lf|]. apply Forall_forall. intros j Hj.
    assert (In j (seq 0 (length (DataLoader.dataset loader)))) as Hin.
    { rewrite <- (firstn_skipn (batch_size hp) (seq 0 _)). apply in_or_app. now left. }
    apply in_seq in Hin. lia.
  - st_simpl. now apply set_mode_well_formed.
  - rewrite E. exists x, x_hat. split; [reflexivity|].
    repeat split; try assumption. rewrite Dx.
    rewrite firstn_seq_le by assumption.
    rewrite <- (map_map (fun j => nth j (DataLoader.dataset loader) (scalar 0)) data).
    now rewrite map_nth_seq_firstn.
Qed.

Lemma torch_uniform_eq lo hi s g :
  torch_uniform lo hi s g
  = Some (mkTensor s (fst (uniform lo hi (numel s) g)), snd (uniform lo hi (numel s) g)).
Proof. unfold torch_uniform. now destruct (uniform lo hi (numel s) g). Qed.

Lemma Linear_init_ok i o g :
  exists l g',
    Linear.init i o g = Some (l, g') /\
    Linear.well_formed l /\ Linear.in_features l = i /\ Linear.out_features l = o.
Proof.
  unfold Linear.init, bind, ret. rewrite !torch_uniform_eq.
  eexists; eexists. split; [reflexivity|].
  unfold Linear.well_formed, wf.
  cbn [Linear.weight Linear.bias Linear.in_features Linear.out_features shape data].
  rewrite !uniform_length. repeat split.
Qed.

Lemma Encoder_init_ok i h l g :
  exists e g', Encoder.init i h l g = Some (e, g') /\ Encoder.well_formed i h l e.
Proof.
  unfold Encoder.init, bind, ret.
  destruct (Linear_init_ok i h g) as (l1 & g1 & E1 & W1 & I1 & O1). rewrite E1.
  destruct (Linear_init_ok h l g1) as (l2 & g2 & E2 & W2 & I2 & O2). rewrite E2.
  destruct (Linear_init_ok h l g2) as (l3 & g3 & E3 & W3 & I3 & O3). rewrite E3.
  eexists; eexists. split; [reflexivity|].
  unfold Encoder.well_formed. cbn [Encoder.FC_input Encoder.FC_mean Encoder.FC_var].
  tauto.
Qed.

Lemma Decoder_init_ok l h o g :
  exists d g', Decoder.init l h o g = Some (d, g') /\ Decoder.well_formed l h o d.
Proof.
  unfold Decoder.init, bind, ret.
  destruct (Linear_init_ok l h g) as (l1 & g1 & E1 & W1 & I1 & O1). rewrite E1.
  destruct (Linear_init_ok h o g1) as (l2 & g2 & E2 & W2 & I2 & O2). rewrite E2.
  eexists; eexists. split; [reflexivity|].
  unfold Decoder.well_formed. cbn [Decoder.FC_hidden Decoder.FC_output]. tauto.
Qed.

(** The lines of the script before training starts. *)
Lemma setup_ok hp train_dataset test_dataset g :
  (0 < batch_size hp)%nat ->
  exists m g',
    setup hp train_dataset test_dataset g
    = Some (DataLoader.mk train_dataset (batch_size hp) true,
            DataLoader.mk test_dataset (batch_size hp) false,
            mkState m (Adam (lr hp)) None g' [] [] [] 0 None None None) /\
    Model.well_formed (x_dim hp) (hidden_dim hp) (latent_dim hp) m.
Proof.
  intros Bp. unfold setup, DataLoader.init.
  destruct (batch_size hp =? 0)%nat eqn:Z; [apply Nat.eqb_eq in Z; lia|]. cbn [obind].
  destruct (Encoder_init_ok (x_dim hp) (hidden_dim hp) (latent_dim hp) g)
    as (e & g1 & Ee & We). rewrite Ee. cbn [obind].
  destruct (Decoder_init_ok (latent_dim hp) (hidden_dim hp) (x_dim hp) g1)
    as (d & g2 & Ed & Wd). rewrite Ed. cbn [obind].
  eexists; eexists. split; [reflexivity|]. split; assumption.
Qed.

Lemma numel_as_images b : numel [b; 784]%nat = numel [b; 1; 28; 28]%nat.
Proof. cbn [numel fold_right]. lia. Qed.

(** The last lines of the script: three files, each a batch of images of
    28x28. *)
Lemma write_images_ok hp st x x_hat :
  x_dim hp = 784%nat ->
  v_x st = Some x -> shape x = [batch_size hp; x_dim hp] ->
  v_x_hat st = Some x_hat -> shape x_hat = [batch_size hp; x_dim hp] -> wf x_hat ->
  Model.well_formed (x_dim hp) (hidden_dim hp) (latent_dim hp) (model st) ->
  exists st' generated,
    write_images hp st = Some st' /\
    model st' = model st /\ optimizer st' = optimizer st /\
    console st' = console st /\ wandb_log st' = wandb_log st /\
    files st'
    = ("generated_sample.png"%string, mkTensor [batch_size hp; 1; 28; 28]%nat (data generated))
      :: ("reconstructions.png"%string, mkTensor [batch_size hp; 1; 28; 28]%nat (data x_hat))
      :: ("orig_data.png"%string, mkTensor [batch_size hp; 1; 28; 28]%nat (data x))
      :: files st /\
    wf (mkTensor [batch_size hp; 1; 28; 28]%nat (data generated)) /\
    Forall (fun p => 0 < p < 1) (data generated).
Proof.
  intros X784 Vx Sx Vh Sh Wh Wm. unfold write_images.
  assert (N : numel [batch_size hp; x_dim hp] = numel [batch_size hp; 1; 28; 28]%nat)
    by (rewrite X784; apply numel_as_images).
  rewrite Vx. cbn [obind]. rewrite view_ok by (rewrite Sx; exact N). st_simpl.
  rewrite Vh. cbn [obind]. rewrite view_ok by (rewrite Sh; exact N). st_simpl.
  rewrite torch_randn_eq. cbn [obind].
  destruct Wm as (_ & Wd).
  destruct (Decoder_forward_eq (Model.decoder (model st))
              (mkTensor [batch_size hp; latent_dim hp]
                 (fst (randn (numel [batch_size hp; latent_dim hp]) (gen st))))
              (batch_size hp) (latent_dim hp) (hidden_dim hp) (x_dim hp) Wd eq_refl)
    as (out & So & Wo & Ed).
  rewrite Ed. cbn [obind].
  rewrite view_ok by (unfold sigmoid; rewrite tmap_shape, So; exact N). st_simpl.
  eexists; exists (sigmoid out). split; [reflexivity|]. st_simpl.
  repeat split.
  - unfold wf. cbn [data shape sigmoid tmap]. rewrite length_map.
    unfold wf in Wo. now rewrite Wo, So.
  - apply sigmoid_data_range.
Qed.

(** X7: an epoch of a single batch raises: the loop variable ends at 0 and
    the report divides the accumulated loss by [0 * batch_size]. *)
Lemma train_epoch_single_batch_raises hp s loader epoch st :
  hyper_ok hp -> loader_ok hp s loader ->
  length (DataLoader.dataset loader) = (1 * batch_size hp)%nat ->
  Model.well_formed (x_dim hp) (hidden_dim hp) (latent_dim hp) (model st) ->
  train_epoch hp loader epoch st = None.
Proof.
  intros Hh Hl Ln Wm. destruct (hyper_ok_pos hp Hh) as (Bp & _).
  unfold train_epoch.
  pose proof (sampler_ok loader (gen (set_overall_loss 0 st))) as (Lo & Ho).
  destruct (DataLoader.sampler loader (gen (set_overall_loss 0 st))) as (order, g).
  cbn [fst] in Lo, Ho. rewrite Ln in Lo.
  destruct Hl as (Eb & Hl').
  destruct (index_batches_full hp loader order 1 Eb Bp Lo Ho) as (Lb & Hb).
  destruct (train_loop_ok hp s loader (DataLoader.index_batches loader order) 0
              (set_gen g (set_overall_loss 0 st)) Hh (conj Eb Hl') Hb Wm)
    as (st1 & E1 & W1 & Last).
  destruct Last as (B1 & _).
  { intros Z. rewrite Z in Lb. discriminate. }
  rewrite Lb in B1. rewrite E1. cbn [obind]. rewrite B1. reflexivity.
Qed.

(** Whatever the batch, a pass of the evaluation loop that returns leaves
    the loop and has touched neither the parameters nor the optimizer. *)
Lemma eval_body_frame hp loader i indices st st' flow :
  eval_body hp loader i indices st = Some (st', flow) ->
  flow = Break /\ model st' = model st /\ optimizer st' = optimizer st /\
  grads st' = grads st /\ v_batch_idx st' = Some i.
Proof.
  unfold eval_body. intros E.
  destruct (DataLoader.fetch loader indices) as [batch|]; [|discriminate].
  cbn [obind] in E.
  destruct (view [batch_size hp; x_dim hp] batch) as [x|]; [|discriminate].
  cbn [obind] in E. rewrite print_every_100_eq in E. st_simpl. cbn [model gen] in E.
  match type of E with
  | context [Model.forward ?m ?x ?g] =>
      destruct (Model.forward m x g) as [[[[x_hat mean] log_var] g']|]; [|discriminate]
  end.
  cbn [obind] in E. injection E as <- <-. st_simpl. now repeat split.
Qed.

Lemma evaluation_frame hp loader st st' :
  evaluation hp loader st = Some st' ->
  Model.parameters (model st') = Model.parameters (model st) /\
  optimizer st' = optimizer st /\ grads st' = grads st /\
  (v_batch_idx st' = v_batch_idx st \/ v_batch_idx st' = Some 0%nat).
Proof.
  unfold evaluation.
  destruct (DataLoader.sampler loader (gen (set_model (Model.eval (model st)) st)))
    as (order, g).
  destruct (DataLoader.index_batches loader order) as [|b rest]; cbn [for_enumerate].
  - intros E. injection E as <-. st_simpl. repeat split. now left.
  - destruct (eval_body hp loader 0 b (set_gen g (set_model (Model.eval (model st)) st)))
      as [[st1 flow]|] eqn:Eb; [|discriminate].
    destruct (eval_body_frame _ _ _ _ _ _ _ Eb) as (-> & M & O & G & B).
    intros E. injection E as <-. rewrite M, O, G, B. st_simpl.
    repeat split. now right.
Qed.

(** A pass of the evaluation loop that returns has run the model, from the
    generator as it stood, on the batch it fetched and flattened; [x_hat]
    is the reconstruction that run gave. *)
Lemma eval_body_runs_model hp loader i indices st st' flow :
  eval_body hp loader i indices st = Some (st', flow) ->
  exists batch x x_hat mean log_var,
    DataLoader.fetch loader indices = Some batch /\
    view [batch_size hp; x_dim hp] batch = Some x /\
    Model.forward (model st) x (gen st) = Some (x_hat, mean, log_var, gen st') /\
    v_x st' = Some x /\ v_x_hat st' = Some x_hat.
Proof.
  unfold eval_body. intros E.
  destruct (DataLoader.fetch loader indices) as [batch|] eqn:Ef; [|discriminate].
  cbn [obind] in E.
  destruct (view [batch_size hp; x_dim hp] batch) as [x|] eqn:Ev; [|discriminate].
  cbn [obind] in E. rewrite print_every_100_eq in E. cbn [model gen set_x] in E.
  match type of E with
  | context [Model.forward ?m ?x0 ?g] =>
      destruct (Model.forward m x0 g) as [[[[x_hat mean] log_var] g']|] eqn:F;
        [|discriminate]
  end.
  cbn [obind] in E. injection E as <- <-. st_simpl.
  cbn [model gen set_batch_idx] in F.
  exists batch, x, x_hat, mean, log_var.
  split; [reflexivity|]. split; [exact Ev|]. split; [exact F|]. split; reflexivity.
Qed.

Lemma evaluation_runs_model hp s loader st :
  (0 < batch_size hp)%nat -> loader_ok hp s loader ->
  DataLoader.shuffle loader = false ->
  (batch_size hp <= length (DataLoader.dataset loader))%nat ->
  Model.well_formed (x_dim hp) (hidden_dim hp) (latent_dim hp) (model st) ->
  exists st' x_hat mean log_var,
    let x := mkTensor [batch_size hp; x_dim hp]
               (concat (map data (firstn (batch_size hp) (DataLoader.dataset loader)))) in
    evaluation hp loader st = Some st' /\
    Model.forward (Model.eval (model st)) x (gen st) = Some (x_hat, mean, log_var, gen st') /\
    v_batch_idx st' = Some 0%nat /\ v_x st' = Some x /\ v_x_hat st' = Some x_hat /\
    shape x_hat = [batch_size hp; x_dim hp].
Proof.
  intros Bp Hl Sh Le Wm.
  destruct (evaluation_ok hp s loader st Bp Hl Sh Le Wm)
    as (x0 & x_hat0 & Ee & Sx & Wx & Dx & Shh & Wh).
  assert (Ex : x0 = mkTensor [batch_size hp; x_dim hp]
                      (concat (map data (firstn (batch_size hp) (DataLoader.dataset loader))))).
  { destruct x0 as [sx dx]. cbn [shape data] in *. now subst. }
  destruct (index_batches_first hp loader (seq 0 (length (DataLoader.dataset loader))))
    as (rest & Ei & _); [apply Hl | assumption | now rewrite length_seq |].
  pose proof Ee as Ee'.
  unfold evaluation, DataLoader.sampler in Ee'. rewrite Sh, Ei in Ee'.
  cbn [for_enumerate] in Ee'.
  match type of Ee' with
  | context [eval_body ?h ?l ?i ?b ?s0] =>
      destruct (eval_body h l i b s0) as [[st1 flow]|] eqn:Eb; [|discriminate]
  end.
  destruct (eval_body_runs_model _ _ _ _ _ _ _ Eb)
    as (batch & x & x_hat & mean & log_var & _ & _ & F & Vx & Vh).
  destruct (eval_body_frame _ _ _ _ _ _ _ Eb) as (-> & _ & _ & _ & B).
  injection Ee' as E. subst st1.
  cbn [v_x v_x_hat gen model set_x_hat set_gen set_x print set_batch_idx set_model]
    in F, Vx, Vh.
  injection Vx as Hx. injection Vh as Hh. subst x x_hat.
  eexists; exists x_hat0, mean, log_var. cbv zeta. rewrite <- Ex.
  split; [exact Ee|]. split; [exact F|]. st_simpl. now repeat split.
Qed.

End ScriptFacts.


(** ** The training loop *)

(** C7: at the end of an epoch over [n] full batches the line printed reports
    the accumulated loss divided by [(n - 1) * batch_size], the last batch
    index times the batch size.  That is not the accumulated loss divided by
    the number of samples of the epoch, [n * batch_size]: the average the
    line announces is missed by one batch. *)
Theorem epoch_report_divides_by_last_index {RS : RandomSource} {AG : Autograd}
    (hp : Hyper) (s : list nat) (loader : DataLoader.t) (n epoch : nat) (st : State) :
  hyper_ok hp -> loader_ok hp s loader ->
  length (DataLoader.dataset loader) = (n * batch_size hp)%nat -> (2 <= n)%nat ->
  Model.well_formed (x_dim hp) (hidden_dim hp) (latent_dim hp) (model st) ->
  exists st',
    train_epoch hp loader epoch st = Some st' /\
    hd (Text "") (console st')
    = EpochReport (epoch + 1) (overall_loss st' / INR ((n - 1) * batch_size hp)) /\
    overall_loss st' / INR ((n - 1) * batch_size hp)
    <> overall_loss st' / INR (length (DataLoader.dataset loader)).
Proof.
  intros Hh Hl Ln N Wm.
  destruct (train_epoch_report hp s loader n epoch st Hh Hl Ln N Wm)
    as (st' & E & _ & _ & Pos & Hd).
  exists st'. split; [exact E|]. split; [exact Hd|].
  destruct (hyper_ok_pos hp Hh) as (Bp & _). rewrite Ln.
  apply Rdiv_neq_of_lt; [exact Pos | |].
  - apply lt_0_INR. nia.
  - apply lt_INR. nia.
Qed.

(** The script's own run: 60000 training images in batches of 100. *)
Lemma epoch_report_divides_by_last_index_witness :
  exists st',
    @train_epoch still_source frozen_autograd script_hyper
      (DataLoader.mk (sample_images (600 * 100)) 100 true) 0 (sample_state script_hyper)
    = Some st' /\
    hd (Text "") (console st')
    = EpochReport 1 (overall_loss st' / INR (599 * 100)) /\
    overall_loss st' / INR (599 * 100) <> overall_loss st' / INR (600 * 100).
Proof.
  destruct (@epoch_report_divides_by_last_index still_source frozen_autograd
              script_hyper [1; 28; 28]%nat
              (DataLoader.mk (sample_images (600 * 100)) 100 true) 600 0
              (sample_state script_hyper) script_hyper_ok (sample_loader_ok (600 * 100) true))
    as (st' & E & Hd & Ne).
  - cbn [DataLoader.dataset]. unfold sample_images. rewrite repeat_length. reflexivity.
  - lia.
  - apply sample_model_ok.
  - exists st'. split; [exact E|]. split; [exact Hd|].
    cbn [DataLoader.dataset] in Ne. unfold sample_images in Ne.
    rewrite repeat_length in Ne. exact Ne.
Defined.


(** ** The evaluation phase *)

(** C8, as amended: the evaluation phase runs the model on the first test
    batch only, since its loop is left at the end of the first pass whatever
    the number of test batches, and it updates no parameter: every parameter
    of the model, and the optimizer with its gradient buffers, are after the
    phase what they were before it.  The reconstruction [x_hat] it leaves is
    what one forward pass of the model, in evaluation mode and from the
    generator as it stood, returns on that first batch. *)
Theorem evaluation_first_batch_no_update {RS : RandomSource} {AG : Autograd}
    (hp : Hyper) (s : list nat) (test_loader : DataLoader.t) (st : State) :
  (forall st',
      evaluation hp test_loader st = Some st' ->
      Model.parameters (model st') = Model.parameters (model st) /\
      optimizer st' = optimizer st /\ grads st' = grads st) /\
  ((0 < batch_size hp)%nat -> loader_ok hp s test_loader ->
   DataLoader.shuffle test_loader = false ->
   (batch_size hp <= length (DataLoader.dataset test_loader))%nat ->
   Model.well_formed (x_dim hp) (hidden_dim hp) (latent_dim hp) (model st) ->
   exists st' x x_hat mean log_var,
     evaluation hp test_loader st = Some st' /\
     v_batch_idx st' = Some 0%nat /\
     v_x st' = Some x /\
     shape x = [batch_size hp; x_dim hp] /\
     data x = concat (map data (firstn (batch_size hp) (DataLoader.dataset test_loader))) /\
     Model.forward (Model.eval (model st)) x (gen st)
     = Some (x_hat, mean, log_var, gen st') /\
     v_x_hat st' = Some x_hat /\ shape x_hat = [batch_size hp; x_dim hp]).
Proof.
  split.
  - intros st' E. destruct (evaluation_frame hp test_loader st st' E) as (P & O & G & _).
    now repeat split.
  - intros Bp Hl Sh Le Wm.
    destruct (evaluation_runs_model hp s test_loader st Bp Hl Sh Le Wm)
      as (st' & x_hat & mean & log_var & E & F & B & Vx & Vh & Shh).
    exists st'. eexists. exists x_hat, mean, log_var.
    split; [exact E|]. split; [exact B|]. split; [exact Vx|].
    split; [reflexivity|]. split; [reflexivity|]. split; [exact F|].
    split; [exact Vh | exact Shh].
Qed.

Lemma evaluation_first_batch_no_update_witness :
  exists st' x x_hat mean log_var,
    @evaluation still_source frozen_autograd script_hyper
      (DataLoader.mk (sample_images (2 * 100)) 100 false) (sample_state script_hyper)
    = Some st' /\
    Model.parameters (model st') = Model.parameters (model (sample_state script_hyper)) /\
    v_batch_idx st' = Some 0%nat /\
    v_x st' = Some x /\
    shape x = [100; 784]%nat /\
    data x = concat (map data (firstn 100 (sample_images (2 * 100)))) /\
    @Model.forward still_source (Model.eval (model (sample_state script_hyper))) x tt
    = Some (x_hat, mean, log_var, gen st') /\
    v_x_hat st' = Some x_hat /\ shape x_hat = [100; 784]%nat.
Proof.
  destruct (@evaluation_first_batch_no_update still_source frozen_autograd script_hyper
              [1; 28; 28]%nat (DataLoader.mk (sample_images (2 * 100)) 100 false)
              (sample_state script_hyper)) as (Frame & First).
  destruct First as (st' & x & x_hat & mean & log_var & E & B & Vx & Sx & Dx & F & Vh & Sh).
  - cbn [batch_size script_hyper]. lia.
  - apply sample_loader_ok.
  - reflexivity.
  - cbn [DataLoader.dataset batch_size script_hyper]. rewrite sample_images_length. lia.
  - apply sample_model_ok.
  - exists st', x, x_hat, mean, log_var. split; [exact E|].
    split; [apply (Frame st' E)|]. now repeat split.
Defined.

(** C8, as it was stated, fails: on a test loader of two batches the
    evaluation phase ends with the loop variable at the first batch; it has
    not passed over all test batches. *)
Lemma evaluation_does_not_visit_every_batch :
  exists st',
    @evaluation still_source frozen_autograd script_hyper
      (DataLoader.mk (sample_images (2 * 100)) 100 false) (sample_state script_hyper)
    = Some st' /\
    length (DataLoader.index_batches (DataLoader.mk (sample_images (2 * 100)) 100 false)
              (seq 0 (2 * 100))) = 2%nat /\
    v_batch_idx st' = Some 0%nat /\
    ~ visits_every_batch (DataLoader.mk (sample_images (2 * 100)) 100 false) st'.
Proof.
  destruct (@evaluation_ok still_source frozen_autograd script_hyper [1; 28; 28]%nat
              (DataLoader.mk (sample_images (2 * 100)) 100 false)
              (sample_state script_hyper))
    as (x & x_hat & E & _).
  - cbn [batch_size script_hyper]. lia.
  - apply sample_loader_ok.
  - reflexivity.
  - cbn [DataLoader.dataset batch_size script_hyper]. rewrite sample_images_length. lia.
  - apply sample_model_ok.
  - eexists. split; [exact E|].
    assert (L : length (DataLoader.index_batches
                          (DataLoader.mk (sample_images (2 * 100)) 100 false)
                          (seq 0 (2 * 100))) = 2%nat) by reflexivity.
    split; [exact L|]. split; [reflexivity|].
    unfold visits_every_batch. cbn [DataLoader.dataset].
    rewrite sample_images_length, L. st_simpl. discriminate.
Qed.

(** ** A run without training *)

(** C9: with the number of epochs at 0 the body of the training loop is
    never run: training prints its two lines and returns, the parameters and
    the optimizer are those the set-up built, nothing is logged; evaluation
    and sampling then write three files, each holding [batch_size] images of
    28x28 (100 at the script's batch size). *)
Theorem zero_epochs_keeps_parameters {RS : RandomSource} {AG : Autograd}
    (hp : Hyper) (train_dataset test_dataset : list Tensor) (g : Generator) :
  epochs hp = 0%nat -> (0 < batch_size hp)%nat -> x_dim hp = 784%nat ->
  Forall (image_ok [1; 28; 28]%nat) test_dataset ->
  (batch_size hp <= length test_dataset)%nat ->
  exists train_loader test_loader st0 st orig reconstructions generated,
    setup hp train_dataset test_dataset g = Some (train_loader, test_loader, st0) /\
    training hp train_loader st0
    = Some (print (Text "Finish!!")
              (set_model (Model.train (model st0))
                 (print (Text "Start training VAE...") st0))) /\
    main hp train_dataset test_dataset g = Some st /\
    Model.parameters (model st) = Model.parameters (model st0) /\
    optimizer st = optimizer st0 /\
    wandb_log st = [] /\
    console st = [Index 0; Text "Finish!!"; Text "Start training VAE..."] /\
    files st = [("generated_sample.png"%string, generated);
                ("reconstructions.png"%string, reconstructions);
                ("orig_data.png"%string, orig)] /\
    Forall (fun t => shape t = [batch_size hp; 1; 28; 28]%nat /\ wf t)
           [orig; reconstructions; generated].
Proof.
  intros Ep Bp X784 Hte Le.
  destruct (setup_ok hp train_dataset test_dataset g Bp) as (m & g0 & Es & Wm).
  set (st0 := mkState m (Adam (lr hp)) None g0 [] [] [] 0 None None None) in *.
  set (st1 := print (Text "Finish!!")
                (set_model (Model.train (model st0))
                   (print (Text "Start training VAE...") st0))).
  assert (Et : training hp (DataLoader.mk train_dataset (batch_size hp) true) st0 = Some st1).
  { unfold training. rewrite Ep. reflexivity. }
  assert (Hl : loader_ok hp [1; 28; 28]%nat (DataLoader.mk test_dataset (batch_size hp) false)).
  { split; [reflexivity|]. split; [exact Hte|]. rewrite X784. reflexivity. }
  destruct (evaluation_ok hp [1; 28; 28]%nat
              (DataLoader.mk test_dataset (batch_size hp) false) st1 Bp Hl eq_refl Le)
    as (x & x_hat & Ee & Sx & Wx & Dx & Sh & Wh).
  { apply set_mode_well_formed. exact Wm. }
  match type of Ee with _ = Some ?s => set (st2 := s) in * end.
  destruct (write_images_ok hp st2 x x_hat X784 eq_refl Sx eq_refl Sh Wh)
    as (st3 & generated & Ew & Em & Eo & Ec & Elog & Efiles & Wg & _).
  { apply set_mode_well_formed. exact Wm. }
  exists (DataLoader.mk train_dataset (batch_size hp) true),
         (DataLoader.mk test_dataset (batch_size hp) false), st0, st3,
         (mkTensor [batch_size hp; 1; 28; 28]%nat (data x)),
         (mkTensor [batch_size hp; 1; 28; 28]%nat (data x_hat)),
         (mkTensor [batch_size hp; 1; 28; 28]%nat (data generated)).
  assert (N : numel [batch_size hp; x_dim hp] = numel [batch_size hp; 1; 28; 28]%nat)
    by (rewrite X784; apply numel_as_images).
  split; [exact Es|]. split; [exact Et|]. split.
  { unfold main. rewrite Es. cbn [obind]. rewrite Et. cbn [obind].
    rewrite Ee. cbn [obind]. exact Ew. }
  rewrite Em, Eo, Elog, Ec, Efiles.
  split; [reflexivity|]. split; [reflexivity|]. split; [reflexivity|].
  split; [reflexivity|]. split; [reflexivity|].
  repeat constructor; try assumption; unfold wf in *; cbn [data shape] in *; congruence.
Qed.

Lemma zero_epochs_keeps_parameters_witness :
  exists train_loader test_loader st0 st orig reconstructions generated,
    @setup still_source frozen_autograd zero_epochs_hyper
      (sample_images (600 * 100)) (sample_images (100 * 100)) tt
    = Some (train_loader, test_loader, st0) /\
    training zero_epochs_hyper train_loader st0
    = Some (print (Text "Finish!!")
              (set_model (Model.train (model st0))
                 (print (Text "Start training VAE...") st0))) /\
    @main still_source frozen_autograd zero_epochs_hyper
      (sample_images (600 * 100)) (sample_images (100 * 100)) tt = Some st /\
    Model.parameters (model st) = Model.parameters (model st0) /\
    optimizer st = optimizer st0 /\
    wandb_log st = [] /\
    console st = [Index 0; Text "Finish!!"; Text "Start training VAE..."] /\
    files st = [("generated_sample.png"%string, generated);
                ("reconstructions.png"%string, reconstructions);
                ("orig_data.png"%string, orig)] /\
    Forall (fun t => shape t = [100; 1; 28; 28]%nat /\ wf t)
           [orig; reconstructions; generated].
Proof.
  apply (@zero_epochs_keeps_parameters still_source frozen_autograd zero_epochs_hyper
           (sample_images (600 * 100)) (sample_images (100 * 100)) tt).
  - reflexivity.
  - cbn [batch_size zero_epochs_hyper]. lia.
  - reflexivity.
  - apply sample_images_ok.
  - cbn [batch_size zero_epochs_hyper]. rewrite sample_images_length. lia.
Defined.


(** * Further properties of the script *)

(** ** The KL term *)

Lemma sum_over_zero_inv n f :
  (forall i, (i < n)%nat -> 0 <= f i) -> sum_over n f = 0 ->
  forall i, (i < n)%nat -> f i = 0.
Proof.
  revert f; induction n as [|n IH]; intros f Pos Z i Hi; [lia|].
  rewrite sum_over_S in Z.
  assert (P0 : 0 <= f 0%nat) by (apply Pos; lia).
  assert (Pr : 0 <= sum_over n (fun j => f (S j)))
    by (apply sum_over_nonneg; intros j Hj; apply Pos; lia).
  destruct i as [|i]; [lra|].
  apply (IH (fun j => f (S j))); [intros j Hj; apply Pos; lia | lra | lia].
Qed.

Lemma kl_summand_zero m v :
  m * m + (exp v - (1 + v)) = 0 -> m = 0 /\ v = 0.
Proof.
  intros Z. pose proof (exp_ineq1_le v) as E.
  assert (Sq : 0 <= m * m) by nra.
  assert (M : m * m = 0) by lra. assert (V : exp v = 1 + v) by lra.
  split; [nra|].
  destruct (Req_dec v 0) as [|NZ]; [assumption|].
  pose proof (exp_ineq1 v NZ). lra.
Qed.

(** X1: in exact real arithmetic (rounding left aside, as everywhere in
    this development), the KL line of [loss_function] never gives a
    negative value, and it gives 0 only when the mean and the log-variance
    are 0 at every position. *)
Theorem kld_nonneg_zero_only_at_prior mean log_var :
  shape mean = shape log_var -> wf mean -> wf log_var ->
  exists v,
    kld mean log_var = Some (scalar v) /\ 0 <= v /\
    (v = 0 <-> Forall (fun m => m = 0) (data mean) /\
               Forall (fun t => t = 0) (data log_var)).
Proof.
  intros S Wm Wl. exists (spec_KL (data mean) (data log_var)).
  split; [now apply kld_eq|]. split; [apply spec_KL_nonneg|].
  assert (L : length (data mean) = length (data log_var))
    by (unfold wf in *; congruence).
  split.
  - intros Z. unfold spec_KL in Z.
    assert (Z' : sum_over (length (data log_var))
                   (fun i => nth i (data mean) 0 * nth i (data mean) 0
                             + (exp (nth i (data log_var) 0) - (1 + nth i (data log_var) 0)))
                 = 0).
    { transitivity (- sum_over (length (data log_var))
                      (fun i => 1 + nth i (data log_var) 0
                                - nth i (data mean) 0 * nth i (data mean) 0
                                - exp (nth i (data log_var) 0))); [| lra].
      rewrite <- sum_over_opp. apply sum_over_ext. intros; lra. }
    assert (Each : forall i, (i < length (data log_var))%nat ->
                   nth i (data mean) 0 = 0 /\ nth i (data log_var) 0 = 0).
    { intros i Hi. apply kl_summand_zero.
      apply (sum_over_zero_inv _ _) with (i := i) in Z'; [exact Z' | | exact Hi].
      intros j _. pose proof (exp_ineq1_le (nth j (data log_var) 0)). nra. }
    split; apply Forall_nth; intros i d Hi.
    + rewrite (nth_indep _ d 0) by exact Hi. apply Each. congruence.
    + rewrite (nth_indep _ d 0) by exact Hi. now apply Each.
  - intros (Zm & Zl). unfold spec_KL. rewrite sum_over_zero; [lra|].
    intros i Hi.
    rewrite (Forall_nth_R (fun v => v = 0) _ i Zl Hi).
    rewrite (Forall_nth_R (fun v => v = 0) (data mean) i Zm) by congruence.
    rewrite exp_0. lra.
Qed.

Lemma kld_nonneg_zero_only_at_prior_witness :
  exists v,
    kld (full 0.3 [100; 20]%nat) (full (-1) [100; 20]%nat) = Some (scalar v) /\ 0 <= v /\
    (v = 0 <-> Forall (fun m => m = 0) (data (full 0.3 [100; 20]%nat)) /\
               Forall (fun t => t = 0) (data (full (-1) [100; 20]%nat))).
Proof.
  apply (kld_nonneg_zero_only_at_prior (full 0.3 [100; 20]%nat) (full (-1) [100; 20]%nat)).
  - reflexivity.
  - apply full_wf.
  - apply full_wf.
Defined.

(** ** Forward passes *)

(** X2: the mean and the log-variance the encoder returns for a batch are
    the same whatever the state of the generator; only the sampled latent
    depends on the noise. *)
Theorem encoder_moments_ignore_noise {RS : RandomSource}
    (enc : Encoder.t) (x : Tensor) (n i h l : nat) :
  Encoder.well_formed i h l enc -> shape x = [n; i] ->
  exists mean log_var,
    forall g : Generator,
    exists z,
      Encoder.forward enc x g = Some (z, mean, log_var, snd (randn (numel [n; l]) g)).
Proof.
  intros W Sx.
  destruct (Encoder_forward_eq enc x n i h l W Sx) as (mean & log_var & _ & _ & _ & _ & E).
  exists mean, log_var. intros g. eexists. apply E.
Qed.

Lemma encoder_moments_ignore_noise_witness :
  exists mean log_var,
    forall g : @Generator still_source,
    exists z,
      @Encoder.forward still_source (Model.encoder (sample_model 0.1 784 400 20))
        (full 0.5 [100; 784]%nat) g
      = Some (z, mean, log_var, snd (@randn still_source (numel [100; 20]%nat) g)).
Proof.
  apply (@encoder_moments_ignore_noise still_source
           (Model.encoder (sample_model 0.1 784 400 20)) (full 0.5 [100; 784]%nat)
           100 784 400 20).
  - apply sample_encoder_ok.
  - reflexivity.
Defined.

Lemma Linear_forward_wrong_width l x n k :
  shape x = [n; k] -> k <> Linear.in_features l -> Linear.forward l x = None.
Proof.
  intros Sx Hk. unfold Linear.forward. rewrite Sx. cbn [rev app].
  destruct (k =? Linear.in_features l)%nat eqn:E; [|reflexivity].
  apply Nat.eqb_eq in E. contradiction.
Qed.

(** X3: a batch whose rows are not of the width the first layer expects is
    rejected: the encoder and the composite model raise on an input of the
    wrong width, and the decoder on a latent batch of the wrong width. *)
Theorem forward_rejects_wrong_width {RS : RandomSource}
    (m : Model.t) (x : Tensor) (n k i h l : nat) (g : Generator) :
  Model.well_formed i h l m -> shape x = [n; k] ->
  (k <> i -> Encoder.forward (Model.encoder m) x g = None /\ Model.forward m x g = None) /\
  (k <> l -> Decoder.forward (Model.decoder m) x g = None).
Proof.
  intros (We & Wd) Sx. split.
  - intros Hk.
    assert (E : Encoder.forward (Model.encoder m) x g = None).
    { unfold Encoder.forward, bind, lift.
      rewrite (Linear_forward_wrong_width _ x n k Sx); [reflexivity|].
      destruct We as (_ & _ & _ & I1 & _). congruence. }
    split; [exact E|]. unfold Model.forward, bind. now rewrite E.
  - intros Hk. unfold Decoder.forward, bind, lift.
    rewrite (Linear_forward_wrong_width _ x n k Sx); [reflexivity|].
    destruct Wd as (_ & _ & I1 & _). congruence.
Qed.

Lemma forward_rejects_wrong_width_witness :
  (@Encoder.forward still_source (Model.encoder (sample_model 0.1 784 400 20))
     (full 0.5 [100; 783]%nat) tt = None /\
   @Model.forward still_source (sample_model 0.1 784 400 20)
     (full 0.5 [100; 783]%nat) tt = None) /\
  @Decoder.forward still_source (Model.decoder (sample_model 0.1 784 400 20))
    (full 0.5 [100; 783]%nat) tt = None.
Proof.
  destruct (@forward_rejects_wrong_width still_source (sample_model 0.1 784 400 20)
              (full 0.5 [100; 783]%nat) 100 783 784 400 20 tt) as (A & B).
  - apply sample_model_ok.
  - reflexivity.
  - split; [apply A | apply B]; lia.
Defined.

(** ** The montage *)

Lemma nth_flat_map_from {A} (f : nat -> list A) c d : forall q n s r,
  (forall i, (s <= i < s + n)%nat -> length (f i) = c) ->
  (q < n)%nat -> (r < c)%nat ->
  nth (q * c + r) (flat_map f (seq s n)) d = nth r (f (s + q)%nat) d.
Proof.
  induction q as [|q IH]; intros [|n] s r Hlen Hq Hr; try lia.
  - cbn [seq flat_map]. rewrite app_nth1 by (rewrite Hlen; lia).
    now rewrite Nat.add_0_r.
  - cbn [seq flat_map]. rewrite app_nth2 by (rewrite Hlen; lia).
    rewrite Hlen by lia.
    replace (S q * c + r - c)%nat with (q * c + r)%nat by lia.
    rewrite IH; [f_equal; f_equal; lia | | lia | lia].
    intros i Hi. apply Hlen. lia.
Qed.

Lemma nth_flat_map_const {A} (f : nat -> list A) c n q r d :
  (forall i, (i < n)%nat -> length (f i) = c) ->
  (q < n)%nat -> (r < c)%nat ->
  nth (q * c + r) (flat_map f (seq 0 n)) d = nth r (f q) d.
Proof.
  intros Hlen Hq Hr. apply (nth_flat_map_from f c d q n 0 r); try assumption.
  intros i Hi. apply Hlen. lia.
Qed.

Lemma nth_chunk {A} k i l (d : list A) dflt :
  (l < k)%nat -> nth l (chunk k i d) dflt = nth (i * k + l) d dflt.
Proof.
  intros Hl. unfold chunk. rewrite nth_firstn.
  destruct (l <? k)%nat eqn:E; [apply nth_skipn|].
  apply Nat.ltb_ge in E. lia.
Qed.

(** X4: the montage sent to the tracker is a picture of 280 by 280 in which
    image [10 * i + j] of the batch fills the cell at row [i], column [j] of
    a grid of 10 by 10: its pixel [(k, l)] is at line [28 * i + k], column
    [28 * j + l]. *)
Theorem composed_layout (t : Tensor) :
  numel (shape t) = numel [10; 10; 28; 28]%nat -> wf t ->
  exists c,
    composed t = Some c /\ shape c = [280; 280]%nat /\ wf c /\
    forall i j k l, (i < 10)%nat -> (j < 10)%nat -> (k < 28)%nat -> (l < 28)%nat ->
      nth ((i * 28 + k) * 280 + (j * 28 + l)) (data c) 0
      = nth ((i * 10 + j) * 784 + (k * 28 + l)) (data t) 0.
Proof.
  intros E Wt.
  assert (Ld : length (data t) = (2800 * 28)%nat).
  { unfold wf in Wt. rewrite Wt, E. reflexivity. }
  assert (L3 : forall i k j, (i < 10)%nat -> (k < 28)%nat -> (j < 10)%nat ->
               length (chunk 28 ((i * 10 + j) * 28 + k) (data t)) = 28%nat).
  { intros i k j Hi Hk Hj. apply (chunk_length _ _ _ 2800); [exact Ld | lia]. }
  assert (L2 : forall i k, (i < 10)%nat -> (k < 28)%nat ->
               length (flat_map (fun j => chunk 28 ((i * 10 + j) * 28 + k) (data t))
                                (seq 0 10)) = (10 * 28)%nat).
  { intros i k Hi Hk. apply flat_map_length_const. intros j Hj. now apply L3. }
  assert (L1 : forall i, (i < 10)%nat ->
               length (flat_map (fun k =>
                         flat_map (fun j => chunk 28 ((i * 10 + j) * 28 + k) (data t))
                                  (seq 0 10)) (seq 0 28)) = (28 * (10 * 28))%nat).
  { intros i Hi. apply flat_map_length_const. intros k Hk. now apply L2. }
  unfold composed. rewrite (view_ok _ _ E). cbn [obind].
  unfold permute_0213. cbn [shape obind data].
  unfold flatten_end_1. cbn [shape obind data].
  unfold flatten_start_1. cbn [shape obind data].
  eexists. split; [reflexivity|]. cbn [shape data]. split; [reflexivity|]. split.
  - unfold wf. cbn [shape data].
    rewrite (flat_map_length_const _ (28 * (10 * 28))%nat) by exact L1. reflexivity.
  - intros i j k l Hi Hj Hk Hl.
    replace ((i * 28 + k) * 280 + (j * 28 + l))%nat
      with (i * (28 * (10 * 28)) + (k * (10 * 28) + (j * 28 + l)))%nat by lia.
    rewrite (nth_flat_map_const _ (28 * (10 * 28))%nat 10) by (try exact L1; lia).
    rewrite (nth_flat_map_const _ (10 * 28)%nat 28)
      by (try (intros k' Hk'; now apply L2); lia).
    rewrite (nth_flat_map_const _ 28%nat 10)
      by (try (intros j' Hj'; now apply L3); lia).
    rewrite nth_chunk by exact Hl. f_equal. lia.
Qed.

Lemma composed_layout_witness :
  exists c,
    composed (full 0.5 [100; 784]%nat) = Some c /\
    shape c = [280; 280]%nat /\ wf c /\
    forall i j k l, (i < 10)%nat -> (j < 10)%nat -> (k < 28)%nat -> (l < 28)%nat ->
      nth ((i * 28 + k) * 280 + (j * 28 + l)) (data c) 0
      = nth ((i * 10 + j) * 784 + (k * 28 + l)) (data (full 0.5 [100; 784]%nat)) 0.
Proof.
  apply (composed_layout (full 0.5 [100; 784]%nat)).
  - reflexivity.
  - apply full_wf.
Defined.

(** ** One pass of the training loop, step by step *)

Section ScriptEdges.
Context {RS : RandomSource} {AG : Autograd}.

(** Up to the logging test a pass of the inner loop on a full batch always
    goes through; what is left is the test on [log_interval] and the two
    montages. *)
Lemma train_body_steps hp s loader i indices st :
  (0 < batch_size hp)%nat -> loader_ok hp s loader -> batch_ok hp loader indices ->
  Model.well_formed (x_dim hp) (hidden_dim hp) (latent_dim hp) (model st) ->
  exists x x_hat v st_mid,
    shape x = [batch_size hp; x_dim hp] /\ wf x /\
    shape x_hat = [batch_size hp; x_dim hp] /\ wf x_hat /\
    Model.well_formed (x_dim hp) (hidden_dim hp) (latent_dim hp) (model st_mid) /\
    v_batch_idx st_mid = Some i /\
    wandb_log st_mid = wandb_log st /\ files st_mid = files st /\
    console st_mid = (if (i mod 100 =? 0)%nat then [Index i] else []) ++ console st /\
    overall_loss st_mid = overall_loss st + v /\
    v_x st_mid = Some x /\ v_x_hat st_mid = Some x_hat /\
    DataLoader.fetch loader indices = Some (mkTensor (batch_size hp :: s) (data x)) /\
    train_body hp loader i indices st
    = (let? r := pymod i (log_interval hp) in
       if (r =? 0)%nat then
         let? composed_input := composed x in
         let? composed_predictions := composed x_hat in
         Some (wandb_log_entry (LogImage "composed_predictions" composed_predictions)
                 (wandb_log_entry (LogImage "composed_input" composed_input)
                    (wandb_log_entry (LogScalar "loss" v) st_mid)), Continue)
       else Some (st_mid, Continue)).
Proof.
  intros Bp Hl Hb Wm.
  destruct (batch_view_ok hp s loader indices Hl Hb Bp)
    as (batch & Ef & Ev & Lb & _ & Rb).
  assert (Eb : batch = mkTensor (batch_size hp :: s) (data batch)).
  { destruct Hl as (_ & Hds & _). destruct Hb as (Li & Hi).
    destruct (fetch_ok s loader indices Hds) as (b' & Ef' & Sb & _);
      [destruct indices; [simpl in Li; lia | discriminate] | assumption |].
    rewrite Ef in Ef'. injection Ef' as <-. destruct batch as [sb db].
    cbn [shape data] in *. now rewrite Sb, Li. }
  unfold train_body. rewrite Ef. cbn [obind]. rewrite Ev. cbn [obind].
  set (x := mkTensor [batch_size hp; x_dim hp] (data batch)).
  destruct (Model_forward_eq (model st) x (batch_size hp) (x_dim hp) (hidden_dim hp)
              (latent_dim hp) Wm eq_refl)
    as (mean & log_var & Sm & Wmean & Sl & Wlv & Fw).
  rewrite print_every_100_eq. st_simpl.
  destruct (Fw (gen st)) as (out & So & Wo & Eo). rewrite Eo. cbn [obind].
  assert (Wx : wf x) by exact Lb.
  rewrite loss_function_eq;
    [| exact (eq_sym So) | exact Wx | now apply tmap_wf | congruence
     | assumption | assumption | apply Forall_weaken_unit, sigmoid_data_range ].
  cbn [obind item scalar data].
  rewrite optimizer_step_eq with (gr := loss_gradient (model st) x (gen st))
    by reflexivity.
  st_simpl.
  exists x, (sigmoid out). eexists. eexists.
  split; [reflexivity|]. split; [exact Wx|]. split; [exact So|].
  split; [now apply tmap_wf|].
  repeat match goal with |- _ /\ _ => split end; cycle 9.
  - destruct (pymod i (log_interval hp)) as [r|]; cbn [obind]; [|reflexivity].
    destruct (r =? 0)%nat; [|reflexivity].
    destruct (composed x) as [ci|]; cbn [obind]; [|reflexivity].
    destruct (composed (sigmoid out)) as [cp|]; cbn [obind]; reflexivity.
  - st_simpl. apply Adam_step_well_formed. exact Wm.
  - reflexivity.
  - reflexivity.
  - reflexivity.
  - reflexivity.
  - reflexivity.
  - reflexivity.
  - reflexivity.
  - f_equal. exact Eb.
Qed.

Lemma composed_wrong_size t :
  numel (shape t) <> numel [10; 10; 28; 28]%nat -> composed t = None.
Proof.
  intros N. unfold composed, view.
  destruct (numel (shape t) =? numel [10; 10; 28; 28]%nat)%nat eqn:E; [|reflexivity].
  apply Nat.eqb_eq in E. contradiction.
Qed.

(** The first batch of a pass over a loader that holds at least one full
    batch. *)
Lemma first_batch_ok hp (loader : DataLoader.t) g :
  DataLoader.batch_size loader = batch_size hp -> (0 < batch_size hp)%nat ->
  (batch_size hp <= length (DataLoader.dataset loader))%nat ->
  exists first rest,
    DataLoader.index_batches loader (fst (DataLoader.sampler loader g)) = first :: rest /\
    batch_ok hp loader first.
Proof.
  intros Eb Bp Le. pose proof (sampler_ok loader g) as (Lo & Ho).
  destruct (index_batches_first hp loader (fst (DataLoader.sampler loader g)) Eb Bp)
    as (rest & Ei & Lf); [lia|].
  eexists; exists rest. split; [exact Ei|]. split; [exact Lf|].
  apply Forall_forall. intros j Hj.
  assert (In j (fst (DataLoader.sampler loader g))) as Hin.
  { rewrite <- (firstn_skipn (batch_size hp) (fst _)). apply in_or_app. now left. }
  clear Hj. revert j Hin. now apply Forall_forall.
Qed.

Lemma train_epoch_first_batch_raises hp s loader epoch st :
  (0 < batch_size hp)%nat -> loader_ok hp s loader ->
  (batch_size hp <= length (DataLoader.dataset loader))%nat ->
  (forall indices st0,
      batch_ok hp loader indices -> model st0 = model st ->
      train_body hp loader 0 indices st0 = None) ->
  train_epoch hp loader epoch st = None.
Proof.
  intros Bp Hl Le Hbody. unfold train_epoch.
  destruct (first_batch_ok hp loader (gen (set_overall_loss 0 st)) (proj1 Hl) Bp Le)
    as (first & rest & Ei & Hb).
  destruct (DataLoader.sampler loader (gen (set_overall_loss 0 st))) as (order, g).
  cbn [fst] in Ei. rewrite Ei. cbn [for_enumerate].
  rewrite Hbody; [reflexivity | exact Hb | reflexivity].
Qed.

(** X5: the montage is written for 100 images of 28 by 28.  With any other
    product of batch size and input width the very first batch of an epoch
    raises at the montage (batch 0 is always a logging batch), so the epoch
    raises. *)
Theorem train_epoch_needs_montage_size hp s loader epoch st :
  (0 < batch_size hp)%nat -> loader_ok hp s loader ->
  (batch_size hp <= length (DataLoader.dataset loader))%nat ->
  Model.well_formed (x_dim hp) (hidden_dim hp) (latent_dim hp) (model st) ->
  log_interval hp <> 0%nat ->
  numel [batch_size hp; x_dim hp] <> numel [10; 10; 28; 28]%nat ->
  train_epoch hp loader epoch st = None.
Proof.
  intros Bp Hl Le Wm Hli Hn.
  apply (train_epoch_first_batch_raises hp s); try assumption.
  intros indices st0 Hb Em. rewrite <- Em in Wm.
  destruct (train_body_steps hp s loader 0 indices st0 Bp Hl Hb Wm)
    as (x & x_hat & v & st_mid & Sx & _ & _ & _ & _ & _ & _ & _ & _ & _ & _ & _ & _ & E).
  rewrite E. unfold pymod.
  destruct (log_interval hp =? 0)%nat eqn:Z; [apply Nat.eqb_eq in Z; contradiction|].
  cbn [obind]. rewrite Nat.Div0.mod_0_l. cbn [Nat.eqb].
  rewrite composed_wrong_size; [reflexivity|]. now rewrite Sx.
Qed.

(** X6: with a logging interval of 0 the test [batch_idx % log_interval]
    divides by zero in the first batch, so the epoch raises. *)
Theorem train_epoch_zero_interval_raises hp s loader epoch st :
  (0 < batch_size hp)%nat -> loader_ok hp s loader ->
  (batch_size hp <= length (DataLoader.dataset loader))%nat ->
  Model.well_formed (x_dim hp) (hidden_dim hp) (latent_dim hp) (model st) ->
  log_interval hp = 0%nat ->
  train_epoch hp loader epoch st = None.
Proof.
  intros Bp Hl Le Wm Hli.
  apply (train_epoch_first_batch_raises hp s); try assumption.
  intros indices st0 Hb Em. rewrite <- Em in Wm.
  destruct (train_body_steps hp s loader 0 indices st0 Bp Hl Hb Wm)
    as (x & x_hat & v & st_mid & _ & _ & _ & _ & _ & _ & _ & _ & _ & _ & _ & _ & _ & E).
  rewrite E. unfold pymod. rewrite Hli. reflexivity.
Qed.

Lemma sampler_empty (loader : DataLoader.t) g :
  DataLoader.dataset loader = [] -> fst (DataLoader.sampler loader g) = [].
Proof.
  intros E. pose proof (sampler_ok loader g) as (Lo & _). rewrite E in Lo.
  now apply length_zero_iff_nil.
Qed.

Lemma index_batches_empty (loader : DataLoader.t) :
  (0 < DataLoader.batch_size loader)%nat -> DataLoader.index_batches loader [] = [].
Proof.
  intros Bp. unfold DataLoader.index_batches, DataLoader.div_up. cbn [length Nat.add].
  rewrite Nat.div_small by lia. reflexivity.
Qed.

(** X8: run on an empty training set with at least one epoch to do, the
    script raises instead of running to its end. *)
Theorem main_empty_training_set_raises hp test_dataset g :
  (0 < batch_size hp)%nat -> (0 < epochs hp)%nat ->
  main hp [] test_dataset g = None.
Proof.
  intros Bp Ep. unfold main.
  destruct (setup_ok hp [] test_dataset g Bp) as (m & g0 & Es & _).
  rewrite Es. cbn [obind]. unfold training.
  destruct (epochs hp) as [|e]; [lia|]. cbn [seq for_range].
  unfold train_epoch. st_simpl.
  pose proof (sampler_empty (DataLoader.mk [] (batch_size hp) true) g0 eq_refl) as So.
  destruct (DataLoader.sampler (DataLoader.mk [] (batch_size hp) true) g0) as (order, g1).
  cbn [fst] in So. subst order. rewrite index_batches_empty by exact Bp.
  reflexivity.
Qed.

Lemma chunk_length_min {A} k i (d : list A) :
  length (chunk k i d) = Nat.min k (length d - i * k).
Proof. unfold chunk. now rewrite length_firstn, length_skipn. Qed.

Lemma div_up_ragged n k r :
  (0 < r < k)%nat -> DataLoader.div_up (n * k + r) k = S n.
Proof.
  intros Hr. unfold DataLoader.div_up.
  replace (n * k + r + k - 1)%nat with (r - 1 + S n * k)%nat by lia.
  rewrite Nat.div_add by lia. rewrite Nat.div_small by lia. reflexivity.
Qed.

(** The batches of a data set whose size is not a multiple of the batch
    size: full ones, then a short one. *)
Lemma index_batches_ragged hp (loader : DataLoader.t) order n r :
  DataLoader.batch_size loader = batch_size hp ->
  length order = (n * batch_size hp + r)%nat -> (0 < r < batch_size hp)%nat ->
  Forall (fun i => (i < length (DataLoader.dataset loader))%nat) order ->
  exists full_ones short,
    DataLoader.index_batches loader order = full_ones ++ [short] /\
    length full_ones = n /\ Forall (batch_ok hp loader) full_ones /\
    length short = r /\
    Forall (fun i => (i < length (DataLoader.dataset loader))%nat) short.
Proof.
  intros Eb Lo Hr Ho. unfold DataLoader.index_batches.
  rewrite Eb, Lo, div_up_ragged by assumption. rewrite seq_S, map_app. cbn [map Nat.add].
  eexists; eexists. split; [reflexivity|].
  assert (Sub : forall i j, In j (chunk (batch_size hp) i order) ->
                (j < length (DataLoader.dataset loader))%nat).
  { intros i j Hj. apply chunk_incl in Hj. revert j Hj. now apply Forall_forall. }
  split; [now rewrite length_map, length_seq|]. split; [| split].
  - apply Forall_map, Forall_forall. intros i Hi. apply in_seq in Hi. split.
    + rewrite chunk_length_min, Lo. apply Nat.min_l. nia.
    + apply Forall_forall. apply Sub.
  - rewrite chunk_length_min, Lo. nia.
  - apply Forall_forall. apply Sub.
Qed.

(** A batch that is not of [batch_size] images is rejected by
    [x.view(batch_size, x_dim)]. *)
Lemma train_body_short_batch_raises hp s loader i indices st :
  loader_ok hp s loader -> (0 < x_dim hp)%nat ->
  indices <> [] -> length indices <> batch_size hp ->
  Forall (fun j => (j < length (DataLoader.dataset loader))%nat) indices ->
  train_body hp loader i indices st = None.
Proof.
  intros (_ & Hds & Hs) Xp NE Hlen Hi.
  destruct (fetch_ok s loader indices Hds NE Hi) as (batch & Ef & Sb & _).
  unfold train_body. rewrite Ef. cbn [obind]. unfold view.
  destruct (numel (shape batch) =? numel [batch_size hp; x_dim hp])%nat eqn:E;
    [|reflexivity].
  apply Nat.eqb_eq in E. rewrite Sb, numel_2 in E.
  change (numel (length indices :: s)) with (length indices * numel s)%nat in E.
  rewrite Hs in E. nia.
Qed.

Lemma train_loop_fails_at hp s loader bad rest items : forall i st,
  hyper_ok hp -> loader_ok hp s loader -> Forall (batch_ok hp loader) items ->
  (forall j st0, train_body hp loader j bad st0 = None) ->
  Model.well_formed (x_dim hp) (hidden_dim hp) (latent_dim hp) (model st) ->
  for_enumerate (train_body hp loader) i (items ++ bad :: rest) st = None.
Proof.
  induction items as [|b items IH]; intros i st Hh Hl Hi Hbad Wm.
  - cbn [app for_enumerate]. now rewrite Hbad.
  - inversion Hi as [|? ? Hb Hrest]; subst.
    destruct (train_body_ok hp s loader i b st Hh Hl Hb Wm) as (st1 & E1 & W1 & _).
    cbn [app for_enumerate]. rewrite E1. now apply IH.
Qed.

(** X9: when the size of the training set is not a multiple of the batch
    size, the epoch raises: its last batch is short and
    [x.view(batch_size, x_dim)] rejects it. *)
Theorem train_epoch_ragged_last_batch_raises hp s loader n r epoch st :
  hyper_ok hp -> loader_ok hp s loader ->
  length (DataLoader.dataset loader) = (n * batch_size hp + r)%nat ->
  (0 < r < batch_size hp)%nat ->
  Model.well_formed (x_dim hp) (hidden_dim hp) (latent_dim hp) (model st) ->
  train_epoch hp loader epoch st = None.
Proof.
  intros Hh Hl Ln Hr Wm. destruct (hyper_ok_pos hp Hh) as (Bp & Xp).
  unfold train_epoch.
  pose proof (sampler_ok loader (gen (set_overall_loss 0 st))) as (Lo & Ho).
  destruct (DataLoader.sampler loader (gen (set_overall_loss 0 st))) as (order, g).
  cbn [fst] in Lo, Ho. rewrite Ln in Lo.
  destruct (index_batches_ragged hp loader order n r (proj1 Hl) Lo Hr Ho)
    as (full_ones & short & Ei & _ & Hfull & Ls & Hs).
  rewrite Ei.
  rewrite (train_loop_fails_at hp s loader short [] full_ones); try assumption;
    [reflexivity|].
  intros j st0. apply (train_body_short_batch_raises hp s); try assumption.
  - destruct short; [simpl in Ls; lia | discriminate].
  - lia.
Qed.

(** One pass of the inner loop under the script's sizes: what it prints and
    how much it logs. *)
Lemma train_body_trace hp s loader i indices st :
  hyper_ok hp -> loader_ok hp s loader -> batch_ok hp loader indices ->
  Model.well_formed (x_dim hp) (hidden_dim hp) (latent_dim hp) (model st) ->
  exists st',
    train_body hp loader i indices st = Some (st', Continue) /\
    Model.well_formed (x_dim hp) (hidden_dim hp) (latent_dim hp) (model st') /\
    v_batch_idx st' = Some i /\ files st' = files st /\
    console st' = (if (i mod 100 =? 0)%nat then [Index i] else []) ++ console st /\
    length (wandb_log st')
    = ((if (i mod log_interval hp =? 0)%nat then 3 else 0) + length (wandb_log st))%nat.
Proof.
  intros Hh Hl Hb Wm. destruct (hyper_ok_pos hp Hh) as (Bp & _).
  destruct (train_body_steps hp s loader i indices st Bp Hl Hb Wm)
    as (x & x_hat & v & st_mid & Sx & _ & Sh & _ & Wmid & Bi & Lg & Fl & Co & _ & _ & _ & _ & E).
  rewrite E. destruct Hh as (E78 & Hli). unfold pymod.
  destruct (log_interval hp =? 0)%nat eqn:Z; [apply Nat.eqb_eq in Z; contradiction|].
  cbn [obind]. destruct (i mod log_interval hp =? 0)%nat.
  - destruct (composed_ok x) as (ci & Eci); [now rewrite Sx|].
    destruct (composed_ok x_hat) as (cp & Ecp); [now rewrite Sh|].
    rewrite Eci, Ecp. cbn [obind]. eexists. split; [reflexivity|]. st_simpl.
    rewrite Lg. split; [exact Wmid|]. split; [exact Bi|]. split; [exact Fl|].
    split; [exact Co | reflexivity].
  - exists st_mid. split; [reflexivity|]. rewrite Lg.
    split; [exact Wmid|]. split; [exact Bi|]. split; [exact Fl|].
    split; [exact Co | reflexivity].
Qed.

Lemma train_loop_trace hp s loader items : forall i st,
  hyper_ok hp -> loader_ok hp s loader -> Forall (batch_ok hp loader) items ->
  Model.well_formed (x_dim hp) (hidden_dim hp) (latent_dim hp) (model st) ->
  exists st',
    for_enumerate (train_body hp loader) i items st = Some st' /\
    files st' = files st /\
    console st'
    = rev (map Index (filter (fun j => (j mod 100 =? 0)%nat) (seq i (length items))))
      ++ console st /\
    length (wandb_log st')
    = (3 * length (filter (fun j => (j mod log_interval hp =? 0)%nat)
                          (seq i (length items)))
       + length (wandb_log st))%nat.
Proof.
  induction items as [|b items IH]; intros i st Hh Hl Hi Wm.
  - exists st. repeat split.
  - inversion Hi as [|? ? Hb Hrest]; subst.
    destruct (train_body_trace hp s loader i b st Hh Hl Hb Wm)
      as (st1 & E1 & W1 & _ & F1 & C1 & L1).
    destruct (IH (S i) st1 Hh Hl Hrest W1) as (st' & E' & F' & C' & L').
    exists st'. cbn [for_enumerate]. rewrite E1. split; [exact E'|].
    split; [congruence|]. cbn [length seq filter]. split.
    + rewrite C', C1. destruct (i mod 100 =? 0)%nat.
      * cbn [map rev]. now rewrite <- app_assoc.
      * reflexivity.
    + rewrite L', L1. destruct (i mod log_interval hp =? 0)%nat; cbn [length]; lia.
Qed.

(** An epoch over [n] full batches, in full. *)
Lemma train_epoch_full hp s loader n epoch st :
  hyper_ok hp -> loader_ok hp s loader ->
  length (DataLoader.dataset loader) = (n * batch_size hp)%nat -> (2 <= n)%nat ->
  Model.well_formed (x_dim hp) (hidden_dim hp) (latent_dim hp) (model st) ->
  exists st' average,
    train_epoch hp loader epoch st = Some st' /\
    Model.well_formed (x_dim hp) (hidden_dim hp) (latent_dim hp) (model st') /\
    console st'
    = EpochReport (epoch + 1) average :: rev (map Index (multiples_below 100 n))
      ++ console st /\
    length (wandb_log st')
    = (3 * length (multiples_below (log_interval hp) n) + length (wandb_log st))%nat /\
    files st' = files st.
Proof.
  intros Hh Hl Ln N Wm. destruct (hyper_ok_pos hp Hh) as (Bp & _).
  destruct (train_epoch_report hp s loader n epoch st Hh Hl Ln N Wm)
    as (st' & E & W' & _).
  exists st'. revert E. unfold train_epoch.
  pose proof (sampler_ok loader (gen (set_overall_loss 0 st))) as (Lo & Ho).
  destruct (DataLoader.sampler loader (gen (set_overall_loss 0 st))) as (order, g).
  cbn [fst] in Lo, Ho. rewrite Ln in Lo.
  destruct (index_batches_full hp loader order n (proj1 Hl) Bp Lo Ho) as (Lb & Hb).
  destruct (train_loop_trace hp s loader (DataLoader.index_batches loader order) 0
              (set_gen g (set_overall_loss 0 st)) Hh Hl Hb Wm)
    as (st1 & E1 & F1 & C1 & L1).
  rewrite E1. cbn [obind]. rewrite Lb in C1, L1.
  destruct (v_batch_idx st1) as [bi|]; cbn [obind]; [|discriminate].
  destruct (pydiv (overall_loss st1) (bi * batch_size hp)) as [avg|]; cbn [obind];
    [|discriminate].
  intros E. exists avg. split; [exact E|]. injection E as E.
  split; [exact W'|]. subst st'. st_simpl.
  unfold multiples_below. rewrite C1, L1, F1. repeat split.
Qed.

(** X10: what an epoch over [n] full batches leaves behind besides the
    updated model: on the console the batch indices that are multiples of
    100, in order, then the report of the epoch; in the tracker's log three
    records (loss and two montages) for every batch index that is a
    multiple of [log_interval]; no file. *)
Theorem train_epoch_trace hp s loader n epoch st :
  hyper_ok hp -> loader_ok hp s loader ->
  length (DataLoader.dataset loader) = (n * batch_size hp)%nat -> (2 <= n)%nat ->
  Model.well_formed (x_dim hp) (hidden_dim hp) (latent_dim hp) (model st) ->
  exists st' average,
    train_epoch hp loader epoch st = Some st' /\
    console st'
    = EpochReport (epoch + 1) average :: rev (map Index (multiples_below 100 n))
      ++ console st /\
    length (wandb_log st')
    = (3 * length (multiples_below (log_interval hp) n) + length (wandb_log st))%nat /\
    files st' = files st.
Proof.
  intros Hh Hl Ln N Wm.
  destruct (train_epoch_full hp s loader n epoch st Hh Hl Ln N Wm)
    as (st' & average & E & _ & C & L & F).
  exists st', average. now repeat split.
Qed.

Lemma report_epochs_app c1 c2 :
  report_epochs (c1 ++ c2) = report_epochs c1 ++ report_epochs c2.
Proof. apply flat_map_app. Qed.

Lemma report_epochs_indices l : report_epochs (rev (map Index l)) = [].
Proof.
  induction l as [|i l IH]; [reflexivity|].
  cbn [map rev]. now rewrite report_epochs_app, IH.
Qed.

(** The outer loop: every epoch goes through and leaves its report. *)
Lemma epochs_loop_ok hp s loader n count : forall first st,
  hyper_ok hp -> loader_ok hp s loader ->
  length (DataLoader.dataset loader) = (n * batch_size hp)%nat -> (2 <= n)%nat ->
  Model.well_formed (x_dim hp) (hidden_dim hp) (latent_dim hp) (model st) ->
  exists st',
    for_range (train_epoch hp loader) (seq first count) st = Some st' /\
    Model.well_formed (x_dim hp) (hidden_dim hp) (latent_dim hp) (model st') /\
    report_epochs (console st') = rev (seq (first + 1) count) ++ report_epochs (console st) /\
    length (wandb_log st')
    = (count * (3 * length (multiples_below (log_interval hp) n))
       + length (wandb_log st))%nat /\
    files st' = files st.
Proof.
  induction count as [|count IH]; intros first st Hh Hl Ln N Wm.
  - exists st. split; [reflexivity|]. split; [assumption|]. repeat split.
  - destruct (train_epoch_full hp s loader n first st Hh Hl Ln N Wm)
      as (st1 & avg & E1 & W1 & C1 & L1 & F1).
    destruct (IH (S first) st1 Hh Hl Ln N W1) as (st' & E' & W' & C' & L' & F').
    exists st'. cbn [seq for_range]. rewrite E1. split; [exact E'|].
    split; [exact W'|]. split; [| split; [lia | congruence]].
    rewrite C', C1. cbn [report_epochs flat_map app].
    fold (report_epochs (rev (map Index (multiples_below 100 n)) ++ console st)).
    rewrite report_epochs_app, report_epochs_indices. cbn [app rev].
    rewrite <- app_assoc. cbn [app]. now replace (S first + 1)%nat with (S (first + 1)) by lia.
Qed.

Lemma training_ok hp s loader n st :
  hyper_ok hp -> loader_ok hp s loader ->
  length (DataLoader.dataset loader) = (n * batch_size hp)%nat -> (2 <= n)%nat ->
  Model.well_formed (x_dim hp) (hidden_dim hp) (latent_dim hp) (model st) ->
  exists st',
    training hp loader st = Some st' /\
    Model.well_formed (x_dim hp) (hidden_dim hp) (latent_dim hp) (model st') /\
    hd (Text "") (console st') = Text "Finish!!" /\
    report_epochs (console st') = rev (seq 1 (epochs hp)) ++ report_epochs (console st) /\
    length (wandb_log st')
    = (epochs hp * (3 * length (multiples_below (log_interval hp) n))
       + length (wandb_log st))%nat /\
    files st' = files st.
Proof.
  intros Hh Hl Ln N Wm. unfold training.
  destruct (epochs_loop_ok hp s loader n (epochs hp) 0
              (set_model (Model.train (model (print (Text "Start training VAE...") st)))
                 (print (Text "Start training VAE...") st))
              Hh Hl Ln N)
    as (st1 & E1 & W1 & C1 & L1 & F1).
  { st_simpl. now apply set_mode_well_formed. }
  rewrite E1. cbn [obind]. eexists. split; [reflexivity|]. st_simpl.
  split; [exact W1|]. split; [reflexivity|]. split; [| split; assumption].
  cbn [report_epochs flat_map app]. exact C1.
Qed.

(** X11: on training and test sets of 28 by 28 images, the training set
    holding a whole number (at least 2) of batches and the test set at least
    one batch, the whole script runs to its end without raising.  It prints
    one report per epoch, numbered from 1, ends with the index of the single
    test batch it reads, logs three records per logging batch of every epoch
    and writes exactly its three files, each of [batch_size] images of 28 by
    28. *)
Theorem main_completes hp train_dataset test_dataset n g :
  hyper_ok hp -> x_dim hp = 784%nat ->
  Forall (image_ok [1; 28; 28]%nat) train_dataset ->
  length train_dataset = (n * batch_size hp)%nat -> (2 <= n)%nat ->
  Forall (image_ok [1; 28; 28]%nat) test_dataset ->
  (batch_size hp <= length test_dataset)%nat ->
  exists st,
    main hp train_dataset test_dataset g = Some st /\
    Model.well_formed (x_dim hp) (hidden_dim hp) (latent_dim hp) (model st) /\
    report_epochs (console st) = rev (seq 1 (epochs hp)) /\
    hd (Text "") (console st) = Index 0 /\
    length (wandb_log st)
    = (epochs hp * (3 * length (multiples_below (log_interval hp) n)))%nat /\
    map fst (files st)
    = ["generated_sample.png"; "reconstructions.png"; "orig_data.png"]%string /\
    Forall (fun t => shape t = [batch_size hp; 1; 28; 28]%nat /\ wf t) (map snd (files st)).
Proof.
  intros Hh X784 Htr Ln N Hte Le. destruct (hyper_ok_pos hp Hh) as (Bp & _).
  destruct (setup_ok hp train_dataset test_dataset g Bp) as (m & g0 & Es & Wm).
  set (st0 := mkState m (Adam (lr hp)) None g0 [] [] [] 0 None None None) in *.
  assert (Hl1 : loader_ok hp [1; 28; 28]%nat (DataLoader.mk train_dataset (batch_size hp) true)).
  { split; [reflexivity|]. split; [exact Htr|]. rewrite X784. reflexivity. }
  assert (Hl2 : loader_ok hp [1; 28; 28]%nat (DataLoader.mk test_dataset (batch_size hp) false)).
  { split; [reflexivity|]. split; [exact Hte|]. rewrite X784. reflexivity. }
  destruct (training_ok hp [1; 28; 28]%nat (DataLoader.mk train_dataset (batch_size hp) true)
              n st0 Hh Hl1 Ln N Wm)
    as (st1 & Et & W1 & _ & C1 & L1 & F1).
  destruct (evaluation_ok hp [1; 28; 28]%nat
              (DataLoader.mk test_dataset (batch_size hp) false) st1 Bp Hl2 eq_refl Le W1)
    as (x & x_hat & Ee & Sx & Wx & Dx & Sh & Wh).
  match type of Ee with _ = Some ?s => set (st2 := s) in * end.
  destruct (write_images_ok hp st2 x x_hat X784 eq_refl Sx eq_refl Sh Wh)
    as (st3 & generated & Ew & Em & Eo & Ec & Elog & Efiles & Wg & _).
  { apply set_mode_well_formed. exact W1. }
  assert (N4 : numel [batch_size hp; x_dim hp] = numel [batch_size hp; 1; 28; 28]%nat)
    by (rewrite X784; apply numel_as_images).
  exists st3. split.
  { unfold main. rewrite Es. cbn [obind]. rewrite Et. cbn [obind].
    rewrite Ee. cbn [obind]. exact Ew. }
  rewrite Em, Ec, Elog, Efiles. subst st2. st_simpl.
  split; [apply set_mode_well_formed; exact W1|].
  split; [change (report_epochs (console st1) = rev (seq 1 (epochs hp)));
          rewrite C1; apply app_nil_r|].
  split; [reflexivity|]. split; [rewrite L1; cbn [wandb_log st0 length]; lia|].
  rewrite F1. cbn [files st0 map fst snd]. split; [reflexivity|].
  repeat constructor; try assumption; unfold wf in *; cbn [data shape] in *; congruence.
Qed.

(** X12: the file of originals holds exactly the first batch of the test
    loader: flattening the batch to rows of [x_dim] values for the model and
    folding it back to images for the file gives back the batch as the
    loader stacked it. *)
Theorem orig_file_is_first_test_batch hp test_loader st :
  (0 < batch_size hp)%nat -> x_dim hp = 784%nat ->
  loader_ok hp [1; 28; 28]%nat test_loader ->
  DataLoader.shuffle test_loader = false ->
  (batch_size hp <= length (DataLoader.dataset test_loader))%nat ->
  Model.well_formed (x_dim hp) (hidden_dim hp) (latent_dim hp) (model st) ->
  exists st1 st2 batch generated reconstructions,
    evaluation hp test_loader st = Some st1 /\
    write_images hp st1 = Some st2 /\
    DataLoader.fetch test_loader (seq 0 (batch_size hp)) = Some batch /\
    files st2 = ("generated_sample.png"%string, generated)
                :: ("reconstructions.png"%string, reconstructions)
                :: ("orig_data.png"%string, batch) :: files st.
Proof.
  intros Bp X784 Hl Sh Le Wm.
  destruct (evaluation_ok hp [1; 28; 28]%nat test_loader st Bp Hl Sh Le Wm)
    as (x & x_hat & Ee & Sx & Wx & Dx & Shh & Wh).
  match type of Ee with _ = Some ?s => set (st1 := s) in * end.
  destruct (write_images_ok hp st1 x x_hat X784 eq_refl Sx eq_refl Shh Wh)
    as (st2 & generated & Ew & _ & _ & _ & _ & Efiles & _).
  { apply set_mode_well_formed. exact Wm. }
  destruct (fetch_ok [1; 28; 28]%nat test_loader (seq 0 (batch_size hp)))
    as (batch & Ef & Sb & _ & Db & _).
  { apply Hl. }
  { destruct (batch_size hp); [lia | discriminate]. }
  { apply Forall_forall. intros j Hj. apply in_seq in Hj. lia. }
  exists st1, st2, batch. eexists; eexists.
  split; [exact Ee|]. split; [exact Ew|]. split; [exact Ef|].
  rewrite Efiles. subst st1. st_simpl. do 3 f_equal.
  destruct batch as [sb db]. cbn [shape data] in *.
  rewrite length_seq in Sb. subst sb. f_equal.
  rewrite Dx, Db.
  rewrite <- (map_map (fun j => nth j (DataLoader.dataset test_loader) (scalar 0)) data).
  now rewrite map_nth_seq_firstn.
Qed.

Lemma concat_chunks_up {A} k m : forall d : list A,
  (length d <= m * k)%nat -> flat_map (fun i => chunk k i d) (seq 0 m) = d.
Proof.
  induction m as [|m IH]; intros d Hd.
  - destruct d; [reflexivity | simpl in Hd; lia].
  - simpl seq. rewrite <- seq_shift, flat_map_concat_map, map_cons, map_map.
    simpl concat. rewrite <- flat_map_concat_map.
    rewrite (flat_map_chunks (fun c => c)), IH.
    + rewrite chunk_0. apply firstn_skipn.
    + rewrite length_skipn. simpl in Hd. lia.
Qed.

Lemma div_up_bounds n k :
  (0 < k)%nat ->
  (n <= DataLoader.div_up n k * k)%nat /\
  (forall i, (i < DataLoader.div_up n k)%nat -> (i * k < n)%nat).
Proof.
  intros K. unfold DataLoader.div_up.
  pose proof (Nat.div_mod_eq (n + k - 1) k) as E.
  pose proof (Nat.mod_upper_bound (n + k - 1) k) as U.
  split; [nia|]. intros i Hi. nia.
Qed.

Lemma sampler_perm (loader : DataLoader.t) g :
  Permutation (fst (DataLoader.sampler loader g))
              (seq 0 (length (DataLoader.dataset loader))).
Proof.
  unfold DataLoader.sampler. destruct (DataLoader.shuffle loader); cbn [fst].
  - apply randperm_perm.
  - apply Permutation_refl.
Qed.

(** X13: one pass over a data loader, shuffled or not, visits every sample
    of its data set exactly once: the batches, put end to end, are the
    order the sampler drew, which is a rearrangement of all the indices;
    and no batch is empty or larger than the batch size. *)
Theorem pass_visits_every_sample_once (loader : DataLoader.t) (g : Generator) :
  (0 < DataLoader.batch_size loader)%nat ->
  let batches := DataLoader.index_batches loader (fst (DataLoader.sampler loader g)) in
  concat batches = fst (DataLoader.sampler loader g) /\
  Permutation (concat batches) (seq 0 (length (DataLoader.dataset loader))) /\
  NoDup (concat batches) /\
  Forall (fun b => (0 < length b <= DataLoader.batch_size loader)%nat) batches.
Proof.
  intros K batches. subst batches.
  set (order := fst (DataLoader.sampler loader g)).
  destruct (div_up_bounds (length order) (DataLoader.batch_size loader) K) as (Up & Low).
  assert (C : concat (DataLoader.index_batches loader order) = order).
  { unfold DataLoader.index_batches. rewrite <- flat_map_concat_map.
    now apply concat_chunks_up. }
  split; [exact C|]. rewrite C. split; [apply sampler_perm|]. split.
  - apply (Permutation_NoDup (Permutation_sym (sampler_perm loader g))). apply seq_NoDup.
  - unfold DataLoader.index_batches. apply Forall_map, Forall_forall.
    intros i Hi. apply in_seq in Hi. rewrite chunk_length_min.
    specialize (Low i). lia.
Qed.

(** X14: the script's set-up raises for a batch size of 0; for any other
    it builds a model whose ten parameters have the sizes that make the
    layers fit: [hidden x input], [latent x hidden] twice, [hidden x latent]
    and [input x hidden], each with its bias; nothing is printed, logged or
    written yet and no loop variable is bound. *)
Theorem setup_builds_fitting_model hp train_dataset test_dataset g :
  (batch_size hp = 0%nat -> setup hp train_dataset test_dataset g = None) /\
  ((0 < batch_size hp)%nat ->
   exists train_loader test_loader st0,
     setup hp train_dataset test_dataset g = Some (train_loader, test_loader, st0) /\
     DataLoader.shuffle train_loader = true /\ DataLoader.shuffle test_loader = false /\
     map shape (Model.parameters (model st0))
     = [[hidden_dim hp; x_dim hp]; [hidden_dim hp];
        [latent_dim hp; hidden_dim hp]; [latent_dim hp];
        [latent_dim hp; hidden_dim hp]; [latent_dim hp];
        [hidden_dim hp; latent_dim hp]; [hidden_dim hp];
        [x_dim hp; hidden_dim hp]; [x_dim hp]] /\
     Forall wf (Model.parameters (model st0)) /\
     console st0 = [] /\ wandb_log st0 = [] /\ files st0 = [] /\
     v_batch_idx st0 = None /\ v_x st0 = None /\ v_x_hat st0 = None).
Proof.
  split.
  - intros Z. unfold setup, DataLoader.init. now rewrite Z.
  - intros Bp. destruct (setup_ok hp train_dataset test_dataset g Bp) as (m & g0 & Es & W).
    eexists; eexists; eexists. split; [exact Es|]. st_simpl.
    split; [reflexivity|]. split; [reflexivity|].
    destruct W as ((W1 & W2 & W3 & I1 & O1 & I2 & O2 & I3 & O3)
                   & (W4 & W5 & I4 & O4 & I5 & O5)).
    destruct W1 as (S1 & Ww1 & B1 & Wb1). destruct W2 as (S2 & Ww2 & B2 & Wb2).
    destruct W3 as (S3 & Ww3 & B3 & Wb3). destruct W4 as (S4 & Ww4 & B4 & Wb4).
    destruct W5 as (S5 & Ww5 & B5 & Wb5).
    split.
    + unfold Model.parameters, Encoder.parameters, Decoder.parameters, Linear.parameters.
      cbn [app map].
      rewrite S1, B1, S2, B2, S3, B3, S4, B4, S5, B5, I1, O1, I2, O2, I3, O3, I4, O4, I5, O5.
      reflexivity.
    + split; [| now repeat split].
      unfold Model.parameters, Encoder.parameters, Decoder.parameters, Linear.parameters.
      cbn [app]. repeat constructor; assumption.
Qed.

Lemma eval_body_short_batch_raises hp s loader i indices st :
  loader_ok hp s loader -> (0 < x_dim hp)%nat ->
  indices <> [] -> length indices <> batch_size hp ->
  Forall (fun j => (j < length (DataLoader.dataset loader))%nat) indices ->
  eval_body hp loader i indices st = None.
Proof.
  intros (_ & Hds & Hs) Xp NE Hlen Hi.
  destruct (fetch_ok s loader indices Hds NE Hi) as (batch & Ef & Sb & _).
  unfold eval_body. rewrite Ef. cbn [obind]. unfold view.
  destruct (numel (shape batch) =? numel [batch_size hp; x_dim hp])%nat eqn:E;
    [|reflexivity].
  apply Nat.eqb_eq in E. rewrite Sb, numel_2 in E.
  change (numel (length indices :: s)) with (length indices * numel s)%nat in E.
  rewrite Hs in E. nia.
Qed.

(** X15: a test set that holds some images but fewer than one batch makes
    the evaluation phase raise: its only batch is short and
    [x.view(batch_size, x_dim)] rejects it. *)
Theorem evaluation_short_test_set_raises hp s test_loader st :
  loader_ok hp s test_loader -> DataLoader.shuffle test_loader = false ->
  (0 < x_dim hp)%nat ->
  (0 < length (DataLoader.dataset test_loader) < batch_size hp)%nat ->
  evaluation hp test_loader st = None.
Proof.
  intros Hl Sh Xp Hlen. unfold evaluation, DataLoader.sampler. rewrite Sh.
  unfold DataLoader.index_batches. rewrite (proj1 Hl), length_seq.
  pose proof (div_up_pos (length (DataLoader.dataset test_loader)) (batch_size hp)) as P.
  destruct (DataLoader.div_up (length (DataLoader.dataset test_loader)) (batch_size hp))
    as [|m]; [lia|].
  cbn [seq map for_enumerate]. rewrite chunk_0.
  rewrite firstn_all2 by (rewrite length_seq; lia).
  rewrite (eval_body_short_batch_raises hp s); try assumption; [reflexivity | | |].
  - destruct (length (DataLoader.dataset test_loader)); [lia | discriminate].
  - rewrite length_seq. lia.
  - apply Forall_forall. intros j Hj. apply in_seq in Hj. lia.
Qed.

(** X16: the three files are written as images of 28 by 28.  With an input
    width other than 784 the evaluation phase still goes through, but
    saving the originals raises. *)
Theorem saving_needs_width_784 hp s test_loader st :
  (0 < batch_size hp)%nat -> loader_ok hp s test_loader ->
  DataLoader.shuffle test_loader = false ->
  (batch_size hp <= length (DataLoader.dataset test_loader))%nat ->
  Model.well_formed (x_dim hp) (hidden_dim hp) (latent_dim hp) (model st) ->
  x_dim hp <> 784%nat ->
  exists st1, evaluation hp test_loader st = Some st1 /\ write_images hp st1 = None.
Proof.
  intros Bp Hl Sh Le Wm X.
  destruct (evaluation_ok hp s test_loader st Bp Hl Sh Le Wm)
    as (x & x_hat & Ee & Sx & _).
  eexists. split; [exact Ee|]. unfold write_images. st_simpl. unfold view.
  destruct (numel (shape x) =? numel [batch_size hp; 1; 28; 28]%nat)%nat eqn:E;
    [|reflexivity].
  apply Nat.eqb_eq in E. rewrite Sx, numel_2 in E.
  rewrite <- numel_as_images, numel_2 in E. nia.
Qed.

(** X17: run without training (0 epochs) on an empty test set, the script
    raises when it comes to save the originals: no loop has bound [x]. *)
Theorem main_no_test_data_raises hp train_dataset g :
  (0 < batch_size hp)%nat -> epochs hp = 0%nat ->
  main hp train_dataset [] g = None.
Proof.
  intros Bp Ep. unfold main.
  destruct (setup_ok hp train_dataset [] g Bp) as (m & g0 & Es & _).
  rewrite Es. cbn [obind]. unfold training. rewrite Ep. cbn [seq for_range obind].
  unfold evaluation, DataLoader.sampler. cbn [DataLoader.shuffle DataLoader.dataset length seq].
  rewrite index_batches_empty by exact Bp. reflexivity.
Qed.

(** After a pass of the inner loop the loop variables stand at its batch. *)
Lemma train_body_vars hp s loader i indices st :
  hyper_ok hp -> loader_ok hp s loader -> batch_ok hp loader indices ->
  Model.well_formed (x_dim hp) (hidden_dim hp) (latent_dim hp) (model st) ->
  exists st',
    train_body hp loader i indices st = Some (st', Continue) /\
    Model.well_formed (x_dim hp) (hidden_dim hp) (latent_dim hp) (model st') /\
    holds_batch_of hp s loader st'.
Proof.
  intros Hh Hl Hb Wm. destruct (hyper_ok_pos hp Hh) as (Bp & _).
  destruct (train_body_steps hp s loader i indices st Bp Hl Hb Wm)
    as (x & x_hat & v & st_mid & Sx & Wx & Sh & Wh & Wmid & _ & _ & _ & _ & _
        & Vx & Vh & Ef & E).
  rewrite E. destruct Hh as (E78 & Hli). unfold pymod.
  destruct (log_interval hp =? 0)%nat eqn:Z; [apply Nat.eqb_eq in Z; contradiction|].
  cbn [obind].
  assert (H : holds_batch_of hp s loader st_mid).
  { exists x, x_hat, indices. split; [exact Hb|]. split; [exact Ef|].
    split; [exact Vx|]. split; [exact Sx|]. split; [exact Wx|].
    split; [exact Vh|]. split; [exact Sh | exact Wh]. }
  destruct (i mod log_interval hp =? 0)%nat.
  - destruct (composed_ok x) as (ci & Eci); [now rewrite Sx|].
    destruct (composed_ok x_hat) as (cp & Ecp); [now rewrite Sh|].
    rewrite Eci, Ecp. cbn [obind]. eexists. split; [reflexivity|].
    split; [exact Wmid | exact H].
  - exists st_mid. split; [reflexivity|]. split; [exact Wmid | exact H].
Qed.

Lemma train_loop_vars hp s loader items : forall i st,
  hyper_ok hp -> loader_ok hp s loader -> Forall (batch_ok hp loader) items ->
  items <> [] ->
  Model.well_formed (x_dim hp) (hidden_dim hp) (latent_dim hp) (model st) ->
  exists st',
    for_enumerate (train_body hp loader) i items st = Some st' /\
    Model.well_formed (x_dim hp) (hidden_dim hp) (latent_dim hp) (model st') /\
    holds_batch_of hp s loader st'.
Proof.
  induction items as [|b items IH]; intros i st Hh Hl Hi NE Wm; [congruence|].
  inversion Hi as [|? ? Hb Hrest]; subst.
  destruct (train_body_vars hp s loader i b st Hh Hl Hb Wm) as (st1 & E1 & W1 & H1).
  cbn [for_enumerate]. rewrite E1. destruct items as [|b' items'].
  - exists st1. split; [reflexivity|]. split; assumption.
  - apply IH; try assumption. discriminate.
Qed.

Lemma train_epoch_vars hp s loader n epoch st st' :
  hyper_ok hp -> loader_ok hp s loader ->
  length (DataLoader.dataset loader) = (n * batch_size hp)%nat -> (1 <= n)%nat ->
  Model.well_formed (x_dim hp) (hidden_dim hp) (latent_dim hp) (model st) ->
  train_epoch hp loader epoch st = Some st' ->
  Model.well_formed (x_dim hp) (hidden_dim hp) (latent_dim hp) (model st') /\
  holds_batch_of hp s loader st'.
Proof.
  intros Hh Hl Ln N Wm. destruct (hyper_ok_pos hp Hh) as (Bp & _).
  unfold train_epoch.
  pose proof (sampler_ok loader (gen (set_overall_loss 0 st))) as (Lo & Ho).
  destruct (DataLoader.sampler loader (gen (set_overall_loss 0 st))) as (order, g).
  cbn [fst] in Lo, Ho. rewrite Ln in Lo.
  destruct (index_batches_full hp loader order n (proj1 Hl) Bp Lo Ho) as (Lb & Hb).
  destruct (train_loop_vars hp s loader (DataLoader.index_batches loader order) 0
              (set_gen g (set_overall_loss 0 st)) Hh Hl Hb)
    as (st1 & E1 & W1 & H1).
  { intros Z. rewrite Z in Lb. simpl in Lb. lia. }
  { exact Wm. }
  rewrite E1. cbn [obind].
  destruct (v_batch_idx st1) as [bi|]; cbn [obind]; [|discriminate].
  destruct (pydiv (overall_loss st1) (bi * batch_size hp)) as [avg|]; cbn [obind];
    [|discriminate].
  intros E. injection E as <-. split; [exact W1 | exact H1].
Qed.

Lemma epochs_loop_vars hp s loader n count : forall first st st',
  hyper_ok hp -> loader_ok hp s loader ->
  length (DataLoader.dataset loader) = (n * batch_size hp)%nat -> (1 <= n)%nat ->
  Model.well_formed (x_dim hp) (hidden_dim hp) (latent_dim hp) (model st) ->
  for_range (train_epoch hp loader) (seq first (S count)) st = Some st' ->
  holds_batch_of hp s loader st'.
Proof.
  induction count as [|count IH]; intros first st st' Hh Hl Ln N Wm;
    cbn [seq for_range];
    destruct (train_epoch hp loader first st) as [st1|] eqn:E1; try discriminate;
    destruct (train_epoch_vars hp s loader n first st st1 Hh Hl Ln N Wm E1) as (W1 & H1).
  - intros E. injection E as <-. exact H1.
  - apply (IH (S first) st1); assumption.
Qed.

Lemma evaluation_empty hp (loader : DataLoader.t) st :
  DataLoader.dataset loader = [] -> DataLoader.shuffle loader = false ->
  (0 < DataLoader.batch_size loader)%nat ->
  evaluation hp loader st
  = Some (set_gen (gen st) (set_model (Model.eval (model st)) st)).
Proof.
  intros Ed Sh Bp. unfold evaluation, DataLoader.sampler. rewrite Sh, Ed.
  cbn [length seq]. rewrite index_batches_empty by exact Bp. reflexivity.
Qed.

(** X18: with an empty test set the script does not raise once at least
    one epoch has run: the loop that generates reconstructions never runs,
    [x] and [x_hat] still stand at the last training batch, and it is a
    batch of the training set that is saved as the originals. *)
Theorem main_empty_test_set_saves_training_batch hp train_dataset n g :
  hyper_ok hp -> x_dim hp = 784%nat -> (0 < epochs hp)%nat ->
  Forall (image_ok [1; 28; 28]%nat) train_dataset ->
  length train_dataset = (n * batch_size hp)%nat -> (2 <= n)%nat ->
  exists st indices batch generated reconstructions,
    main hp train_dataset [] g = Some st /\
    batch_ok hp (DataLoader.mk train_dataset (batch_size hp) true) indices /\
    DataLoader.fetch (DataLoader.mk train_dataset (batch_size hp) true) indices
    = Some batch /\
    files st = [("generated_sample.png"%string, generated);
                ("reconstructions.png"%string, reconstructions);
                ("orig_data.png"%string, batch)].
Proof.
  intros Hh X784 Ep Htr Ln N. destruct (hyper_ok_pos hp Hh) as (Bp & _).
  destruct (setup_ok hp train_dataset [] g Bp) as (m & g0 & Es & Wm).
  set (st0 := mkState m (Adam (lr hp)) None g0 [] [] [] 0 None None None) in *.
  set (train_loader := DataLoader.mk train_dataset (batch_size hp) true) in *.
  assert (Hl : loader_ok hp [1; 28; 28]%nat train_loader).
  { split; [reflexivity|]. split; [exact Htr|]. rewrite X784. reflexivity. }
  destruct (training_ok hp [1; 28; 28]%nat train_loader n st0 Hh Hl Ln N Wm)
    as (st1 & Et & W1 & _ & _ & _ & F1).
  assert (H1 : holds_batch_of hp [1; 28; 28]%nat train_loader st1).
  { assert (W0 : Model.well_formed (x_dim hp) (hidden_dim hp) (latent_dim hp)
                   (model (set_model
                             (Model.train (model (print (Text "Start training VAE...") st0)))
                             (print (Text "Start training VAE...") st0))))
      by (st_simpl; now apply set_mode_well_formed).
    assert (N1 : (1 <= n)%nat) by lia.
    revert Et. unfold training.
    destruct (for_range (train_epoch hp train_loader) (seq 0 (epochs hp)) _)
      as [st1'|] eqn:El; cbn [obind]; [|discriminate].
    intros E. injection E as <-.
    destruct (epochs hp) as [|count]; [lia|].
    destruct (epochs_loop_vars hp [1; 28; 28]%nat train_loader n count 0 _ st1'
                Hh Hl Ln N1 W0 El)
      as (x & x_hat & indices & H).
    exists x, x_hat, indices. exact H. }
  destruct H1 as (x & x_hat & indices & Hb & Ef & Vx & Sx & Wx & Vh & Sh & Wh).
  pose proof (evaluation_empty hp (DataLoader.mk [] (batch_size hp) false) st1
                eq_refl eq_refl Bp) as Ee.
  match type of Ee with _ = Some ?s => set (st2 := s) in * end.
  destruct (write_images_ok hp st2 x x_hat X784 Vx Sx Vh Sh Wh)
    as (st3 & generated & Ew & _ & _ & _ & _ & Efiles & _).
  { subst st2. st_simpl. now apply set_mode_well_formed. }
  exists st3, indices. eexists; eexists; eexists. split.
  { unfold main. rewrite Es. cbn [obind]. fold train_loader. rewrite Et. cbn [obind].
    rewrite Ee. cbn [obind]. exact Ew. }
  split; [exact Hb|]. split; [exact Ef|].
  rewrite Efiles. subst st2. st_simpl. rewrite F1. reflexivity.
Qed.

End ScriptEdges.

Lemma train_epoch_needs_montage_size_witness :
  @train_epoch still_source frozen_autograd half_batch_hyper
    (DataLoader.mk (sample_images (600 * 100)) 50 true) 0 (sample_state half_batch_hyper)
  = None.
Proof.
  apply (@train_epoch_needs_montage_size still_source frozen_autograd half_batch_hyper
           [1; 28; 28]%nat).
  - cbn [batch_size half_batch_hyper]. lia.
  - split; [reflexivity|]. split; [apply sample_images_ok | reflexivity].
  - cbn [DataLoader.dataset batch_size half_batch_hyper].
    rewrite sample_images_length. lia.
  - apply sample_model_ok.
  - discriminate.
  - cbn [batch_size x_dim half_batch_hyper numel fold_right]. lia.
Defined.

Lemma train_epoch_zero_interval_raises_witness :
  @train_epoch still_source frozen_autograd no_interval_hyper
    (DataLoader.mk (sample_images (600 * 100)) 100 true) 0 (sample_state no_interval_hyper)
  = None.
Proof.
  apply (@train_epoch_zero_interval_raises still_source frozen_autograd no_interval_hyper
           [1; 28; 28]%nat).
  - cbn [batch_size no_interval_hyper]. lia.
  - split; [reflexivity|]. split; [apply sample_images_ok | reflexivity].
  - cbn [DataLoader.dataset batch_size no_interval_hyper].
    rewrite sample_images_length. lia.
  - apply sample_model_ok.
  - reflexivity.
Defined.

Lemma train_epoch_single_batch_raises_witness :
  @train_epoch still_source frozen_autograd script_hyper
    (DataLoader.mk (sample_images (1 * 100)) 100 true) 0 (sample_state script_hyper)
  = None.
Proof.
  apply (@train_epoch_single_batch_raises still_source frozen_autograd script_hyper
           [1; 28; 28]%nat).
  - apply script_hyper_ok.
  - apply sample_loader_ok.
  - cbn [DataLoader.dataset]. now rewrite sample_images_length.
  - apply sample_model_ok.
Defined.

Lemma main_empty_training_set_raises_witness :
  @main still_source frozen_autograd script_hyper [] (sample_images (100 * 100)) tt = None.
Proof.
  apply (@main_empty_training_set_raises still_source frozen_autograd script_hyper).
  - cbn [batch_size script_hyper]. lia.
  - cbn [epochs script_hyper]. lia.
Defined.

Lemma train_epoch_ragged_last_batch_raises_witness :
  @train_epoch still_source frozen_autograd script_hyper
    (DataLoader.mk (sample_images (2 * 100 + 50)) 100 true) 0 (sample_state script_hyper)
  = None.
Proof.
  apply (@train_epoch_ragged_last_batch_raises still_source frozen_autograd script_hyper
           [1; 28; 28]%nat (DataLoader.mk (sample_images (2 * 100 + 50)) 100 true) 2 50).
  - apply script_hyper_ok.
  - apply sample_loader_ok.
  - cbn [DataLoader.dataset]. now rewrite sample_images_length.
  - cbn [batch_size script_hyper]. lia.
  - apply sample_model_ok.
Defined.

(** The script's own epoch: six indices printed, sixty batches logged. *)
Lemma train_epoch_trace_witness :
  exists st' average,
    @train_epoch still_source frozen_autograd script_hyper
      (DataLoader.mk (sample_images (600 * 100)) 100 true) 0 (sample_state script_hyper)
    = Some st' /\
    console st'
    = [EpochReport 1 average; Index 500; Index 400; Index 300; Index 200; Index 100;
       Index 0] /\
    length (wandb_log st') = 180%nat /\
    files st' = [].
Proof.
  destruct (@train_epoch_trace still_source frozen_autograd script_hyper [1; 28; 28]%nat
              (DataLoader.mk (sample_images (600 * 100)) 100 true) 600 0
              (sample_state script_hyper) script_hyper_ok (sample_loader_ok (600 * 100) true))
    as (st' & average & E & C & L & F).
  - cbn [DataLoader.dataset]. now rewrite sample_images_length.
  - lia.
  - apply sample_model_ok.
  - exists st', average. split; [exact E|]. split; [exact C|]. split; [exact L | exact F].
Defined.

Lemma main_completes_witness :
  exists st,
    @main still_source frozen_autograd script_hyper
      (sample_images (600 * 100)) (sample_images (100 * 100)) tt = Some st /\
    report_epochs (console st) = [5; 4; 3; 2; 1]%nat /\
    hd (Text "") (console st) = Index 0 /\
    length (wandb_log st) = 900%nat /\
    map fst (files st)
    = ["generated_sample.png"; "reconstructions.png"; "orig_data.png"]%string /\
    Forall (fun t => shape t = [100; 1; 28; 28]%nat /\ wf t) (map snd (files st)).
Proof.
  destruct (@main_completes still_source frozen_autograd script_hyper
              (sample_images (600 * 100)) (sample_images (100 * 100)) 600 tt)
    as (st & E & _ & C & H & L & F & S).
  - apply script_hyper_ok.
  - reflexivity.
  - apply sample_images_ok.
  - now rewrite sample_images_length.
  - lia.
  - apply sample_images_ok.
  - cbn [batch_size script_hyper]. rewrite sample_images_length. lia.
  - exists st. split; [exact E|]. split; [exact C|]. split; [exact H|].
    split; [exact L|]. split; [exact F | exact S].
Defined.

Lemma orig_file_is_first_test_batch_witness :
  exists st1 st2 batch generated reconstructions,
    @evaluation still_source frozen_autograd script_hyper
      (DataLoader.mk (sample_images (100 * 100)) 100 false) (sample_state script_hyper)
    = Some st1 /\
    write_images script_hyper st1 = Some st2 /\
    DataLoader.fetch (DataLoader.mk (sample_images (100 * 100)) 100 false) (seq 0 100)
    = Some batch /\
    files st2 = [("generated_sample.png"%string, generated);
                 ("reconstructions.png"%string, reconstructions);
                 ("orig_data.png"%string, batch)].
Proof.
  apply (@orig_file_is_first_test_batch still_source frozen_autograd script_hyper
           (DataLoader.mk (sample_images (100 * 100)) 100 false)
           (sample_state script_hyper)).
  - cbn [batch_size script_hyper]. lia.
  - reflexivity.
  - apply sample_loader_ok.
  - reflexivity.
  - cbn [DataLoader.dataset batch_size script_hyper]. rewrite sample_images_length. lia.
  - apply sample_model_ok.
Defined.

Lemma pass_visits_every_sample_once_witness :
  let loader := DataLoader.mk (sample_images (2 * 100 + 50)) 100 true in
  let batches := @DataLoader.index_batches loader
                   (fst (@DataLoader.sampler still_source loader tt)) in
  concat batches = fst (@DataLoader.sampler still_source loader tt) /\
  Permutation (concat batches) (seq 0 (length (DataLoader.dataset loader))) /\
  NoDup (concat batches) /\
  Forall (fun b => (0 < length b <= 100)%nat) batches.
Proof.
  apply (@pass_visits_every_sample_once still_source
           (DataLoader.mk (sample_images (2 * 100 + 50)) 100 true) tt).
  cbn [DataLoader.batch_size]. lia.
Defined.

Lemma setup_builds_fitting_model_witness :
  @setup still_source frozen_autograd zero_batch_hyper
    (sample_images (600 * 100)) (sample_images (100 * 100)) tt = None /\
  exists train_loader test_loader st0,
    @setup still_source frozen_autograd script_hyper
      (sample_images (600 * 100)) (sample_images (100 * 100)) tt
    = Some (train_loader, test_loader, st0) /\
    map shape (Model.parameters (model st0))
    = [[400; 784]; [400]; [20; 400]; [20]; [20; 400]; [20];
       [400; 20]; [400]; [784; 400]; [784]]%nat /\
    Forall wf (Model.parameters (model st0)).
Proof.
  split.
  - apply (@setup_builds_fitting_model still_source frozen_autograd zero_batch_hyper).
    reflexivity.
  - destruct (@setup_builds_fitting_model still_source frozen_autograd script_hyper
                (sample_images (600 * 100)) (sample_images (100 * 100)) tt) as (_ & H).
    destruct H as (trl & tel & st0 & E & _ & _ & S & W & _).
    + cbn [batch_size script_hyper]. lia.
    + exists trl, tel, st0. split; [exact E|]. split; [exact S | exact W].
Defined.

Lemma small_images_ok n : Forall (image_ok [1; 20; 20]%nat) (small_images n).
Proof.
  apply Forall_forall. intros im Him. apply repeat_spec in Him. subst im.
  split; [reflexivity|]. split; [apply full_wf|]. apply sample_range, half_in_unit.
Qed.

Lemma evaluation_short_test_set_raises_witness :
  @evaluation still_source frozen_autograd script_hyper
    (DataLoader.mk (sample_images 50) 100 false) (sample_state script_hyper)
  = None.
Proof.
  apply (@evaluation_short_test_set_raises still_source frozen_autograd script_hyper
           [1; 28; 28]%nat).
  - apply sample_loader_ok.
  - reflexivity.
  - cbn [x_dim script_hyper]. lia.
  - cbn [DataLoader.dataset batch_size script_hyper]. rewrite sample_images_length. lia.
Defined.

Lemma saving_needs_width_784_witness :
  exists st1,
    @evaluation still_source frozen_autograd small_image_hyper
      (DataLoader.mk (small_images (2 * 100)) 100 false) (sample_state small_image_hyper)
    = Some st1 /\
    write_images small_image_hyper st1 = None.
Proof.
  apply (@saving_needs_width_784 still_source frozen_autograd small_image_hyper
           [1; 20; 20]%nat).
  - cbn [batch_size small_image_hyper]. lia.
  - split; [reflexivity|]. split; [apply small_images_ok | reflexivity].
  - reflexivity.
  - cbn [DataLoader.dataset batch_size small_image_hyper]. unfold small_images.
    rewrite repeat_length. lia.
  - apply sample_model_ok.
  - cbn [x_dim small_image_hyper]. lia.
Defined.

Lemma main_no_test_data_raises_witness :
  @main still_source frozen_autograd zero_epochs_hyper (sample_images (600 * 100)) [] tt
  = None.
Proof.
  apply (@main_no_test_data_raises still_source frozen_autograd zero_epochs_hyper).
  - cbn [batch_size zero_epochs_hyper]. lia.
  - reflexivity.
Defined.

Lemma main_empty_test_set_saves_training_batch_witness :
  exists st indices batch generated reconstructions,
    @main still_source frozen_autograd script_hyper (sample_images (600 * 100)) [] tt
    = Some st /\
    batch_ok script_hyper (DataLoader.mk (sample_images (600 * 100)) 100 true) indices /\
    DataLoader.fetch (DataLoader.mk (sample_images (600 * 100)) 100 true) indices
    = Some batch /\
    files st = [("generated_sample.png"%string, generated);
                ("reconstructions.png"%string, reconstructions);
                ("orig_data.png"%string, batch)].
Proof.
  apply (@main_empty_test_set_saves_training_batch still_source frozen_autograd
           script_hyper (sample_images (600 * 100)) 600 tt).
  - apply script_hyper_ok.
  - reflexivity.
  - cbn [epochs script_hyper]. lia.
  - apply sample_images_ok.
  - now rewrite sample_images_length.
  - lia.
Defined.

(** ** More on the loss and the model *)

(** X19: on a non-empty reconstruction with values strictly inside (0,1)
    and an original with values in [0,1], the loss is strictly positive: it
    never reaches 0, however good the reconstruction. *)
Theorem loss_function_positive x x_hat mean log_var :
  shape x = shape x_hat -> wf x -> wf x_hat ->
  shape mean = shape log_var -> wf mean -> wf log_var ->
  (0 < numel (shape x_hat))%nat ->
  Forall (fun v => 0 <= v <= 1) (data x) ->
  Forall (fun p => 0 < p < 1) (data x_hat) ->
  exists loss v,
    loss_function x x_hat mean log_var = Some loss /\ item loss = Some v /\ 0 < v.
Proof.
  intros Sx Wx Wh Sm Wm Wl Ne Rx Rh.
  eexists; eexists. split; [apply loss_function_eq; auto using Forall_weaken_unit|].
  split; [reflexivity|].
  apply spec_loss_pos; try assumption; unfold wf in *; congruence.
Qed.

Lemma loss_function_positive_witness :
  exists loss v,
    loss_function (full 0.5 [100; 784]%nat) (full 0.5 [100; 784]%nat)
                  (full 0 [100; 20]%nat) (full 0 [100; 20]%nat)
    = Some loss /\ item loss = Some v /\ 0 < v.
Proof.
  apply (loss_function_positive
           (full 0.5 [100; 784]%nat) (full 0.5 [100; 784]%nat)
           (full 0 [100; 20]%nat) (full 0 [100; 20]%nat)).
  - reflexivity.
  - apply full_wf.
  - apply full_wf.
  - reflexivity.
  - apply full_wf.
  - apply full_wf.
  - cbn [shape full numel fold_right]. lia.
  - apply sample_range, half_in_unit.
  - apply sample_range_strict, half_inside_unit.
Defined.

(** X20: with the noise at 0 the composite model is the decoder applied to
    the encoder's mean: the reconstruction it returns is what the decoder
    gives on the mean. *)
Theorem model_zero_noise_decodes_mean {RS : RandomSource}
    (m : Model.t) (x : Tensor) (n i h l : nat) (g : Generator) :
  Model.well_formed i h l m -> shape x = [n; i] ->
  fst (randn (numel [n; l]) g) = repeat 0 (numel [n; l]) ->
  exists x_hat mean log_var g',
    Model.forward m x g = Some (x_hat, mean, log_var, g') /\
    Decoder.forward (Model.decoder m) mean g' = Some (x_hat, g').
Proof.
  intros (We & Wd) Sx Z.
  destruct (Encoder_forward_eq _ _ _ _ _ _ We Sx)
    as (mean & log_var & S2 & Wm & S3 & Wl & E).
  destruct (Decoder_forward_eq (Model.decoder m) mean n l h i Wd S2)
    as (out & So & Wo & Ed).
  exists (sigmoid out), mean, log_var. eexists.
  split; [| apply Ed].
  unfold Model.forward, bind, ret. rewrite E, Z.
  replace (mkTensor [n; l]
             (map2 Rplus (data mean)
                (map2 Rmult (map exp (map (fun v => 0.5 * v) (data log_var)))
                   (repeat 0 (numel [n; l])))))
    with mean.
  - rewrite Ed. reflexivity.
  - destruct mean as [sm dm]. cbn [shape data] in *. subst sm. f_equal.
    replace (numel [n; l])
      with (length (map exp (map (fun v => 0.5 * v) (data log_var))))
      by (rewrite !length_map; unfold wf in Wl; congruence).
    symmetry. apply map2_zero_noise. rewrite !length_map.
    unfold wf in *. cbn [data shape] in *. congruence.
Qed.

Lemma model_zero_noise_decodes_mean_witness :
  exists x_hat mean log_var g',
    @Model.forward still_source (sample_model 0.1 784 400 20)
      (full 0.5 [100; 784]%nat) tt = Some (x_hat, mean, log_var, g') /\
    @Decoder.forward still_source (Model.decoder (sample_model 0.1 784 400 20)) mean g'
    = Some (x_hat, g').
Proof.
  apply (@model_zero_noise_decodes_mean still_source (sample_model 0.1 784 400 20)
           (full 0.5 [100; 784]%nat) 100 784 400 20 tt).
  - apply sample_model_ok.
  - reflexivity.
  - reflexivity.
Defined.
